(** * Luma-AI: the layer compositor and the undo/redo timeline

    A shallow embedding of the editor core of the repository:

    - [src/types.ts]: [Layer], [HistoryItem], [AppState];
    - [src/utils/imageUtils.ts], first part: [getMimeTypeFromDataUri],
      [composeLayers], [loadImage], [cropImage];
    - [src/utils/imageUtils.ts], second part (the [App] component):
      [captureHistorySnapshot], [handleUndo], [handleRedo],
      [handleImageUpload], [updateLayer], [handleReorderLayer],
      [applyCurrentCrop] and the layer-creation handlers.

    Modelling decisions, each repeated where it is used:

    - a JS [number] is a rational ([Q]): the finite values only, with exact
      arithmetic.  [NaN] and the infinities are outside the model; numeric
      equality is [Qeq];
    - array indices handed to [splice] and [slice] are integers ([Z]);
    - [App] never assigns to a property of an existing layer object nor to a
      slot of an array it has published: every update builds a new object
      or a new array.  A reference is therefore modelled as the address it
      received when it was allocated, paired with its contents ([Obj]);
    - the browser (image decoding, canvas availability, raster encoding) is
      a record of oracles ([Browser]);
    - a [Promise] is modelled by its final fate ([Promise.t]); a handler
      runs to completion before the next one starts. *)

From Stdlib Require Import List ZArith QArith Bool String Ascii Lia.
From Stdlib Require Import DecimalString Permutation.
From Stdlib Require Import Qabs Qminmax.
Import ListNotations.

Set Implicit Arguments.
Local Open Scope Z_scope.

(** ** JavaScript values *)

Module Js.

(** Finite JS numbers, exact. *)
Definition number := Q.

(** [ToBoolean] on a number: [0] is the only falsy finite number. *)
Definition truthyNum (n : number) : bool := negb (Qeq_bool n 0%Q).

(** [ToBoolean] on a string: the empty string is the only falsy one. *)
Definition truthyStr (s : string) : bool :=
  match s with EmptyString => false | String _ _ => true end.

(** [v || d] where [v] is [number | undefined]. *)
Definition numOr (v : option number) (d : number) : number :=
  match v with
  | Some n => if truthyNum n then n else d
  | None => d
  end.

(** [v || d] where [v] is [string | undefined]. *)
Definition strOr (v : option string) (d : string) : string :=
  match v with
  | Some s => if truthyStr s then s else d
  | None => d
  end.

(** [if (v)] where [v] is [string | undefined | null]. *)
Definition truthyOptStr (v : option string) : bool :=
  match v with Some s => truthyStr s | None => false end.

(** [String(n)] for an integer [n]. *)
Definition showZ (z : Z) : string := NilZero.string_of_int (Z.to_int z).

(** [arr.length] *)
Definition length {A} (arr : list A) : Z := Z.of_nat (List.length arr).

(** [arr[i]] for an integer [i]: [None] is [undefined]. *)
Definition get {A} (arr : list A) (i : Z) : option A :=
  if i <? 0 then None else nth_error arr (Z.to_nat i).

(** The clamping of a relative index that [slice] and [splice] share:
    a negative index counts from the end. *)
Definition clampIndex (len rel : Z) : Z :=
  if rel <? 0 then Z.max (len + rel) 0 else Z.min rel len.

(** [arr.slice(0, end)] *)
Definition slice0 {A} (arr : list A) (end_ : Z) : list A :=
  firstn (Z.to_nat (clampIndex (length arr) end_)) arr.

(** [arr.splice(start, deleteCount, ...items)]: the removed elements and
    the array as it is left. *)
Definition splice {A} (arr : list A) (start deleteCount : Z) (items : list A)
  : list A * list A :=
  let len := length arr in
  let actualStart := clampIndex len start in
  let actualDeleteCount := Z.min (Z.max deleteCount 0) (len - actualStart) in
  let s := Z.to_nat actualStart in
  let d := Z.to_nat actualDeleteCount in
  (firstn d (skipn s arr),
   firstn s arr ++ items ++ skipn (s + d) arr).

End Js.

Bind Scope Q_scope with Js.number.

(** ** References

    [addr] is the identity of a heap object; two references are the same
    reference exactly when their addresses are equal. *)

Definition Addr := positive.

Record Obj (A : Type) : Type := mkObj { addr : Addr; val : A }.
Arguments mkObj {A} _ _.
Arguments addr {A} _.
Arguments val {A} _.

(** A computation that allocates: it is handed the next free address and
    returns the one that is free afterwards. *)
Definition Alloc (A : Type) : Type := Addr -> A * Addr.

Definition ret {A} (a : A) : Alloc A := fun n => (a, n).

Definition bind {A B} (m : Alloc A) (k : A -> Alloc B) : Alloc B :=
  fun n => let (a, n') := m n in k a n'.

(** [new] allocates one object holding [v]. *)
Definition new {A} (v : A) : Alloc (Obj A) :=
  fun n => (mkObj n v, Pos.succ n).

Declare Scope alloc_scope.
Delimit Scope alloc_scope with alloc.
Notation "x <- m ;; k" := (bind m (fun x => k))
  (at level 61, m at next level, right associativity) : alloc_scope.

Fixpoint mapM {A B} (f : A -> Alloc B) (l : list A) : Alloc (list B) :=
  match l with
  | [] => ret []
  | a :: l' => (b <- f a ;; bs <- mapM f l' ;; ret (b :: bs))%alloc
  end.

(** ** The data model of [src/types.ts] *)

Inductive AppMode := GENERATE | EDIT | ANALYZE.
Inductive AspectRatio := ar_1_1 | ar_16_9 | ar_9_16 | ar_4_3 | ar_3_4.
Inductive FilterType := filter_none | grayscale | sepia | invert.
Inductive Resolution := low | medium | high.
Inductive ProcessingStatus := idle | loading | success | error.
Inductive LayerType := image | text | drawing.
Inductive GradientKind := linear | radial.

Definition LayerType_eqb (a b : LayerType) : bool :=
  match a, b with
  | image, image | text, text | drawing, drawing => true
  | _, _ => false
  end.

Record Adjustments := mkAdjustments {
  brightness : Js.number;
  contrast : Js.number;
  saturation : Js.number;
  hue : Js.number;
  blur : Js.number
}.

Record GradientSettings := mkGradientSettings {
  gradientType : GradientKind;
  startColor : string;
  endColor : string;
  angle : Js.number;
  gradientOpacity : Js.number
}.

Record BrushSettings := mkBrushSettings {
  brushColor : string;
  brushSize : Js.number;
  brushOpacity : Js.number
}.

(** [interface Layer].  An optional property ([width?: number]) is an
    [option]; [None] is [undefined]. *)
Module Layer.
Record t := mk {
  id : string;
  type : LayerType;
  name : string;
  visible : bool;
  locked : bool;
  opacity : Js.number;
  x : Js.number;
  y : Js.number;
  rotation : Js.number;
  scale : Js.number;
  width : option Js.number;
  height : option Js.number;
  src : option string;
  text : option string;
  fontSize : option Js.number;
  color : option string;
  fontFamily : option string;
  fontWeight : option string
}.
End Layer.

(** [Partial<Layer>], the argument of [updateLayer].  [None] is a key that
    the object literal does not have.  For a property that [Layer] itself
    declares optional the key may be present and hold [undefined]
    ([Some None]). *)
Module Partial.
Record t := mk {
  id : option string;
  type : option LayerType;
  name : option string;
  visible : option bool;
  locked : option bool;
  opacity : option Js.number;
  x : option Js.number;
  y : option Js.number;
  rotation : option Js.number;
  scale : option Js.number;
  width : option (option Js.number);
  height : option (option Js.number);
  src : option (option string);
  text : option (option string);
  fontSize : option (option Js.number);
  color : option (option string);
  fontFamily : option (option string);
  fontWeight : option (option string)
}.

(** The empty object literal [{}]. *)
Definition empty : t :=
  mk None None None None None None None None None
     None None None None None None None None None.
End Partial.

(** One key of the spread [{ ...l, ...updates }]: the later object wins
    when it has the key. *)
Definition over {A} (u : option A) (old : A) : A :=
  match u with Some v => v | None => old end.

(** [{ ...l, ...updates }] *)
Definition spread (l : Layer.t) (u : Partial.t) : Layer.t :=
  Layer.mk
    (over (Partial.id u) (Layer.id l))
    (over (Partial.type u) (Layer.type l))
    (over (Partial.name u) (Layer.name l))
    (over (Partial.visible u) (Layer.visible l))
    (over (Partial.locked u) (Layer.locked l))
    (over (Partial.opacity u) (Layer.opacity l))
    (over (Partial.x u) (Layer.x l))
    (over (Partial.y u) (Layer.y l))
    (over (Partial.rotation u) (Layer.rotation l))
    (over (Partial.scale u) (Layer.scale l))
    (over (Partial.width u) (Layer.width l))
    (over (Partial.height u) (Layer.height l))
    (over (Partial.src u) (Layer.src l))
    (over (Partial.text u) (Layer.text l))
    (over (Partial.fontSize u) (Layer.fontSize l))
    (over (Partial.color u) (Layer.color l))
    (over (Partial.fontFamily u) (Layer.fontFamily l))
    (over (Partial.fontWeight u) (Layer.fontWeight l)).

(** What a slot of a [Layer[]] holds at run time.  The type says [Layer];
    [splice] can leave [undefined] there and a JSON round trip turns that
    into [null]. *)
Inductive Elem :=
| Undefined
| Null
| Ref (o : Obj Layer.t).

(** A [Layer[]] value: a reference to an array. *)
Definition LayerArray := Obj (list Elem).

(** The layers an array holds, when every slot is one. *)
Fixpoint layersOf (els : list Elem) : option (list (Obj Layer.t)) :=
  match els with
  | [] => Some []
  | Ref o :: els' =>
      match layersOf els' with
      | Some os => Some (o :: os)
      | None => None
      end
  | _ :: _ => None
  end.

(** [interface HistoryItem] *)
Module HistoryItem.
Record t := mk {
  id : string;
  image : string;
  layers : LayerArray;
  label : string;
  timestamp : Z
}.
End HistoryItem.

(** [interface AppState] *)
Module AppState.
Record t := mk {
  mode : AppMode;
  status : ProcessingStatus;
  layers : LayerArray;
  activeLayerId : option string;
  uploadedImage : option string;
  originalUploadedImage : option string;
  resultImage : option string;
  analysisResult : option string;
  prompt : string;
  errorMessage : option string;
  aspectRatio : AspectRatio;
  resolution : Resolution;
  activeFilter : FilterType;
  editHistory : list HistoryItem.t;
  currentHistoryIndex : Z
}.
End AppState.

(** ** The canvas 2D context

    The context is modelled by the calls [imageUtils.ts] makes on it and by
    what they paint: [run] keeps the drawing state and its [save] stack and
    records every painting call together with the state it was issued in.
    Pixels are the browser's business ([Browser.encode]). *)

Module Canvas.

(** An angle in radians, kept as a multiple of [Math.PI]. *)
Record Radians := piTimes { overPi : Js.number }.

(** [(deg * Math.PI) / 180] *)
Definition ofDegrees (deg : Js.number) : Radians := piTimes (deg / 180)%Q.

(** [ctx.font], a template string [`${weight} ${size}px ${family}`],
    kept in its three parts. *)
Record Font := mkFont { weight : string; sizePx : Js.number; family : string }.

(** [HTMLImageElement] once loaded: [width] and [height] of an image that
    is not in the document are its natural size. *)
Record Image := mkImage { imgSrc : string; imgWidth : Js.number; imgHeight : Js.number }.

Inductive Op :=
| save
| restore
| setGlobalAlpha (a : Js.number)
| translate (x y : Js.number)
| rotate (r : Radians)
| drawImage (img : Image) (x y w h : Js.number)
| drawImageSub (img : Image) (sx sy sw sh dx dy dw dh : Js.number)
| setFont (f : Font)
| setFillStyle (c : string)
| setTextBaseline (b : string)
| fillText (t : string) (x y : Js.number).

(** One step of the current transformation matrix. *)
Inductive Xform :=
| Translate (x y : Js.number)
| Rotate (r : Radians).

(** The drawing state that [save] and [restore] stack.  [transform] lists
    the transformations applied so far, the first one first. *)
Record State := mkState {
  globalAlpha : Js.number;
  transform : list Xform;
  font : Font;
  fillStyle : string;
  textBaseline : string
}.

(** The state of a fresh context. *)
Definition initial : State :=
  mkState 1%Q [] (mkFont "normal" 10%Q "sans-serif") "#000000" "alphabetic".

Inductive Shape :=
| PaintImage (img : Image) (x y w h : Js.number)
| PaintImageSub (img : Image) (sx sy sw sh dx dy dw dh : Js.number)
| PaintText (t : string) (x y : Js.number).

(** A painting call and the state it was painted in. *)
Record Painted := mkPainted { shape : Shape; under : State }.

Record Machine := mkMachine {
  current : State;
  saved : list State;
  painted : list Painted
}.

Definition start : Machine := mkMachine initial [] [].

Definition paint (s : Shape) (m : Machine) : Machine :=
  mkMachine (current m) (saved m) (painted m ++ [mkPainted s (current m)]).

Definition setCurrent (s : State) (m : Machine) : Machine :=
  mkMachine s (saved m) (painted m).

Definition step (m : Machine) (o : Op) : Machine :=
  let c := current m in
  match o with
  | save => mkMachine c (c :: saved m) (painted m)
  | restore =>
      match saved m with
      | [] => m
      | s :: rest => mkMachine s rest (painted m)
      end
  | setGlobalAlpha a =>
      (* a value outside [0, 1] is ignored *)
      if Qle_bool 0%Q a && Qle_bool a 1%Q
      then setCurrent (mkState a (transform c) (font c) (fillStyle c) (textBaseline c)) m
      else m
  | translate x y =>
      setCurrent (mkState (globalAlpha c) (transform c ++ [Translate x y])
                          (font c) (fillStyle c) (textBaseline c)) m
  | rotate r =>
      setCurrent (mkState (globalAlpha c) (transform c ++ [Rotate r])
                          (font c) (fillStyle c) (textBaseline c)) m
  | drawImage img x y w h => paint (PaintImage img x y w h) m
  | drawImageSub img sx sy sw sh dx dy dw dh =>
      paint (PaintImageSub img sx sy sw sh dx dy dw dh) m
  | setFont f =>
      setCurrent (mkState (globalAlpha c) (transform c) f (fillStyle c) (textBaseline c)) m
  | setFillStyle col =>
      setCurrent (mkState (globalAlpha c) (transform c) (font c) col (textBaseline c)) m
  | setTextBaseline b =>
      setCurrent (mkState (globalAlpha c) (transform c) (font c) (fillStyle c) b) m
  | fillText t x y => paint (PaintText t x y) m
  end.

Definition run (m : Machine) (ops : list Op) : Machine := fold_left step ops m.

(** What [canvas.toDataURL] encodes: the size of the canvas and what was
    painted on it. *)
Record Raster := mkRaster {
  rasterWidth : Js.number;
  rasterHeight : Js.number;
  content : list Painted
}.

(** *** Where a point of user space lands

    The transformation matrix as a map on points, for a rotation given
    by its cosine and sine. *)
Definition Point := (Js.number * Js.number)%type.

Definition applyXform (trig : Radians -> Js.number * Js.number)
           (t : Xform) (p : Point) : Point :=
  let (px, py) := p in
  match t with
  | Translate tx ty => (px + tx, py + ty)%Q
  | Rotate r => let (c, s) := trig r in (c * px - s * py, s * px + c * py)%Q
  end.

(** A point given in the coordinates in force after [ts], mapped to the
    coordinates of the canvas: the last transformation applies first. *)
Definition toCanvas (trig : Radians -> Js.number * Js.number)
           (ts : list Xform) (p : Point) : Point :=
  fold_right (applyXform trig) p ts.

Definition samePoint (p q : Point) : Prop :=
  (fst p == fst q)%Q /\ (snd p == snd q)%Q.

End Canvas.

(** ** Promises and the browser *)

Module Promise.
(** The fate of a promise.  [Pending] is one that never settles. *)
Inductive t (A : Type) :=
| Resolved (a : A)
| Rejected (reason : string)
| Pending.
Arguments Resolved {A} _.
Arguments Rejected {A} _.
Arguments Pending {A}.
End Promise.

(** What the code asks of the browser. *)
Record Browser := mkBrowser {
  (** Loading [src] into an [Image]: the natural size on [onload], [None]
      on [onerror].  The flag is [img.crossOrigin = "anonymous"]. *)
  decode : bool -> string -> option (Js.number * Js.number);
  (** [canvas.getContext('2d')] is not [null]. *)
  context2d : bool;
  (** [canvas.toDataURL(mime)] *)
  encode : Canvas.Raster -> string -> string
}.

(** ** [src/utils/imageUtils.ts]: the canvas helpers *)

(** [\w] of a JS regular expression *)
Definition isWordChar (c : ascii) : bool :=
  let n := nat_of_ascii c in
  ((48 <=? n) && (n <=? 57) || (65 <=? n) && (n <=? 90)
   || (97 <=? n) && (n <=? 122) || (n =? 95))%nat.

(** [s] without its prefix [p], when it has it. *)
Fixpoint dropPrefix (p s : string) : option string :=
  match p, s with
  | EmptyString, _ => Some s
  | String a p', String b s' => if Ascii.eqb a b then dropPrefix p' s' else None
  | String _ _, EmptyString => None
  end.

(** The longest run of word characters that [s] starts with, and the rest. *)
Fixpoint spanWord (s : string) : string * string :=
  match s with
  | EmptyString => (EmptyString, EmptyString)
  | String c s' =>
      if isWordChar c
      then let (w, rest) := spanWord s' in (String c w, rest)
      else (EmptyString, s)
  end.

(** [dataUri.match(/^data:(image\/\w+);base64,/)]: [;] is not a word
    character, so the greedy [\w+] can only stop at the end of the run. *)
Definition getMimeTypeFromDataUri (dataUri : string) : string :=
  match dropPrefix "data:image/" dataUri with
  | Some rest =>
      let (w, rest') := spanWord rest in
      match w, dropPrefix ";base64," rest' with
      | String _ _, Some _ => ("image/" ++ w)%string
      | _, _ => "image/png"%string
      end
  | None => "image/png"%string
  end.

(** [loadImage(src)]: resolves with the element on [onload], rejects on
    [onerror]. *)
Definition loadImage (b : Browser) (src : string) : Promise.t Canvas.Image :=
  match decode b true src with
  | Some (w, h) => Promise.Resolved (Canvas.mkImage src w h)
  | None => Promise.Rejected "error"
  end.

(** What [composeLayers] does for a visible layer between [ctx.save()] and
    [ctx.restore()]: the calls it makes on the context and what it writes
    to the console. *)
Definition layerBody (b : Browser) (layer : Layer.t)
  : list Canvas.Op * list string :=
  if LayerType_eqb (Layer.type layer) image
     || LayerType_eqb (Layer.type layer) drawing
  then
    match Layer.src layer with
    | Some src =>
        if Js.truthyStr src then
          match loadImage b src with
          | Promise.Resolved img =>
              let x := Layer.x layer in
              let y := Layer.y layer in
              let w := (Js.numOr (Layer.width layer) (Canvas.imgWidth img)
                        * Layer.scale layer)%Q in
              let h := (Js.numOr (Layer.height layer) (Canvas.imgHeight img)
                        * Layer.scale layer)%Q in
              ((if negb (Qeq_bool (Layer.rotation layer) 0)
                then [Canvas.translate (x + w / 2) (y + h / 2);
                      Canvas.rotate (Canvas.ofDegrees (Layer.rotation layer));
                      Canvas.translate (- (x + w / 2)) (- (y + h / 2))]%Q
                else [])
               ++ [Canvas.drawImage img x y w h], [])
          | _ =>
              ([], [("Failed to load layer " ++ Layer.id layer)%string])
          end
        else ([], [])
    | None => ([], [])
    end
  else if LayerType_eqb (Layer.type layer) text
          && Js.truthyOptStr (Layer.text layer)
  then
    let t := match Layer.text layer with Some t => t | None => EmptyString end in
    let fontSize := (Js.numOr (Layer.fontSize layer) 32 * Layer.scale layer)%Q in
    let x := Layer.x layer in
    let y := Layer.y layer in
    ([Canvas.setFont (Canvas.mkFont (Js.strOr (Layer.fontWeight layer) "normal")
                                    fontSize
                                    (Js.strOr (Layer.fontFamily layer) "sans-serif"));
      Canvas.setFillStyle (Js.strOr (Layer.color layer) "#ffffff");
      Canvas.setTextBaseline "top"]
     ++ (if negb (Qeq_bool (Layer.rotation layer) 0)
         then [Canvas.translate x y;
               Canvas.rotate (Canvas.ofDegrees (Layer.rotation layer));
               Canvas.fillText t 0 0]%Q
         else [Canvas.fillText t x y]), [])
  else ([], []).

(** The body of the [for (const layer of layers)] loop of [composeLayers]
    for one layer: [continue] when the layer is hidden, else [save], the
    alpha, the layer's own calls and [restore]. *)
Definition layerCalls (b : Browser) (layer : Layer.t)
  : list Canvas.Op * list string :=
  if negb (Layer.visible layer) then ([], [])
  else
    let (body, log) := layerBody b layer in
    ([Canvas.save; Canvas.setGlobalAlpha (Layer.opacity layer / 100)%Q]
       ++ body ++ [Canvas.restore], log).

(** A run of the loop: the calls made, the console output, and whether the
    loop was left by a [TypeError] ([layer.visible] where [layer] is
    [undefined] or [null]). *)
Record LoopRun := mkLoopRun {
  calls : list Canvas.Op;
  logged : list string;
  threw : bool
}.

Fixpoint composeLoop (b : Browser) (layers : list Elem) : LoopRun :=
  match layers with
  | [] => mkLoopRun [] [] false
  | Ref o :: rest =>
      let (ops, log) := layerCalls b (val o) in
      let r := composeLoop b rest in
      mkLoopRun (ops ++ calls r) (log ++ logged r) (threw r)
  | _ :: _ => mkLoopRun [] [] true
  end.

Record Composed := mkComposed {
  result : Promise.t string;
  issued : list Canvas.Op;
  console : list string
}.

(** [composeLayers(layers, width, height)].  The executor of the promise is
    an [async] function: an exception in it settles nothing, the promise
    stays pending. *)
Definition composeLayers (b : Browser) (layers : list Elem)
           (width height : Js.number) : Composed :=
  if negb (context2d b)
  then mkComposed (Promise.Rejected "Canvas context not available") [] []
  else
    let r := composeLoop b layers in
    mkComposed
      (if threw r then Promise.Pending
       else Promise.Resolved
              (encode b (Canvas.mkRaster width height
                           (Canvas.painted (Canvas.run Canvas.start (calls r))))
                      "image/png"))
      (calls r) (logged r).

(** The rectangle of a crop, [{ x, y, width, height }]. *)
Module Rect.
Record t := mk {
  x : Js.number;
  y : Js.number;
  width : Js.number;
  height : Js.number
}.

End Rect.

(** [cropImage(dataUri, crop)] *)
Definition cropImage (b : Browser) (dataUri : string) (crop : Rect.t)
  : Promise.t string :=
  match decode b false dataUri with
  | Some (w, h) =>
      if negb (context2d b)
      then Promise.Rejected "Canvas context not available"
      else
        let img := Canvas.mkImage dataUri w h in
        let ops :=
          [Canvas.drawImageSub img
             (Rect.x crop) (Rect.y crop) (Rect.width crop) (Rect.height crop)
             0 0 (Rect.width crop) (Rect.height crop)]%Q in
        Promise.Resolved
          (encode b (Canvas.mkRaster (Rect.width crop) (Rect.height crop)
                       (Canvas.painted (Canvas.run Canvas.start ops)))
                  (getMimeTypeFromDataUri dataUri))
  | None => Promise.Rejected "error"
  end.

(** ** The [App] component

    [AppState] is the [state] of [useState<AppState>]; the other [useState]
    cells the handlers below read or write are kept next to it.
    [nextAddr] is the allocator, [output] the console. *)

Record Dimensions := mkDimensions {
  displayedWidth : Js.number;     (* [imageDimensions.width] *)
  displayedHeight : Js.number;    (* [imageDimensions.height] *)
  naturalWidth : Js.number;
  naturalHeight : Js.number
}.

Record Editor := mkEditor {
  state : AppState.t;
  adjustments : Adjustments;
  gradientSettings : GradientSettings;
  brushSettings : BrushSettings;
  showCropTools : bool;
  showTextTools : bool;
  showLayersPanel : bool;
  cropSelection : option Rect.t;
  imageDimensions : option Dimensions;
  zoom : Js.number;
  pan : Js.number * Js.number;
  nextAddr : Addr;
  output : list string
}.

Definition DEFAULT_ADJUSTMENTS : Adjustments := mkAdjustments 100 100 100 0 0.
Definition DEFAULT_GRADIENT : GradientSettings :=
  mkGradientSettings linear "#3b82f6" "#a855f7" 135 50.
Definition DEFAULT_BRUSH : BrushSettings := mkBrushSettings "#ef4444" 10 100.

(** The initial value of [useState<AppState>], with its empty [layers]
    array at address [1]. *)
Definition initialState : AppState.t :=
  AppState.mk GENERATE idle (mkObj 1%positive []) None None None None None
              EmptyString None ar_1_1 high filter_none [] (-1).

Definition initialEditor : Editor :=
  mkEditor initialState DEFAULT_ADJUSTMENTS DEFAULT_GRADIENT DEFAULT_BRUSH
           false false false None None 1 (0, 0)%Q 2%positive [].

(** [setState(prev => f(prev))] *)
Definition setState (f : AppState.t -> AppState.t) (ed : Editor) : Editor :=
  mkEditor (f (state ed)) (adjustments ed) (gradientSettings ed) (brushSettings ed)
           (showCropTools ed) (showTextTools ed) (showLayersPanel ed)
           (cropSelection ed) (imageDimensions ed) (zoom ed) (pan ed)
           (nextAddr ed) (output ed).

(** [{ ...prev, layers }] *)
Definition withLayers (l : LayerArray) (s : AppState.t) : AppState.t :=
  AppState.mk (AppState.mode s) (AppState.status s) l (AppState.activeLayerId s)
    (AppState.uploadedImage s) (AppState.originalUploadedImage s)
    (AppState.resultImage s) (AppState.analysisResult s) (AppState.prompt s)
    (AppState.errorMessage s) (AppState.aspectRatio s) (AppState.resolution s)
    (AppState.activeFilter s) (AppState.editHistory s)
    (AppState.currentHistoryIndex s).

(** [{ ...prev, layers, activeLayerId }] *)
Definition withLayersActive (l : LayerArray) (a : option string)
           (s : AppState.t) : AppState.t :=
  AppState.mk (AppState.mode s) (AppState.status s) l a
    (AppState.uploadedImage s) (AppState.originalUploadedImage s)
    (AppState.resultImage s) (AppState.analysisResult s) (AppState.prompt s)
    (AppState.errorMessage s) (AppState.aspectRatio s) (AppState.resolution s)
    (AppState.activeFilter s) (AppState.editHistory s)
    (AppState.currentHistoryIndex s).

(** [{ ...prev, editHistory, currentHistoryIndex }] *)
Definition withHistory (h : list HistoryItem.t) (i : Z)
           (s : AppState.t) : AppState.t :=
  AppState.mk (AppState.mode s) (AppState.status s) (AppState.layers s)
    (AppState.activeLayerId s)
    (AppState.uploadedImage s) (AppState.originalUploadedImage s)
    (AppState.resultImage s) (AppState.analysisResult s) (AppState.prompt s)
    (AppState.errorMessage s) (AppState.aspectRatio s) (AppState.resolution s)
    (AppState.activeFilter s) h i.

(** [{ ...prev, currentHistoryIndex, layers, resultImage: null }] *)
Definition withRestored (i : Z) (l : LayerArray) (s : AppState.t) : AppState.t :=
  AppState.mk (AppState.mode s) (AppState.status s) l (AppState.activeLayerId s)
    (AppState.uploadedImage s) (AppState.originalUploadedImage s)
    None (AppState.analysisResult s) (AppState.prompt s)
    (AppState.errorMessage s) (AppState.aspectRatio s) (AppState.resolution s)
    (AppState.activeFilter s) (AppState.editHistory s) i.

(** [{ ...prev, errorMessage }] *)
Definition withErrorMessage (m : option string) (s : AppState.t) : AppState.t :=
  AppState.mk (AppState.mode s) (AppState.status s) (AppState.layers s)
    (AppState.activeLayerId s)
    (AppState.uploadedImage s) (AppState.originalUploadedImage s)
    (AppState.resultImage s) (AppState.analysisResult s) (AppState.prompt s)
    m (AppState.aspectRatio s) (AppState.resolution s)
    (AppState.activeFilter s) (AppState.editHistory s)
    (AppState.currentHistoryIndex s).

Definition withNextAddr (n : Addr) (ed : Editor) : Editor :=
  mkEditor (state ed) (adjustments ed) (gradientSettings ed) (brushSettings ed)
           (showCropTools ed) (showTextTools ed) (showLayersPanel ed)
           (cropSelection ed) (imageDimensions ed) (zoom ed) (pan ed)
           n (output ed).

(** [console.error] *)
Definition consoleError (msgs : list string) (ed : Editor) : Editor :=
  mkEditor (state ed) (adjustments ed) (gradientSettings ed) (brushSettings ed)
           (showCropTools ed) (showTextTools ed) (showLayersPanel ed)
           (cropSelection ed) (imageDimensions ed) (zoom ed) (pan ed)
           (nextAddr ed) (output ed ++ msgs).

(** Runs an allocating computation on the editor's allocator. *)
Definition allocating {A} (m : Alloc A) (ed : Editor) : A * Editor :=
  let (a, n) := m (nextAddr ed) in (a, withNextAddr n ed).

(** What a handler leaves behind: the next editor, or an exception that
    escaped it. *)
Inductive Outcome :=
| Done (ed : Editor)
| Threw (what : string).

(** *** Deep copies *)

(** [JSON.parse(JSON.stringify(e))] on one slot: [undefined] in an array is
    written as [null]; an object comes back as a new object.  Strings,
    booleans and finite numbers come back as they were, and a property that
    holds [undefined] is dropped, which reads as [undefined] again. *)
Definition cloneElem (e : Elem) : Alloc Elem :=
  match e with
  | Ref o => (o' <- new (val o) ;; ret (Ref o'))%alloc
  | Undefined | Null => ret Null
  end.

(** [JSON.parse(JSON.stringify(layers))] *)
Definition jsonClone (a : LayerArray) : Alloc LayerArray :=
  (els <- mapM cloneElem (val a) ;; new els)%alloc.

(** *** History *)

(** [imageDimensions?.naturalWidth || 800] *)
Definition canvasWidth (ed : Editor) : Js.number :=
  Js.numOr (option_map naturalWidth (imageDimensions ed)) 800.

Definition canvasHeight (ed : Editor) : Js.number :=
  Js.numOr (option_map naturalHeight (imageDimensions ed)) 800.

(** The updater that [captureHistorySnapshot] hands to [setState] once the
    composite is there.  [tId] and [tStamp] are its two [Date.now()]. *)
Definition pushSnapshot (composite : string) (tId tStamp : Z) (ed : Editor)
  : Editor :=
  let prev := state ed in
  let newHistory :=
    Js.slice0 (AppState.editHistory prev) (AppState.currentHistoryIndex prev + 1) in
  let (copy, ed') := allocating (jsonClone (AppState.layers prev)) ed in
  let newItem :=
    HistoryItem.mk (Js.showZ tId) composite copy "Action" tStamp in
  let newHistory := newHistory ++ [newItem] in
  setState (withHistory newHistory (Js.length newHistory - 1)) ed'.

(** [captureHistorySnapshot()].  [render] is the editor as the closure of
    the handler saw it (the [state] of the render the handler belongs to);
    [ed] is the editor the queued updater finds. *)
Definition captureHistorySnapshot (b : Browser) (tId tStamp : Z)
           (render ed : Editor) : Editor :=
  if negb (Js.truthyOptStr (AppState.uploadedImage (state render))) then ed
  else
    let c := composeLayers b (val (AppState.layers (state render)))
                           (canvasWidth render) (canvasHeight render) in
    let ed := consoleError (console c) ed in
    match result c with
    | Promise.Resolved composite => pushSnapshot composite tId tStamp ed
    | _ => ed
    end.

(** [handleUndo()] *)
Definition handleUndo (ed : Editor) : Outcome :=
  let st := state ed in
  if AppState.currentHistoryIndex st >? 0 then
    let newIndex := AppState.currentHistoryIndex st - 1 in
    match Js.get (AppState.editHistory st) newIndex with
    | Some prevItem =>
        let (copy, ed') := allocating (jsonClone (HistoryItem.layers prevItem)) ed in
        Done (setState (withRestored newIndex copy) ed')
    | None => Threw "TypeError: prevItem is undefined"
    end
  else Done ed.

(** [handleRedo()] *)
Definition handleRedo (ed : Editor) : Outcome :=
  let st := state ed in
  if AppState.currentHistoryIndex st <? Js.length (AppState.editHistory st) - 1 then
    let newIndex := AppState.currentHistoryIndex st + 1 in
    match Js.get (AppState.editHistory st) newIndex with
    | Some nextItem =>
        let (copy, ed') := allocating (jsonClone (HistoryItem.layers nextItem)) ed in
        Done (setState (withRestored newIndex copy) ed')
    | None => Threw "TypeError: nextItem is undefined"
    end
  else Done ed.

(** [handleImageUpload(dataUri)]: one [baseLayer] object, held by two
    arrays, the one of the first history item and the one of the state. *)
Definition handleImageUpload (dataUri : string) (tId tStamp : Z) (ed : Editor)
  : Editor :=
  let mk :=
    (baseLayer <- new (Layer.mk "layer-base" image "Background" true true 100
                                0 0 0 1 None None (Some dataUri) None
                                None None None None) ;;
     historyLayers <- new [Ref baseLayer] ;;
     stateLayers <- new [Ref baseLayer] ;;
     ret (baseLayer, historyLayers, stateLayers))%alloc in
  let '((baseLayer, historyLayers, stateLayers), ed1) := allocating mk ed in
  let initialHistory :=
    HistoryItem.mk (Js.showZ tId) dataUri historyLayers "Original Upload" tStamp in
  let s := state ed1 in
  mkEditor
    (AppState.mk (AppState.mode s) (AppState.status s) stateLayers
       (Some (Layer.id (val baseLayer)))
       (Some dataUri) (Some dataUri) None None (AppState.prompt s)
       None (AppState.aspectRatio s) (AppState.resolution s)
       filter_none [initialHistory] 0)
    DEFAULT_ADJUSTMENTS DEFAULT_GRADIENT DEFAULT_BRUSH
    false (showTextTools ed1) (showLayersPanel ed1)
    None (imageDimensions ed1) 1 (0, 0)%Q
    (nextAddr ed1) (output ed1).

(** *** Layer management *)

(** [handleAddImageLayer(dataUri)] *)
Definition handleAddImageLayer (b : Browser) (dataUri : string)
           (tLayer tId tStamp : Z) (ed : Editor) : Editor :=
  let count := Js.length (val (AppState.layers (state ed))) in
  let mk :=
    (newLayer <- new (Layer.mk ("layer-" ++ Js.showZ tLayer) image
                               ("Image " ++ Js.showZ (count + 1)) true false 100
                               50 50 0 (1 # 2) (Some 300%Q) (Some 300%Q)
                               (Some dataUri) None None None None None) ;;
     arr <- new (val (AppState.layers (state ed)) ++ [Ref newLayer]) ;;
     ret (newLayer, arr))%alloc in
  let '((newLayer, arr), ed1) := allocating mk ed in
  let ed2 := setState (withLayersActive arr (Some (Layer.id (val newLayer)))) ed1 in
  captureHistorySnapshot b tId tStamp ed ed2.

(** The callback of [prev.layers.map(...)] in [updateLayer], run over the
    array: a layer with the given id is replaced by a new object, any other
    layer is kept as the reference it is, and reading [l.id] of a slot that
    holds no object throws ([None]). *)
Fixpoint mapUpdate (id : string) (updates : Partial.t) (els : list Elem)
  : Alloc (option (list Elem)) :=
  match els with
  | [] => ret (Some [])
  | Ref l :: rest =>
      (e <- (if String.eqb (Layer.id (val l)) id
             then (l' <- new (spread (val l) updates) ;; ret (Ref l'))
             else ret (Ref l)) ;;
       r <- mapUpdate id updates rest ;;
       ret (option_map (cons e) r))%alloc
  | _ :: _ => ret None
  end.

(** [updateLayer(id, updates)] *)
Definition updateLayer (id : string) (updates : Partial.t) (ed : Editor)
  : Outcome :=
  let (r, ed1) := allocating (mapUpdate id updates (val (AppState.layers (state ed)))) ed in
  match r with
  | Some els =>
      let (arr, ed2) := allocating (new els) ed1 in
      Done (setState (withLayers arr) ed2)
  | None => Threw "TypeError: l is undefined"
  end.

(** The callback of [prev.layers.filter(l => l.id !== id)]. *)
Fixpoint filterOut (id : string) (els : list Elem) : option (list Elem) :=
  match els with
  | [] => Some []
  | Ref l :: rest =>
      match filterOut id rest with
      | Some r => Some (if String.eqb (Layer.id (val l)) id then r else Ref l :: r)
      | None => None
      end
  | _ :: _ => None
  end.

(** [handleDeleteLayer(id)] *)
Definition handleDeleteLayer (b : Browser) (id : string) (tId tStamp : Z)
           (ed : Editor) : Outcome :=
  match filterOut id (val (AppState.layers (state ed))) with
  | Some els =>
      let (arr, ed1) := allocating (new els) ed in
      let active := AppState.activeLayerId (state ed1) in
      let active' :=
        match active with
        | Some a => if String.eqb a id then None else active
        | None => None
        end in
      let ed2 := setState (withLayersActive arr active') ed1 in
      Done (captureHistorySnapshot b tId tStamp ed ed2)
  | None => Threw "TypeError: l is undefined"
  end.

(** The array work of [handleReorderLayer] on the copy [[...state.layers]]:
    [const [moved] = newLayers.splice(fromIndex, 1)] and
    [newLayers.splice(toIndex, 0, moved)].  When the first [splice] removes
    nothing, [moved] is [undefined]. *)
Definition reorder (layers : list Elem) (fromIndex toIndex : Z) : list Elem :=
  let (removed, newLayers) := Js.splice layers fromIndex 1 [] in
  let moved := match removed with m :: _ => m | [] => Undefined end in
  snd (Js.splice newLayers toIndex 0 [moved]).

(** [handleReorderLayer(fromIndex, toIndex)] *)
Definition handleReorderLayer (b : Browser) (fromIndex toIndex : Z)
           (tId tStamp : Z) (ed : Editor) : Editor :=
  let layers := val (AppState.layers (state ed)) in
  if (toIndex <? 0) || (toIndex >=? Js.length layers) then ed
  else
    let (newLayers, ed1) := allocating (new (reorder layers fromIndex toIndex)) ed in
    let ed2 := setState (withLayers newLayers) ed1 in
    captureHistorySnapshot b tId tStamp ed ed2.

(** [handleAddText()] *)
Definition handleAddText (b : Browser) (tLayer tId tStamp : Z) (ed : Editor)
  : Editor :=
  let mk :=
    (newLayer <- new (Layer.mk ("text-" ++ Js.showZ tLayer) text "Text Layer"
                               true false 100 50 50 0 1 None None None
                               (Some "Double click to edit"%string)
                               (Some 32%Q) (Some "#ffffff"%string)
                               (Some "Inter"%string) (Some "bold"%string)) ;;
     arr <- new (val (AppState.layers (state ed)) ++ [Ref newLayer]) ;;
     ret (newLayer, arr))%alloc in
  let '((newLayer, arr), ed1) := allocating mk ed in
  let ed2 := setState (withLayersActive arr (Some (Layer.id (val newLayer)))) ed1 in
  let ed3 :=
    mkEditor (state ed2) (adjustments ed2) (gradientSettings ed2) (brushSettings ed2)
             (showCropTools ed2) true true
             (cropSelection ed2) (imageDimensions ed2) (zoom ed2) (pan ed2)
             (nextAddr ed2) (output ed2) in
  captureHistorySnapshot b tId tStamp ed ed3.

(** *** Crop *)

(** The rectangle [applyCurrentCrop] hands to [cropImage]:
    [scaleX = naturalWidth / displayedWidth], the like for [scaleY], and
    every side of the selection times its axis' scale. *)
Definition finalCrop (sel : Rect.t) (dim : Dimensions) : Rect.t :=
  let scaleX := (naturalWidth dim / displayedWidth dim)%Q in
  let scaleY := (naturalHeight dim / displayedHeight dim)%Q in
  Rect.mk (Rect.x sel * scaleX) (Rect.y sel * scaleY)
          (Rect.width sel * scaleX) (Rect.height sel * scaleY).

(** [applyCurrentCrop()] *)
Definition applyCurrentCrop (b : Browser) (tId tStamp : Z) (ed : Editor)
  : Editor :=
  match cropSelection ed, AppState.uploadedImage (state ed), imageDimensions ed with
  | Some sel, Some uploaded, Some dim =>
      if negb (Js.truthyStr uploaded) then ed
      else
        match cropImage b uploaded (finalCrop sel dim) with
        | Promise.Resolved cropped => handleImageUpload cropped tId tStamp ed
        | Promise.Rejected e =>
            setState (withErrorMessage (Some "Failed to crop image"%string))
                     (consoleError [e] ed)
        | Promise.Pending => ed
        end
  | _, _, _ => ed
  end.

(** [handleImageLoad(e)]: the displayed and the natural size of the image
    element that has just loaded. *)
Definition handleImageLoad (clientWidth clientHeight natWidth natHeight : Js.number)
           (ed : Editor) : Editor :=
  mkEditor (state ed) (adjustments ed) (gradientSettings ed) (brushSettings ed)
           (showCropTools ed) (showTextTools ed) (showLayersPanel ed)
           (cropSelection ed)
           (Some (mkDimensions clientWidth clientHeight natWidth natHeight))
           (zoom ed) (pan ed) (nextAddr ed) (output ed).

(** [setCropSelection(sel)], as [handleCropMove] does. *)
Definition setCropSelection (sel : option Rect.t) (ed : Editor) : Editor :=
  mkEditor (state ed) (adjustments ed) (gradientSettings ed) (brushSettings ed)
           (showCropTools ed) (showTextTools ed) (showLayersPanel ed)
           sel (imageDimensions ed) (zoom ed) (pan ed) (nextAddr ed) (output ed).

(** [handleModeChange(mode)] *)
Definition handleModeChange (mode : AppMode) (ed : Editor) : Editor :=
  let toGenerate := match mode with GENERATE => true | _ => false end in
  let (layers, ed1) :=
    if toGenerate then allocating (new []) ed
    else (AppState.layers (state ed), ed) in
  let s := state ed1 in
  mkEditor
    (AppState.mk mode (AppState.status s) layers (AppState.activeLayerId s)
       (if toGenerate then None else AppState.uploadedImage s)
       (if toGenerate then None else AppState.originalUploadedImage s)
       None None (AppState.prompt s) None
       (AppState.aspectRatio s) (AppState.resolution s) (AppState.activeFilter s)
       (if toGenerate then [] else AppState.editHistory s)
       (if toGenerate then -1 else AppState.currentHistoryIndex s))
    DEFAULT_ADJUSTMENTS DEFAULT_GRADIENT DEFAULT_BRUSH
    false false (showLayersPanel ed1)
    (cropSelection ed1) (imageDimensions ed1) 1 (0, 0)%Q
    (nextAddr ed1) (output ed1).

(** ** Vocabulary of the statements *)

(** The layers of the live stack. *)
Definition liveLayers (ed : Editor) : list Elem := val (AppState.layers (state ed)).

Definition history (ed : Editor) : list HistoryItem.t := AppState.editHistory (state ed).

Definition currentIndex (ed : Editor) : Z := AppState.currentHistoryIndex (state ed).

(** An array of layer objects, as a [Layer[]]. *)
Definition stackOf (os : list (Obj Layer.t)) : list Elem := map Ref os.

(** What a slot holds, without the identity of the object. *)
Inductive Content :=
| CUndefined
| CNull
| CLayer (l : Layer.t).

Definition contentOf (e : Elem) : Content :=
  match e with
  | Undefined => CUndefined
  | Null => CNull
  | Ref o => CLayer (val o)
  end.

(** Two arrays are deep-equal when they hold, slot by slot, layers with the
    same value in every field. *)
Definition deepEqual (a b : list Elem) : Prop := map contentOf a = map contentOf b.

(** Every slot holds a layer: the array is a [Layer[]] indeed. *)
Definition allLayers (els : list Elem) : Prop :=
  Forall (fun e => match e with Ref _ => True | _ => False end) els.

Definition elemAddrs (e : Elem) : list Addr :=
  match e with Ref o => [addr o] | _ => [] end.

(** The addresses an array reaches: its own and those of its layers. *)
Definition arrayAddrs (a : LayerArray) : list Addr :=
  addr a :: flat_map elemAddrs (val a).

(** Every address the editor holds. *)
Definition editorAddrs (ed : Editor) : list Addr :=
  arrayAddrs (AppState.layers (state ed))
  ++ flat_map (fun it => arrayAddrs (HistoryItem.layers it)) (history ed).

(** The allocator is ahead of every object in use. *)
Definition heapOk (ed : Editor) : Prop :=
  Forall (fun a => (a < nextAddr ed)%positive) (editorAddrs ed).

(** [a] is made of objects that [ed] does not hold: no reference of [ed]
    leads to the array or to one of its layers. *)
Definition freshFor (ed : Editor) (a : LayerArray) : Prop :=
  Forall (fun x => ~ In x (editorAddrs ed)) (arrayAddrs a).

(** The invariant of a timeline that has been seeded. *)
Definition timelineOk (ed : Editor) : Prop :=
  0 <= currentIndex ed < Js.length (history ed).

(** Array surgery by position. *)
Definition removeAt {A} (i : nat) (l : list A) : list A :=
  firstn i l ++ skipn (S i) l.

Definition insertAt {A} (i : nat) (a : A) (l : list A) : list A :=
  firstn i l ++ a :: skipn i l.

(** What the canvas shows after a list of calls on a fresh context. *)
Definition paintedBy (ops : list Canvas.Op) : list Canvas.Painted :=
  Canvas.painted (Canvas.run Canvas.start ops).

(** What one layer adds to the picture when its turn comes with the
    context in state [c]. *)
Definition layerPaint (b : Browser) (c : Canvas.State) (l : Layer.t)
  : list Canvas.Painted :=
  Canvas.painted (Canvas.run (Canvas.mkMachine c [] []) (fst (layerCalls b l))).

(** A call that touches the [save] stack. *)
Definition stacks (o : Canvas.Op) : bool :=
  match o with
  | Canvas.save | Canvas.restore => true
  | _ => false
  end.

(** The layer is an [Image] or a [Drawing]. *)
Definition isRaster (l : Layer.t) : Prop :=
  Layer.type l = image \/ Layer.type l = drawing.

(** The picture a stack of layers makes on a fresh context: what each
    layer adds, bottom layer first. *)
Definition picture (b : Browser) (os : list (Obj Layer.t)) : list Canvas.Painted :=
  flat_map (fun o => layerPaint b Canvas.initial (val o)) os.

(** What the layers of a stack write to the console, in stack order. *)
Definition consoleOf (b : Browser) (os : list (Obj Layer.t)) : list string :=
  flat_map (fun o => snd (layerCalls b (val o))) os.

(** Under the transformations [ts], the point [p] of the drawing call lands
    on the point [q] of the canvas, whatever the cosine and sine of the
    rotations are. *)
Definition landsAt (ts : list Canvas.Xform) (p q : Canvas.Point) : Prop :=
  forall trig, Canvas.samePoint (Canvas.toCanvas trig ts p) q.

(** What was painted and under which transformations. *)
Definition placed (ps : list Canvas.Painted) : list (Canvas.Shape * list Canvas.Xform) :=
  map (fun p => (Canvas.shape p, Canvas.transform (Canvas.under p))) ps.

(** The size of a layer as the specification words it: the explicit one if
    present, else the natural one, times the scale. *)
Definition specifiedSize (explicit : option Js.number) (natural scale : Js.number)
  : Js.number :=
  (match explicit with Some v => v | None => natural end * scale)%Q.

(** What a JSON round trip makes of the content of a slot. *)
Definition jsonContent (c : Content) : Content :=
  match c with
  | CUndefined => CNull
  | _ => c
  end.

(** Every snapshot of the timeline holds layers only. *)
Definition snapshotsTyped (ed : Editor) : Prop :=
  Forall (fun it => allLayers (val (HistoryItem.layers it))) (history ed).

(** The step [handleUndo] and [handleRedo] share once they have picked the
    history item: a deep copy of its layers becomes the live stack. *)
Definition restored (i : Z) (item : HistoryItem.t) (ed : Editor) : Editor :=
  let (copy, ed') := allocating (jsonClone (HistoryItem.layers item)) ed in
  setState (withRestored i copy) ed'.

(** What the handlers keep true of the editor: the allocator is ahead of
    every object, the index points into the timeline (or is [-1] before
    the first upload), and every array holds layers only. *)
Definition wellFormed (ed : Editor) : Prop :=
  heapOk ed
  /\ -1 <= currentIndex ed < Js.length (history ed)
  /\ snapshotsTyped ed
  /\ allLayers (liveLayers ed).

(** The index is [-1] only while the timeline is empty. *)
Definition seeded (ed : Editor) : Prop :=
  0 <= currentIndex ed \/ history ed = [].

(** The editors a session can reach through the handlers modelled here.
    The layers panel calls [handleReorderLayer] with the index of a layer
    of the stack as [fromIndex]. *)
Inductive reachable (b : Browser) : Editor -> Prop :=
| reach_start : reachable b initialEditor
| reach_mode mode ed :
    reachable b ed -> reachable b (handleModeChange mode ed)
| reach_load cw ch nw nh ed :
    reachable b ed -> reachable b (handleImageLoad cw ch nw nh ed)
| reach_select sel ed :
    reachable b ed -> reachable b (setCropSelection sel ed)
| reach_upload dataUri tId tStamp ed :
    reachable b ed -> reachable b (handleImageUpload dataUri tId tStamp ed)
| reach_crop tId tStamp ed :
    reachable b ed -> reachable b (applyCurrentCrop b tId tStamp ed)
| reach_add_text tLayer tId tStamp ed :
    reachable b ed -> reachable b (handleAddText b tLayer tId tStamp ed)
| reach_add_image dataUri tLayer tId tStamp ed :
    reachable b ed ->
    reachable b (handleAddImageLayer b dataUri tLayer tId tStamp ed)
| reach_update id updates ed ed' :
    reachable b ed -> updateLayer id updates ed = Done ed' -> reachable b ed'
| reach_snapshot tId tStamp render ed :
    reachable b render -> reachable b ed ->
    reachable b (captureHistorySnapshot b tId tStamp render ed)
| reach_delete id tId tStamp ed ed' :
    reachable b ed -> handleDeleteLayer b id tId tStamp ed = Done ed' ->
    reachable b ed'
| reach_reorder from to tId tStamp ed :
    reachable b ed -> 0 <= from < Js.length (liveLayers ed) ->
    reachable b (handleReorderLayer b from to tId tStamp ed)
| reach_undo ed ed' :
    reachable b ed -> handleUndo ed = Done ed' -> reachable b ed'
| reach_redo ed ed' :
    reachable b ed -> handleRedo ed = Done ed' -> reachable b ed'.

(** ** A browser and a session to run the model on *)

Definition demoBrowser : Browser :=
  mkBrowser
    (fun _ src => if String.eqb src "data:broken" then None else Some (200, 100)%Q)
    true
    (fun r mime =>
       ("data:" ++ mime ++ ";base64,"
        ++ Js.showZ (Z.of_nat (List.length (Canvas.content r))))%string).

Definition demoUpload : string := "data:image/png;base64,AAAA".

(** The editor is opened, then a 200x100 image is uploaded; it is displayed
    at 100x50. *)
Definition demoLoaded : Editor :=
  handleImageLoad 100 50 200 100
    (handleImageUpload demoUpload 1 1 (handleModeChange EDIT initialEditor)).

(** ... then "Add text". *)
Definition demoWithText : Editor := handleAddText demoBrowser 2 3 3 demoLoaded.

(** What the text input of the text tools hands to [updateLayer] when the
    user types: [{ text: e.target.value }]. *)
Definition demoTyping : Partial.t :=
  Partial.mk None None None None None None None None None None
             None None None (Some (Some "Hello"%string)) None None None None.

(** ... then the text of the new layer is typed in, through [updateLayer]
    alone, as the text tools do. *)
Definition demoTyped : Editor :=
  match updateLayer "text-2" demoTyping demoWithText with
  | Done ed => ed
  | Threw _ => demoWithText
  end.

(** ... and, after the typing, an undo and then a redo. *)
Definition demoTypedUndone : Editor :=
  match handleUndo demoTyped with
  | Done ed => ed
  | Threw _ => demoTyped
  end.

Definition demoTypedRedone : Editor :=
  match handleRedo demoTypedUndone with
  | Done ed => ed
  | Threw _ => demoTypedUndone
  end.

(** A browser whose canvas gives no 2D context. *)
Definition noContextBrowser : Browser :=
  mkBrowser (decode demoBrowser) false (encode demoBrowser).

(** ... or a second "Add text" whose composite cannot be made: the layer
    is on the stack, the snapshot is never taken. *)
Definition demoUnsnapshotted : Editor :=
  handleAddText noContextBrowser 4 5 5 demoWithText.

Definition demoUnsnapshottedUndone : Editor :=
  match handleUndo demoUnsnapshotted with
  | Done ed => ed
  | Threw _ => demoUnsnapshotted
  end.

Definition demoUnsnapshottedRedone : Editor :=
  match handleRedo demoUnsnapshottedUndone with
  | Done ed => ed
  | Threw _ => demoUnsnapshottedUndone
  end.

(** ... or an undo right after "Add text". *)
Definition demoUndone : Editor :=
  match handleUndo demoWithText with
  | Done ed => ed
  | Threw _ => demoWithText
  end.

Definition demoImageLayer (w h : option Js.number) (rot : Js.number) : Layer.t :=
  Layer.mk "layer-7" image "Image 2" true false 100 10 20 rot 1 w h
           (Some "data:image/png;base64,BBBB"%string) None None None None None.

Definition demoTextLayer (rot : Js.number) : Layer.t :=
  Layer.mk "text-8" text "Text Layer" true false 100 10 20 rot 1 None None None
           (Some "Hello"%string) (Some 32%Q) (Some "#ffffff"%string)
           (Some "Inter"%string) (Some "bold"%string).

Definition demoBrokenLayer : Layer.t :=
  Layer.mk "layer-9" image "Image 3" true false 100 0 0 0 1 None None
           (Some "data:broken"%string) None None None None None.

(** Cosine and sine of a quarter turn, and of no turn for any other angle. *)
Definition demoTrig (r : Canvas.Radians) : Js.number * Js.number :=
  if Qeq_bool (Canvas.overPi r) (1 # 2) then (0, 1)%Q else (1, 0)%Q.

(** ** More of [src/utils/imageUtils.ts]: data URIs *)

(** [dataUri.replace(/^data:image\/\w+;base64,/, '')]: the match, when
    there is one, is at the start and is cut off. *)
Definition stripBase64Prefix (dataUri : string) : string :=
  match dropPrefix "data:image/" dataUri with
  | Some rest =>
      let (w, rest') := spanWord rest in
      match w, dropPrefix ";base64," rest' with
      | String _ _, Some payload => payload
      | _, _ => dataUri
      end
  | None => dataUri
  end.

(** Every character is a [\w]. *)
Fixpoint allWord (s : string) : bool :=
  match s with
  | EmptyString => true
  | String c s' => isWordChar c && allWord s'
  end.

(** A data URI of an image: [data:image/<subtype>;base64,<payload>]. *)
Definition dataUriOf (subtype payload : string) : string :=
  ("data:image/" ++ subtype ++ ";base64," ++ payload)%string.

(** ** [src/services/geminiService.ts]

    The SDK is an oracle: a call throws, with a message, or answers, and
    of the answer the code reads one string that may be missing
    ([imageBytes], [inlineData.data] or [text]). *)

Module Gemini.

Inductive Reply :=
| Fails (message : string)
| Replies (payload : option string).

(** The [contents] of a [generateContent] call: an image part, when there
    is one, as [(data, mimeType)], and the text part. *)
Record Request := mkRequest {
  model : string;
  inlineData : option (string * string);
  text : string
}.

Record Api := mkApi {
  (** [getApiKey()] is not empty. *)
  hasKey : bool;
  (** [ai.models.generateImages({ model, prompt, config: { aspectRatio } })] *)
  generateImages : string -> string -> string -> Reply;
  (** [ai.models.generateContent(...)] *)
  generateContent : Request -> Reply
}.

(** What a service function comes to: its promise and its console. *)
Record Run := mkRun {
  outcome : Promise.t string;
  logs : list string
}.

End Gemini.

(** What [getAiClient()] writes to the console. *)
Definition getAiClient (api : Gemini.Api) : list string :=
  if Gemini.hasKey api then []
  else ["CRITICAL: API Key is missing. AI features will not work. Please set VITE_API_KEY in your environment."%string].

(** The second stage of [generateImage]: Gemini 2.5 Flash Image. *)
Definition generateWithFlash (api : Gemini.Api) (prompt aspectRatio : string)
  : Gemini.Run :=
  let enhancedPrompt :=
    (prompt ++ ". High quality, detailed image. Aspect ratio " ++ aspectRatio ++ ".")%string in
  match Gemini.generateContent api
          (Gemini.mkRequest "gemini-2.5-flash-image" None enhancedPrompt) with
  | Gemini.Replies (Some (String c d)) =>
      Gemini.mkRun (Promise.Resolved ("data:image/png;base64," ++ String c d)%string) []
  | Gemini.Replies _ =>
      Gemini.mkRun (Promise.Rejected "No image returned from generation operation.")
                   ["Generate Image Error:"%string]
  | Gemini.Fails message =>
      Gemini.mkRun
        (Promise.Rejected
           (Js.strOr (Some message)
                     "Failed to generate image. Please check your API key and quota."))
        ["Generate Image Error:"%string]
  end.

(** What is written before a run is written first. *)
Definition logging (first : list string) (r : Gemini.Run) : Gemini.Run :=
  Gemini.mkRun (Gemini.outcome r) (first ++ Gemini.logs r).

(** [generateImage(prompt, aspectRatio, resolution)] *)
Definition generateImage (api : Gemini.Api) (prompt aspectRatio : string)
           (resolution : Resolution) : Gemini.Run :=
  logging (getAiClient api)
    match resolution with
    | high =>
        match Gemini.generateImages api "imagen-4.0-generate-001" prompt aspectRatio with
        | Gemini.Replies (Some (String c bytes)) =>
            Gemini.mkRun
              (Promise.Resolved ("data:image/jpeg;base64," ++ String c bytes)%string) []
        | Gemini.Replies _ => generateWithFlash api prompt aspectRatio
        | Gemini.Fails _ =>
            logging ["Imagen 4.0 generation failed, falling back to Flash Image."%string]
                    (generateWithFlash api prompt aspectRatio)
        end
    | _ => generateWithFlash api prompt aspectRatio
    end.

(** What [editImage] sends: the image part made of [rawBase64] and
    [mimeType], and the prompt. *)
Definition editRequest (base64DataUri prompt : string) : Gemini.Request :=
  let rawBase64 := stripBase64Prefix base64DataUri in
  let mimeType := getMimeTypeFromDataUri base64DataUri in
  Gemini.mkRequest "gemini-2.5-flash-image" (Some (rawBase64, mimeType)) prompt.

(** [editImage(base64DataUri, prompt)] *)
Definition editImage (api : Gemini.Api) (base64DataUri prompt : string)
  : Gemini.Run :=
  logging (getAiClient api)
    match Gemini.generateContent api (editRequest base64DataUri prompt) with
    | Gemini.Replies (Some (String c d)) =>
        Gemini.mkRun (Promise.Resolved ("data:image/png;base64," ++ String c d)%string) []
    | Gemini.Replies _ =>
        Gemini.mkRun (Promise.Rejected "No image returned from edit operation.")
                     ["Edit Image Error:"%string]
    | Gemini.Fails message =>
        Gemini.mkRun (Promise.Rejected (Js.strOr (Some message) "Failed to edit image"))
                     ["Edit Image Error:"%string]
    end.




(** ** More of the [App] component: pointer, keyboard and tools

    The cells of [useState] and [useRef] that the pointer and keyboard
    handlers use and [Editor] does not carry are kept in [Pointer];
    [Ui] is the two together. *)

Record Pointer := mkPointer {
  isDragging : bool;
  isDraggingLayer : bool;
  dragStart : Js.number * Js.number;      (* [dragStart.current] *)
  showBrushTools : bool;
  editingTextId : option string;
  isSelectingCrop : bool;
  cropStart : Js.number * Js.number       (* [cropStartRef.current] *)
}.

Record Ui := mkUi { editor : Editor; pointer : Pointer }.

(** The initial values of those cells. *)
Definition initialPointer : Pointer :=
  mkPointer false false (0, 0)%Q false None false (0, 0)%Q.

Definition initialUi : Ui := mkUi initialEditor initialPointer.

(** What a mouse event gives the handlers: the pointer in client
    coordinates, its movement since the last event, and the corner of
    [e.currentTarget.getBoundingClientRect()]. *)
Record MouseEvent := mkMouseEvent {
  clientX : Js.number;
  clientY : Js.number;
  movementX : Js.number;
  movementY : Js.number;
  rectLeft : Js.number;
  rectTop : Js.number
}.

Inductive UiOutcome :=
| UiDone (u : Ui)
| UiThrew (what : string).

(** [{ ...prev, activeLayerId }] *)
Definition withActiveLayerId (a : option string) (s : AppState.t) : AppState.t :=
  withLayersActive (AppState.layers s) a s.

(** [{ ...prev, status }] and the like, for [status], [resultImage],
    [errorMessage] and [prompt] together. *)
Definition withStatus (st : ProcessingStatus) (result error : option string)
           (prompt : string) (s : AppState.t) : AppState.t :=
  AppState.mk (AppState.mode s) st (AppState.layers s) (AppState.activeLayerId s)
    (AppState.uploadedImage s) (AppState.originalUploadedImage s)
    result (AppState.analysisResult s) prompt
    error (AppState.aspectRatio s) (AppState.resolution s)
    (AppState.activeFilter s) (AppState.editHistory s)
    (AppState.currentHistoryIndex s).

(** [setZoom] and [setPan] *)
Definition setView (z : Js.number) (p : Js.number * Js.number) (ed : Editor) : Editor :=
  mkEditor (state ed) (adjustments ed) (gradientSettings ed) (brushSettings ed)
           (showCropTools ed) (showTextTools ed) (showLayersPanel ed)
           (cropSelection ed) (imageDimensions ed) z p (nextAddr ed) (output ed).

(** [setShowCropTools], [setShowTextTools], [setShowLayersPanel] and
    [setCropSelection] *)
Definition setTools (crop text panel : bool) (sel : option Rect.t) (ed : Editor)
  : Editor :=
  mkEditor (state ed) (adjustments ed) (gradientSettings ed) (brushSettings ed)
           crop text panel sel (imageDimensions ed) (zoom ed) (pan ed)
           (nextAddr ed) (output ed).

Definition setShowTextTools (text : bool) (ed : Editor) : Editor :=
  setTools (showCropTools ed) text (showLayersPanel ed) (cropSelection ed) ed.

(** [arr.find(l => l.id === id)]: [Some None] is [undefined]; reading
    [l.id] of a slot that holds no object throws ([None]). *)
Fixpoint findLayer (id : string) (els : list Elem) : option (option (Obj Layer.t)) :=
  match els with
  | [] => Some None
  | Ref l :: rest =>
      if String.eqb (Layer.id (val l)) id then Some (Some l) else findLayer id rest
  | _ :: _ => None
  end.

(** [arr.findIndex(l => l.id === id)], [-1] when there is none. *)
Fixpoint findIndexFrom (id : string) (els : list Elem) (i : Z) : option Z :=
  match els with
  | [] => Some (-1)
  | Ref l :: rest =>
      if String.eqb (Layer.id (val l)) id then Some i else findIndexFrom id rest (i + 1)
  | _ :: _ => None
  end.

Definition findIndex (id : string) (els : list Elem) : option Z :=
  findIndexFrom id els 0.

(** *** Zoom and pan *)

(** [resetZoom()] *)
Definition resetZoom (ed : Editor) : Editor := setView 1 (0, 0)%Q ed.

(** [handleZoomIn()]: [Math.min(prev + 0.5, 5)] *)
Definition handleZoomIn (ed : Editor) : Editor :=
  setView (Qmin (zoom ed + (1 # 2)) 5) (pan ed) ed.

(** [handleZoomOut()]: [Math.max(prev - 0.5, 0.5)] *)
Definition handleZoomOut (ed : Editor) : Editor :=
  setView (Qmax (zoom ed - (1 # 2)) (1 # 2)) (pan ed) ed.

(** [Math.sign] *)
Definition sign (q : Js.number) : Js.number := inject_Z (Z.sgn (Qnum q)).

Definition truthyOpt (v : option string) : bool := Js.truthyOptStr v.

Definition isEdit (m : AppMode) : bool :=
  match m with EDIT => true | _ => false end.

Definition isGenerate (m : AppMode) : bool :=
  match m with GENERATE => true | _ => false end.

(** [handleWheel(e)], given [e.deltaY] *)
Definition handleWheel (deltaY : Js.number) (ed : Editor) : Editor :=
  if showCropTools ed then ed
  else if isEdit (AppState.mode (state ed))
          || (isGenerate (AppState.mode (state ed))
              && truthyOpt (AppState.resultImage (state ed)))
  then
    let delta := (- sign deltaY * (1 # 10))%Q in
    setView (Qmin (Qmax (zoom ed + delta) (1 # 2)) 5) (pan ed) ed
  else ed.

(** [handleCanvasKeyDown(e)], given [e.key] *)
Definition handleCanvasKeyDown (b : Browser) (key : string) (tId tStamp : Z)
           (u : Ui) : UiOutcome :=
  let ed := editor u in
  let st := state ed in
  if showCropTools ed || truthyOpt (editingTextId (pointer u)) then UiDone u
  else if isEdit (AppState.mode st) || truthyOpt (AppState.resultImage st)
          || truthyOpt (AppState.uploadedImage st)
  then
    let panStep := (40 / zoom ed)%Q in
    let (px, py) := pan ed in
    let view (e : Editor) := UiDone (mkUi e (pointer u)) in
    if String.eqb key "ArrowUp" then view (setView (zoom ed) (px, py + panStep)%Q ed)
    else if String.eqb key "ArrowDown" then view (setView (zoom ed) (px, py - panStep)%Q ed)
    else if String.eqb key "ArrowLeft" then view (setView (zoom ed) (px + panStep, py)%Q ed)
    else if String.eqb key "ArrowRight" then view (setView (zoom ed) (px - panStep, py)%Q ed)
    else if String.eqb key "+" || String.eqb key "=" then view (handleZoomIn ed)
    else if String.eqb key "-" || String.eqb key "_" then view (handleZoomOut ed)
    else if String.eqb key "0" || String.eqb key "Escape" then view (resetZoom ed)
    else if String.eqb key "Delete" || String.eqb key "Backspace" then
      match AppState.activeLayerId st with
      | Some id =>
          if Js.truthyStr id then
            match handleDeleteLayer b id tId tStamp ed with
            | Done ed' => view ed'
            | Threw what => UiThrew what
            end
          else UiDone u
      | None => UiDone u
      end
    else UiDone u
  else UiDone u.

(** *** Pointer on the canvas *)

(** [handleLayerMouseDown(id, e)] *)
Definition handleLayerMouseDown (id : string) (u : Ui) : UiOutcome :=
  let ed := editor u in
  match findLayer id (val (AppState.layers (state ed))) with
  | None => UiThrew "TypeError: l is undefined"
  | Some layer =>
      if match layer with Some l => Layer.locked (val l) | None => false end
      then UiDone u
      else
        let ed1 := setState (withActiveLayerId (Some id)) ed in
        let isText :=
          match layer with
          | Some l => LayerType_eqb (Layer.type (val l)) text
          | None => false
          end in
        let p := pointer u in
        UiDone (mkUi (setShowTextTools isText ed1)
                     (mkPointer (isDragging p) true (dragStart p) (showBrushTools p)
                                (editingTextId p) (isSelectingCrop p) (cropStart p)))
  end.

(** [handleLayerClick(id, e)] *)
Definition handleLayerClick (id : string) (u : Ui) : UiOutcome :=
  let ed := editor u in
  match findLayer id (val (AppState.layers (state ed))) with
  | None => UiThrew "TypeError: l is undefined"
  | Some (Some l) =>
      if Layer.locked (val l) then UiDone u
      else
        let ed1 := setState (withActiveLayerId (Some id)) ed in
        UiDone (mkUi (if LayerType_eqb (Layer.type (val l)) text
                      then setShowTextTools true ed1 else ed1)
                     (pointer u))
  | Some None => UiDone u
  end.


(** [(state.layers.find(l => l.id === id)?.x || 0)] and the like for [y] *)
Definition coordinateOr0 (get : Layer.t -> Js.number) (l : option (Obj Layer.t))
  : Js.number :=
  Js.numOr (option_map (fun o => get (val o)) l) 0.

(** [handleMouseMove(e)] *)
Definition handleMouseMove (e : MouseEvent) (u : Ui) : UiOutcome :=
  let ed := editor u in
  let p := pointer u in
  if showBrushTools p || showCropTools ed then UiDone u
  else
    match AppState.activeLayerId (state ed) with
    | Some id =>
        if isDraggingLayer p && Js.truthyStr id && negb (truthyOpt (editingTextId p))
        then
          let deltaX := (movementX e / zoom ed)%Q in
          let deltaY := (movementY e / zoom ed)%Q in
          match findLayer id (val (AppState.layers (state ed))) with
          | None => UiThrew "TypeError: l is undefined"
          | Some l =>
              match updateLayer id
                      (Partial.mk None None None None None None
                         (Some (coordinateOr0 Layer.x l + deltaX)%Q)
                         (Some (coordinateOr0 Layer.y l + deltaY)%Q)
                         None None None None None None None None None None) ed with
              | Done ed' => UiDone (mkUi ed' p)
              | Threw what => UiThrew what
              end
          end
        else if isDragging p
        then UiDone (mkUi (setView (zoom ed)
                             (clientX e - fst (dragStart p),
                              clientY e - snd (dragStart p))%Q ed) p)
        else UiDone u
    | None =>
        if isDragging p
        then UiDone (mkUi (setView (zoom ed)
                             (clientX e - fst (dragStart p),
                              clientY e - snd (dragStart p))%Q ed) p)
        else UiDone u
    end.


(** *** The crop selection *)

(** The click handler of the Crop button of the tool bar. *)
Definition toggleCropTools (u : Ui) : Ui :=
  let ed := editor u in
  let p := pointer u in
  if showCropTools ed
  then mkUi (setTools false (showTextTools ed) (showLayersPanel ed) (cropSelection ed) ed) p
  else mkUi (setTools true (showTextTools ed) (showLayersPanel ed) None ed)
            (mkPointer (isDragging p) (isDraggingLayer p) (dragStart p)
                       (showBrushTools p) (editingTextId p) false (cropStart p)).

(** [handleCropStart(e)] *)
Definition handleCropStart (e : MouseEvent) (u : Ui) : Ui :=
  let ed := editor u in
  let p := pointer u in
  if negb (showCropTools ed) then u
  else
    let x := (clientX e - rectLeft e)%Q in
    let y := (clientY e - rectTop e)%Q in
    mkUi (setCropSelection (Some (Rect.mk x y 0 0)) ed)
         (mkPointer (isDragging p) (isDraggingLayer p) (dragStart p)
                    (showBrushTools p) (editingTextId p) true (x, y)).


(** [handleCropEnd()] *)
Definition handleCropEnd (u : Ui) : Ui :=
  let p := pointer u in
  mkUi (editor u)
       (mkPointer (isDragging p) (isDraggingLayer p) (dragStart p)
                  (showBrushTools p) (editingTextId p) false (cropStart p)).

(** *** Brush and AI styles *)


(** An entry of [ARTISTIC_STYLES]. *)
Record ArtisticStyle := mkStyle {
  styleId : string;
  styleLabel : string;
  stylePrompt : string
}.

Definition ARTISTIC_STYLES : list ArtisticStyle :=
  [ mkStyle "vangogh" "Van Gogh" "Van Gogh Starry Night impressionist oil painting style";
    mkStyle "picasso" "Picasso" "Picasso cubism abstract art style";
    mkStyle "watercolor" "Watercolor" "soft artistic watercolor painting style";
    mkStyle "sketch" "Sketch" "detailed pencil sketch style";
    mkStyle "cyberpunk" "Cyberpunk" "futuristic cyberpunk neon noir style";
    mkStyle "anime" "Anime" "high quality anime manga style";
    mkStyle "pixel" "Pixel Art" "retro 8-bit pixel art style" ].

(** [handleArtisticFilter(style)].  When [composeLayers] never settles
    the handler never gets past its [await]: [status] stays ['loading']. *)
Definition handleArtisticFilter (b : Browser) (api : Gemini.Api)
           (style : ArtisticStyle) (ed : Editor) : Editor :=
  if negb (truthyOpt (AppState.uploadedImage (state ed))) then ed
  else
    let ed1 :=
      setState (fun s => withStatus loading (AppState.resultImage s) None
                                    (AppState.prompt s) s) ed in
    let fullPrompt :=
      ("Transform this image into the style of " ++ stylePrompt style
       ++ ". Maintain the original composition and subject but apply the artistic style strongly.")%string in
    let c := composeLayers b (val (AppState.layers (state ed)))
                           (canvasWidth ed) (canvasHeight ed) in
    let ed2 := consoleError (console c) ed1 in
    match result c with
    | Promise.Resolved composite =>
        let r := editImage api composite fullPrompt in
        let ed3 := consoleError (Gemini.logs r) ed2 in
        match Gemini.outcome r with
        | Promise.Resolved resultImg =>
            setState (fun s => withStatus success (Some resultImg)
                                          (AppState.errorMessage s)
                                          ("Style: " ++ styleLabel style)%string s) ed3
        | Promise.Rejected message =>
            setState (fun s => withStatus error (AppState.resultImage s)
                                          (Some message) (AppState.prompt s) s) ed3
        | Promise.Pending => ed3
        end
    | Promise.Rejected message =>
        setState (fun s => withStatus error (AppState.resultImage s)
                                      (Some message) (AppState.prompt s) s) ed2
    | Promise.Pending => ed2
    end.

(** The button "Keep as Layer" of the result view:
    [handleAddImageLayer(state.resultImage)], then
    [setState(prev => ({...prev, resultImage: null}))].  The snapshot of
    the first writes the timeline only, so it does not matter that it
    arrives after the second. *)
Definition keepResultAsLayer (b : Browser) (tLayer tId tStamp : Z) (ed : Editor)
  : Editor :=
  match AppState.resultImage (state ed) with
  | Some resultImage =>
      if Js.truthyStr resultImage then
        setState (fun s => withStatus (AppState.status s) None (AppState.errorMessage s)
                                      (AppState.prompt s) s)
                 (handleAddImageLayer b resultImage tLayer tId tStamp ed)
      else ed
  | None => ed
  end.

(** *** The layers panel ([LayersPanel]) *)

(** The click handler of "Move Up" of the row of the layer [id]:
    [onReorderLayer(realIndex, realIndex + 1)], where [realIndex] is
    [layers.findIndex(l => l.id === layer.id)]; the button is disabled,
    and so is its handler, when [realIndex >= layers.length - 1]. *)
Definition panelMoveUp (b : Browser) (id : string) (tId tStamp : Z) (ed : Editor)
  : Outcome :=
  let layers := val (AppState.layers (state ed)) in
  match findIndex id layers with
  | None => Threw "TypeError: l is undefined"
  | Some realIndex =>
      if realIndex >=? Js.length layers - 1 then Done ed
      else Done (handleReorderLayer b realIndex (realIndex + 1) tId tStamp ed)
  end.

(** "Move Down": [onReorderLayer(realIndex, realIndex - 1)], disabled when
    [realIndex <= 0]. *)
Definition panelMoveDown (b : Browser) (id : string) (tId tStamp : Z) (ed : Editor)
  : Outcome :=
  let layers := val (AppState.layers (state ed)) in
  match findIndex id layers with
  | None => Threw "TypeError: l is undefined"
  | Some realIndex =>
      if realIndex <=? 0 then Done ed
      else Done (handleReorderLayer b realIndex (realIndex - 1) tId tStamp ed)
  end.


(** [setShowBrushTools(v)] *)
Definition setShowBrushTools (v : bool) (p : Pointer) : Pointer :=
  mkPointer (isDragging p) (isDraggingLayer p) (dragStart p) v
            (editingTextId p) (isSelectingCrop p) (cropStart p).

(** A handler that only works on the cells of [Editor]. *)
Definition onEditor (f : Editor -> Editor) (u : Ui) : Ui :=
  mkUi (f (editor u)) (pointer u).

(** [handleModeChange(mode)] with its [setShowBrushTools(false)]. *)
Definition uiModeChange (mode : AppMode) (u : Ui) : Ui :=
  mkUi (handleModeChange mode (editor u)) (setShowBrushTools false (pointer u)).




(** The zoom is between 50% and 500%. *)
Definition zoomOk (ed : Editor) : Prop :=
  (1 # 2 <= zoom ed)%Q /\ (zoom ed <= 5)%Q.

(** ** An API to run the service on *)

(** Imagen is out of quota; Flash answers with the same image whatever it
    is asked. *)
Definition demoApi : Gemini.Api :=
  Gemini.mkApi true
    (fun _ _ _ => Gemini.Fails "quota exceeded")
    (fun _ => Gemini.Replies (Some "QUJD"%string)).

(** ** More vocabulary *)

(** The layers of a stack that are shown. *)
Definition visibleOnly (os : list (Obj Layer.t)) : list (Obj Layer.t) :=
  filter (fun o => Layer.visible (val o)) os.

(** A call that neither touches the [save] stack nor sets the alpha. *)
Definition keepsAlpha (o : Canvas.Op) : bool :=
  match o with
  | Canvas.setGlobalAlpha _ => false
  | _ => negb (stacks o)
  end.

(** Where the pointer of a mouse event is inside the element the handler
    is on: [e.clientX - rect.left] and [e.clientY - rect.top]. *)
Definition offsetX (e : MouseEvent) : Js.number := (clientX e - rectLeft e)%Q.
Definition offsetY (e : MouseEvent) : Js.number := (clientY e - rectTop e)%Q.


(** The editor with the crop tool open on [demoWithText]. *)
Definition demoCropping : Ui :=
  toggleCropTools (mkUi demoWithText initialPointer).

Definition demoPress : MouseEvent := mkMouseEvent 140 90 0 0 100 50.

(** A browser that cannot decode the uploaded image a second time. *)
Definition forgetfulBrowser : Browser :=
  mkBrowser (fun anonymous src => if anonymous then decode demoBrowser true src else None)
            true (encode demoBrowser).

(** A session: to the editor, an upload, the image loaded, "Add text". *)
Definition demoUi : Ui :=
  onEditor (handleAddText demoBrowser 2 3 3)
    (onEditor (handleImageLoad 100 50 200 100)
       (onEditor (handleImageUpload demoUpload 1 1)
          (uiModeChange EDIT initialUi))).


(** The layers that do not have the id. *)
Definition without (id : string) (os : list (Obj Layer.t)) : list (Obj Layer.t) :=
  filter (fun o => negb (String.eqb (Layer.id (val o)) id)) os.

(** A drag of the text layer of [demoUi], 30 pixels right and 10 down. *)
Definition demoDrag : MouseEvent := mkMouseEvent 130 110 30 10 0 0.

(** * Properties *)

Unset Implicit Arguments.

(** ** The canvas *)

Lemma run_app (m : Canvas.Machine) (a b : list Canvas.Op) :
  Canvas.run m (a ++ b) = Canvas.run (Canvas.run m a) b.
Proof. unfold Canvas.run. apply fold_left_app. Qed.

(** A call that leaves the [save] stack alone paints what it would paint
    on a context without history. *)
Lemma step_frame (o : Canvas.Op) (c : Canvas.State) (st : list Canvas.State)
      (p : list Canvas.Painted) :
  stacks o = false ->
  let m0 := Canvas.step (Canvas.mkMachine c [] []) o in
  Canvas.step (Canvas.mkMachine c st p) o
  = Canvas.mkMachine (Canvas.current m0) st (p ++ Canvas.painted m0).
Proof.
  destruct o; simpl; intros H; try discriminate;
    unfold Canvas.setCurrent, Canvas.paint; simpl;
    rewrite ?app_nil_r; try reflexivity.
  destruct (Qle_bool 0 a && Qle_bool a 1); simpl; rewrite ?app_nil_r; reflexivity.
Qed.

Lemma step_saved_nil (o : Canvas.Op) (c : Canvas.State) (p : list Canvas.Painted) :
  stacks o = false ->
  Canvas.saved (Canvas.step (Canvas.mkMachine c [] p) o) = [].
Proof.
  destruct o; simpl; intros H; try discriminate; try reflexivity.
  destruct (Qle_bool 0 a && Qle_bool a 1); reflexivity.
Qed.

Lemma run_frame (ops : list Canvas.Op) :
  forallb (fun o => negb (stacks o)) ops = true ->
  forall c st p,
    let m0 := Canvas.run (Canvas.mkMachine c [] []) ops in
    Canvas.run (Canvas.mkMachine c st p) ops
    = Canvas.mkMachine (Canvas.current m0) st (p ++ Canvas.painted m0).
Proof.
  induction ops as [|o ops IH]; simpl; intros Hflat c st p.
  - rewrite app_nil_r. reflexivity.
  - apply andb_true_iff in Hflat. destruct Hflat as [Ho Hops].
    apply negb_true_iff in Ho.
    rewrite (step_frame o c st p Ho).
    pose proof (step_saved_nil o c [] Ho) as Hnil.
    destruct (Canvas.step (Canvas.mkMachine c [] []) o) as [c1 s1 p1] eqn:E.
    simpl in Hnil. subst s1. simpl.
    rewrite (IH Hops c1 st (p ++ p1)).
    rewrite (IH Hops c1 [] p1). simpl.
    rewrite app_assoc. reflexivity.
Qed.

Lemma layerBody_flat (b : Browser) (l : Layer.t) :
  forallb (fun o => negb (stacks o)) (fst (layerBody b l)) = true.
Proof.
  unfold layerBody.
  destruct (LayerType_eqb (Layer.type l) image || LayerType_eqb (Layer.type l) drawing).
  - destruct (Layer.src l) as [s|]; [|reflexivity].
    destruct (Js.truthyStr s); [|reflexivity].
    destruct (loadImage b s); try reflexivity.
    destruct (negb (Qeq_bool (Layer.rotation l) 0)); reflexivity.
  - destruct (LayerType_eqb (Layer.type l) text && Js.truthyOptStr (Layer.text l));
      [|reflexivity].
    destruct (negb (Qeq_bool (Layer.rotation l) 0)); reflexivity.
Qed.

(** Between its [save] and its [restore] a layer leaves the context as it
    found it: only the picture grows. *)
Lemma layerCalls_frame (b : Browser) (l : Layer.t) (m : Canvas.Machine) :
  Canvas.run m (fst (layerCalls b l))
  = Canvas.mkMachine (Canvas.current m) (Canvas.saved m)
                     (Canvas.painted m ++ layerPaint b (Canvas.current m) l).
Proof.
  destruct m as [c st p]. unfold layerPaint, layerCalls. simpl.
  destruct (negb (Layer.visible l)).
  - simpl. rewrite app_nil_r. reflexivity.
  - pose proof (layerBody_flat b l) as Hflat.
    destruct (layerBody b l) as [body log]. simpl in Hflat.
    cbn [fst].
    change ([Canvas.save; Canvas.setGlobalAlpha (Layer.opacity l / 100)] ++ body ++ [Canvas.restore])
      with (Canvas.save :: Canvas.setGlobalAlpha (Layer.opacity l / 100) :: body ++ [Canvas.restore]).
    unfold Canvas.run. cbn [fold_left]. fold (Canvas.run).
    set (a := (Layer.opacity l / 100)%Q).
    assert (Halpha : forall st' p',
               exists c1, Canvas.step (Canvas.step (Canvas.mkMachine c st' p') Canvas.save)
                                 (Canvas.setGlobalAlpha a)
                     = Canvas.mkMachine c1 (c :: st') p'
                     /\ c1 = (if Qle_bool 0 a && Qle_bool a 1
                              then Canvas.mkState a (Canvas.transform c) (Canvas.font c)
                                     (Canvas.fillStyle c) (Canvas.textBaseline c)
                              else c)).
    { intros st' p'. simpl. destruct (Qle_bool 0 a && Qle_bool a 1); eexists; split; reflexivity. }
    destruct (Halpha st p) as [c1 [E1 Hc1]].
    destruct (Halpha [] []) as [c1' [E1' Hc1']].
    assert (c1' = c1) by congruence. subst c1'.
    change (fold_left Canvas.step (body ++ [Canvas.restore])
              (Canvas.step (Canvas.step (Canvas.mkMachine c st p) Canvas.save)
                 (Canvas.setGlobalAlpha a)))
      with (Canvas.run (Canvas.step (Canvas.step (Canvas.mkMachine c st p) Canvas.save)
                 (Canvas.setGlobalAlpha a)) (body ++ [Canvas.restore])).
    change (fold_left Canvas.step (body ++ [Canvas.restore])
              (Canvas.step (Canvas.step (Canvas.mkMachine c [] []) Canvas.save)
                 (Canvas.setGlobalAlpha a)))
      with (Canvas.run (Canvas.step (Canvas.step (Canvas.mkMachine c [] []) Canvas.save)
                 (Canvas.setGlobalAlpha a)) (body ++ [Canvas.restore])).
    rewrite E1, ?E1'. rewrite <- ?Hc1. rewrite !run_app.
    rewrite (run_frame body Hflat c1 (c :: st) p).
    rewrite (run_frame body Hflat c1 [c] []).
    simpl. reflexivity.
Qed.

(** ** [composeLayers] *)

Lemma composeLoop_stack (b : Browser) (os : list (Obj Layer.t)) :
  composeLoop b (stackOf os)
  = mkLoopRun (flat_map (fun o => fst (layerCalls b (val o))) os)
              (consoleOf b os) false.
Proof.
  induction os as [|o os IH]; simpl; [reflexivity|].
  fold (stackOf os). rewrite IH. simpl.
  destruct (layerCalls b (val o)) as [ops log]. reflexivity.
Qed.

Lemma run_stack (b : Browser) (os : list (Obj Layer.t)) (m : Canvas.Machine) :
  Canvas.run m (flat_map (fun o => fst (layerCalls b (val o))) os)
  = Canvas.mkMachine (Canvas.current m) (Canvas.saved m)
      (Canvas.painted m
       ++ flat_map (fun o => layerPaint b (Canvas.current m) (val o)) os).
Proof.
  revert m. induction os as [|o os IH]; intros m; simpl.
  - rewrite app_nil_r. destruct m; reflexivity.
  - rewrite run_app, layerCalls_frame, IH. simpl.
    rewrite app_assoc. reflexivity.
Qed.

(** On a stack of layers [composeLayers] resolves whenever it has a
    context, and its picture is the layers' pictures one after the other. *)
Lemma composeLayers_stack (b : Browser) (os : list (Obj Layer.t))
      (width height : Js.number) :
  context2d b = true ->
  composeLayers b (stackOf os) width height
  = mkComposed
      (Promise.Resolved
         (encode b (Canvas.mkRaster width height (picture b os)) "image/png"))
      (flat_map (fun o => fst (layerCalls b (val o))) os)
      (consoleOf b os).
Proof.
  intros Hctx. unfold composeLayers. rewrite Hctx, composeLoop_stack. simpl.
  rewrite run_stack. reflexivity.
Qed.

Lemma picture_app (b : Browser) (os1 os2 : list (Obj Layer.t)) :
  picture b (os1 ++ os2) = picture b os1 ++ picture b os2.
Proof. unfold picture. apply flat_map_app. Qed.

Lemma consoleOf_app (b : Browser) (os1 os2 : list (Obj Layer.t)) :
  consoleOf b (os1 ++ os2) = consoleOf b os1 ++ consoleOf b os2.
Proof. unfold consoleOf. apply flat_map_app. Qed.

(** A visible layer whose own calls are none paints nothing: [save], the
    alpha and [restore] leave no mark. *)
Lemma empty_body_paints_nothing (b : Browser) (c : Canvas.State) (l : Layer.t) :
  fst (layerBody b l) = [] -> layerPaint b c l = [].
Proof.
  intros Hbody. unfold layerPaint, layerCalls.
  destruct (negb (Layer.visible l)); [reflexivity|].
  destruct (layerBody b l) as [body log]. simpl in Hbody. subst body. simpl.
  destruct (Qle_bool 0 (Layer.opacity l / 100) && Qle_bool (Layer.opacity l / 100) 1);
    reflexivity.
Qed.

Lemma stack_without (b : Browser) (below above : list (Obj Layer.t))
      (o : Obj Layer.t) (width height : Js.number) (log : list string) :
  context2d b = true ->
  layerPaint b Canvas.initial (val o) = [] ->
  snd (layerCalls b (val o)) = log ->
  let c := composeLayers b (stackOf (below ++ o :: above)) width height in
  result c
  = Promise.Resolved
      (encode b (Canvas.mkRaster width height (picture b below ++ picture b above))
              "image/png")
  /\ result c = result (composeLayers b (stackOf (below ++ above)) width height)
  /\ paintedBy (issued c) = picture b below ++ picture b above
  /\ console c = consoleOf b below ++ log ++ consoleOf b above.
Proof.
  intros Hctx Hpaint Hlog c. subst c.
  rewrite !composeLayers_stack by assumption. simpl.
  assert (Hpic : picture b (below ++ o :: above) = picture b below ++ picture b above).
  { rewrite picture_app. unfold picture at 2. simpl. rewrite Hpaint. reflexivity. }
  rewrite Hpic, (picture_app b below above).
  repeat split.
  - unfold paintedBy. rewrite run_stack. simpl. exact Hpic.
  - rewrite consoleOf_app. unfold consoleOf at 2. simpl. rewrite Hlog. reflexivity.
Qed.

(** C6: when the source of one Image or Drawing layer fails to decode,
    [composeLayers] still resolves, with the picture of the stack without
    that layer: the layers below and above it are painted in order, the
    failure is written to the console, and nothing is rejected. *)
Theorem decode_failure_is_confined
        (b : Browser) (below above : list (Obj Layer.t)) (bad : Obj Layer.t)
        (src : string) (width height : Js.number) :
  context2d b = true ->
  Layer.visible (val bad) = true ->
  isRaster (val bad) ->
  Layer.src (val bad) = Some src ->
  src <> EmptyString ->
  decode b true src = None ->
  let c := composeLayers b (stackOf (below ++ bad :: above)) width height in
  result c
  = Promise.Resolved
      (encode b (Canvas.mkRaster width height (picture b below ++ picture b above))
              "image/png")
  /\ result c = result (composeLayers b (stackOf (below ++ above)) width height)
  /\ paintedBy (issued c) = picture b below ++ picture b above
  /\ console c
     = consoleOf b below
       ++ [("Failed to load layer " ++ Layer.id (val bad))%string]
       ++ consoleOf b above.
Proof.
  intros Hctx Hvis Hkind Hsrc Hne Hdec.
  assert (Hbody : layerBody b (val bad)
                  = ([], [("Failed to load layer " ++ Layer.id (val bad))%string])).
  { unfold layerBody, loadImage. rewrite Hsrc, Hdec.
    destruct src as [|ch rest]; [congruence|]. simpl.
    destruct Hkind as [-> | ->]; reflexivity. }
  apply stack_without; try assumption.
  - apply empty_body_paints_nothing. rewrite Hbody. reflexivity.
  - unfold layerCalls. rewrite Hvis, Hbody. reflexivity.
Qed.

Lemma decode_failure_is_confined_witness :
  let c := composeLayers demoBrowser
             (stackOf ([mkObj 1%positive (demoImageLayer None None 0)]
                       ++ mkObj 2%positive demoBrokenLayer
                       :: [mkObj 3%positive (demoTextLayer 0)])) 200 100 in
  result c = Promise.Resolved "data:image/png;base64,2"%string
  /\ console c = ["Failed to load layer layer-9"%string].
Proof.
  destruct (decode_failure_is_confined demoBrowser
              [mkObj 1%positive (demoImageLayer None None 0)]
              [mkObj 3%positive (demoTextLayer 0)]
              (mkObj 2%positive demoBrokenLayer) "data:broken"%string 200 100)
    as [Hres [_ [_ Hlog]]].
  - reflexivity.
  - reflexivity.
  - left. reflexivity.
  - reflexivity.
  - discriminate.
  - reflexivity.
  - split; [rewrite Hres; reflexivity | rewrite Hlog; reflexivity].
Defined.

(** C10: a layer without content is skipped in silence, visible or not: an
    Image or Drawing layer whose [src] is absent or empty, or a Text layer
    whose [text] is absent or empty, adds nothing to the picture and
    nothing to the console, and [composeLayers] resolves with the picture
    of the other layers. *)
Theorem contentless_layer_is_skipped
        (b : Browser) (below above : list (Obj Layer.t)) (l : Obj Layer.t)
        (width height : Js.number) :
  context2d b = true ->
  (isRaster (val l)
   /\ (Layer.src (val l) = None \/ Layer.src (val l) = Some EmptyString))
  \/ (Layer.type (val l) = text
      /\ (Layer.text (val l) = None \/ Layer.text (val l) = Some EmptyString)) ->
  let c := composeLayers b (stackOf (below ++ l :: above)) width height in
  result c
  = Promise.Resolved
      (encode b (Canvas.mkRaster width height (picture b below ++ picture b above))
              "image/png")
  /\ result c = result (composeLayers b (stackOf (below ++ above)) width height)
  /\ paintedBy (issued c) = picture b below ++ picture b above
  /\ console c = consoleOf b below ++ consoleOf b above.
Proof.
  intros Hctx Hempty.
  assert (Hbody : layerBody b (val l) = ([], [])).
  { unfold layerBody.
    destruct Hempty as [[Hkind Hsrc] | [Hkind Htext]].
    - assert (Hk : LayerType_eqb (Layer.type (val l)) image
                   || LayerType_eqb (Layer.type (val l)) drawing = true)
        by (destruct Hkind as [-> | ->]; reflexivity).
      rewrite Hk. destruct Hsrc as [-> | ->]; reflexivity.
    - rewrite Hkind. simpl. destruct Htext as [-> | ->]; reflexivity. }
  apply (stack_without b below above l width height []); try assumption.
  - apply empty_body_paints_nothing. rewrite Hbody. reflexivity.
  - unfold layerCalls. rewrite Hbody.
    destruct (negb (Layer.visible (val l))); reflexivity.
Qed.

Lemma contentless_layer_is_skipped_witness :
  let blank :=
    mkObj 2%positive
      (Layer.mk "text-5" text "Text Layer" true false 100 50 50 0 1 None None
                None (Some EmptyString) (Some 32%Q) None None None) in
  result (composeLayers demoBrowser
            (stackOf ([mkObj 1%positive (demoImageLayer None None 0)]
                      ++ blank :: [])) 200 100)
  = Promise.Resolved "data:image/png;base64,1"%string.
Proof.
  intros blank.
  destruct (contentless_layer_is_skipped demoBrowser
              [mkObj 1%positive (demoImageLayer None None 0)] [] blank 200 100)
    as [Hres _].
  - reflexivity.
  - right. split; [reflexivity | right; reflexivity].
  - rewrite Hres. reflexivity.
Defined.

(** ** Rotation pivots *)

Lemma rotated_test (r : Js.number) :
  ~ (r == 0)%Q -> negb (Qeq_bool r 0) = true.
Proof.
  intros H. apply negb_true_iff.
  destruct (Qeq_bool r 0) eqn:E; [|reflexivity].
  exfalso. apply H. apply Qeq_bool_iff. exact E.
Qed.

Lemma unrotated_test (r : Js.number) :
  (r == 0)%Q -> negb (Qeq_bool r 0) = false.
Proof.
  intros H. apply negb_false_iff. apply Qeq_bool_iff. exact H.
Qed.

(** A rotation between a translation to [c] and the translation back
    leaves [c] where it is. *)
Lemma pivot_is_fixed (cx cy : Js.number) (r : Canvas.Radians) :
  landsAt [Canvas.Translate cx cy; Canvas.Rotate r; Canvas.Translate (- cx) (- cy)]
          (cx, cy) (cx, cy).
Proof.
  intros trig. unfold Canvas.toCanvas, Canvas.samePoint. simpl.
  destruct (trig r) as [c s]. simpl. split; ring.
Qed.

(** After a translation to [(x, y)] and a rotation, the origin of the
    drawing call is at [(x, y)]. *)
Lemma anchor_is_fixed (x y : Js.number) (r : Canvas.Radians) :
  landsAt [Canvas.Translate x y; Canvas.Rotate r] (0, 0)%Q (x, y).
Proof.
  intros trig. unfold Canvas.toCanvas, Canvas.samePoint. simpl.
  destruct (trig r) as [c s]. simpl. split; ring.
Qed.

(** What a visible layer paints, given its own calls, when these do not
    touch the alpha: the shapes of the body under the transformations of
    the body. *)
Lemma placed_layerPaint (b : Browser) (l : Layer.t) (body : list Canvas.Op)
      (log : list string) :
  Layer.visible l = true ->
  layerBody b l = (body, log) ->
  forallb (fun o => match o with Canvas.setGlobalAlpha _ => false | _ => negb (stacks o) end)
          body = true ->
  placed (layerPaint b Canvas.initial l) = placed (paintedBy body).
Proof.
  intros Hvis Hbody Hflat.
  unfold layerPaint, layerCalls. rewrite Hvis, Hbody. simpl.
  set (a := (Layer.opacity l / 100)%Q).
  assert (Hgen : forall c1 c2 st p1 p2,
             Canvas.transform c1 = Canvas.transform c2 ->
             placed p1 = placed p2 ->
             placed (Canvas.painted (Canvas.run (Canvas.mkMachine c1 st p1) (body ++ [Canvas.restore])))
             = placed (Canvas.painted (Canvas.run (Canvas.mkMachine c2 [] p2) body))).
  { clear Hbody. induction body as [|o body IH]; intros c1 c2 st p1 p2 Ht Hp.
    - simpl. destruct st; simpl; exact Hp.
    - simpl in Hflat. apply andb_true_iff in Hflat. destruct Hflat as [Ho Hrest].
      cbn [app Canvas.run fold_left].
      destruct o; simpl in Ho; try discriminate; simpl;
        unfold Canvas.setCurrent, Canvas.paint; simpl;
        apply (IH Hrest); simpl; try assumption; try (rewrite Ht; reflexivity);
        unfold placed; rewrite !map_app; simpl; rewrite Ht;
        unfold placed in Hp; rewrite Hp; reflexivity. }
  unfold paintedBy, Canvas.start.
  destruct (Qle_bool 0 a && Qle_bool a 1); apply Hgen; reflexivity.
Qed.

(** C2, as amended: a visible Image or Drawing layer with a rotation other
    than zero is rotated about the center [(x + w/2, y + h/2)] of its box,
    where [w] and [h] are the explicit width and height when these are
    present and not zero, else the natural ones, times the scale; a
    visible Text layer with such a rotation is rotated about its anchor
    [(x, y)], and without rotation its text is drawn at [(x, y)], top
    baseline, under no transformation. *)
Theorem rotation_pivots (b : Browser) (l : Layer.t) :
  Layer.visible l = true ->
  (forall src iw ih,
      isRaster l ->
      Layer.src l = Some src -> src <> EmptyString ->
      decode b true src = Some (iw, ih) ->
      ~ (Layer.rotation l == 0)%Q ->
      let img := Canvas.mkImage src iw ih in
      let x := Layer.x l in
      let y := Layer.y l in
      let w := (Js.numOr (Layer.width l) iw * Layer.scale l)%Q in
      let h := (Js.numOr (Layer.height l) ih * Layer.scale l)%Q in
      let cx := (x + w / 2)%Q in
      let cy := (y + h / 2)%Q in
      let turn := [Canvas.Translate cx cy;
                   Canvas.Rotate (Canvas.ofDegrees (Layer.rotation l));
                   Canvas.Translate (- cx) (- cy)]%Q in
      fst (layerCalls b l)
      = [Canvas.save; Canvas.setGlobalAlpha (Layer.opacity l / 100);
         Canvas.translate cx cy;
         Canvas.rotate (Canvas.ofDegrees (Layer.rotation l));
         Canvas.translate (- cx) (- cy);
         Canvas.drawImage img x y w h;
         Canvas.restore]%Q
      /\ placed (layerPaint b Canvas.initial l)
         = [(Canvas.PaintImage img x y w h, turn)]
      /\ landsAt turn (cx, cy) (cx, cy))
  /\ (forall t,
         Layer.type l = text ->
         Layer.text l = Some t -> t <> EmptyString ->
         let x := Layer.x l in
         let y := Layer.y l in
         let styling :=
           [Canvas.setFont
              (Canvas.mkFont (Js.strOr (Layer.fontWeight l) "normal")
                             (Js.numOr (Layer.fontSize l) 32 * Layer.scale l)
                             (Js.strOr (Layer.fontFamily l) "sans-serif"));
            Canvas.setFillStyle (Js.strOr (Layer.color l) "#ffffff");
            Canvas.setTextBaseline "top"]%Q in
         (~ (Layer.rotation l == 0)%Q ->
          let turn := [Canvas.Translate x y;
                       Canvas.Rotate (Canvas.ofDegrees (Layer.rotation l))] in
          fst (layerCalls b l)
          = ([Canvas.save; Canvas.setGlobalAlpha (Layer.opacity l / 100)]
             ++ styling
             ++ [Canvas.translate x y;
                 Canvas.rotate (Canvas.ofDegrees (Layer.rotation l));
                 Canvas.fillText t 0 0;
                 Canvas.restore])%Q
          /\ placed (layerPaint b Canvas.initial l)
             = [(Canvas.PaintText t 0 0, turn)]
          /\ landsAt turn (0, 0)%Q (x, y))
         /\ ((Layer.rotation l == 0)%Q ->
             fst (layerCalls b l)
             = ([Canvas.save; Canvas.setGlobalAlpha (Layer.opacity l / 100)]
                ++ styling
                ++ [Canvas.fillText t x y; Canvas.restore])%Q
             /\ placed (layerPaint b Canvas.initial l)
                = [(Canvas.PaintText t x y, [])]
             /\ exists p, layerPaint b Canvas.initial l = [p]
                          /\ Canvas.textBaseline (Canvas.under p) = "top"%string)).
Proof.
  intros Hvis. split.
  - intros src iw ih Hkind Hsrc Hne Hdec Hrot img x y w h cx cy turn.
    assert (Hbody : layerBody b l
                    = ([Canvas.translate cx cy;
                        Canvas.rotate (Canvas.ofDegrees (Layer.rotation l));
                        Canvas.translate (- cx) (- cy);
                        Canvas.drawImage img x y w h], [])).
    { unfold layerBody, loadImage. rewrite Hsrc, Hdec.
      destruct src as [|ch rest]; [congruence|].
      rewrite (rotated_test _ Hrot).
      destruct Hkind as [-> | ->]; reflexivity. }
    split; [|split].
    + unfold layerCalls. rewrite Hvis, Hbody. reflexivity.
    + rewrite (placed_layerPaint b l _ _ Hvis Hbody) by reflexivity. reflexivity.
    + apply pivot_is_fixed.
  - intros t Hkind Htext Hne x y styling.
    assert (Htruthy : Js.truthyOptStr (Layer.text l) = true).
    { rewrite Htext. destruct t; [congruence | reflexivity]. }
    split.
    + intros Hrot turn.
      assert (Hbody : layerBody b l
                      = (styling ++ [Canvas.translate x y;
                                     Canvas.rotate (Canvas.ofDegrees (Layer.rotation l));
                                     Canvas.fillText t 0 0], [])).
      { unfold layerBody. rewrite Hkind, Htruthy, Htext, (rotated_test _ Hrot).
        reflexivity. }
      split; [|split].
      * unfold layerCalls. rewrite Hvis, Hbody. reflexivity.
      * rewrite (placed_layerPaint b l _ _ Hvis Hbody) by reflexivity. reflexivity.
      * apply anchor_is_fixed.
    + intros Hrot.
      assert (Hbody : layerBody b l = (styling ++ [Canvas.fillText t x y], [])).
      { unfold layerBody. rewrite Hkind, Htruthy, Htext, (unrotated_test _ Hrot).
        reflexivity. }
      split; [|split].
      * unfold layerCalls. rewrite Hvis, Hbody. reflexivity.
      * rewrite (placed_layerPaint b l _ _ Hvis Hbody) by reflexivity. reflexivity.
      * unfold layerPaint, layerCalls. rewrite Hvis, Hbody. simpl.
        destruct (Qle_bool 0 (Layer.opacity l / 100) && Qle_bool (Layer.opacity l / 100) 1);
          simpl; eexists; split; reflexivity.
Qed.

Lemma rotation_pivots_witness :
  (placed (layerPaint demoBrowser Canvas.initial
             (demoImageLayer (Some 300%Q) (Some 300%Q) 90))
   = [(Canvas.PaintImage
         (Canvas.mkImage "data:image/png;base64,BBBB" 200 100) 10 20 300 300,
       [Canvas.Translate (320 # 2) (340 # 2);
        Canvas.Rotate (Canvas.piTimes (90 # 180));
        Canvas.Translate (-320 # 2) (-340 # 2)])]
   /\ landsAt [Canvas.Translate (320 # 2) (340 # 2);
               Canvas.Rotate (Canvas.piTimes (90 # 180));
               Canvas.Translate (-320 # 2) (-340 # 2)]
              (320 # 2, 340 # 2) (320 # 2, 340 # 2))
  /\ (placed (layerPaint demoBrowser Canvas.initial (demoTextLayer 90))
      = [(Canvas.PaintText "Hello" 0 0,
          [Canvas.Translate 10 20; Canvas.Rotate (Canvas.piTimes (90 # 180))])]
      /\ landsAt [Canvas.Translate 10 20; Canvas.Rotate (Canvas.piTimes (90 # 180))]
                 (0, 0)%Q (10, 20)%Q)
  /\ placed (layerPaint demoBrowser Canvas.initial (demoTextLayer 0))
     = [(Canvas.PaintText "Hello" 10 20, [])].
Proof.
  split; [|split].
  - destruct (rotation_pivots demoBrowser
                (demoImageLayer (Some 300%Q) (Some 300%Q) 90) eq_refl) as [Himg _].
    destruct (Himg "data:image/png;base64,BBBB"%string 200%Q 100%Q) as [_ [Hp Hl]].
    + left. reflexivity.
    + reflexivity.
    + discriminate.
    + reflexivity.
    + discriminate.
    + split; [exact Hp | exact Hl].
  - destruct (rotation_pivots demoBrowser (demoTextLayer 90) eq_refl) as [_ Htxt].
    destruct (Htxt "Hello"%string) as [Hturned _].
    + reflexivity.
    + reflexivity.
    + discriminate.
    + destruct Hturned as [_ [Hp Hl]].
      * discriminate.
      * split; [exact Hp | exact Hl].
  - destruct (rotation_pivots demoBrowser (demoTextLayer 0) eq_refl) as [_ Htxt].
    destruct (Htxt "Hello"%string) as [_ Hplain].
    + reflexivity.
    + reflexivity.
    + discriminate.
    + destruct Hplain as [_ [Hp _]].
      * reflexivity.
      * exact Hp.
Defined.

(** The two pivots differ: under a quarter turn the top-left corner of the
    image layer's box leaves its place, the anchor of the text does not. *)
Example pivots_differ :
  Canvas.toCanvas demoTrig
    [Canvas.Translate 160 170; Canvas.Rotate (Canvas.ofDegrees 90);
     Canvas.Translate (-160) (-170)] (10, 20)%Q
  = (310, 20)%Q
  /\ Canvas.toCanvas demoTrig
       [Canvas.Translate 10 20; Canvas.Rotate (Canvas.ofDegrees 90)] (0, 0)%Q
     = (10, 20)%Q.
Proof. split; vm_compute; reflexivity. Qed.

(** C2 as stated fails on an explicit width of zero: the box is then as
    wide as the decoded image, and so is the pivot placed. *)
Lemma rotation_pivot_counterexample :
  let l := demoImageLayer (Some 0%Q) (Some 300%Q) 90 in
  Layer.visible l = true /\ isRaster l /\ ~ (Layer.rotation l == 0)%Q
  /\ Layer.width l = Some 0%Q
  /\ decode demoBrowser true "data:image/png;base64,BBBB" = Some (200, 100)%Q
  /\ exists cx cy rest,
      fst (layerCalls demoBrowser l)
      = Canvas.save :: Canvas.setGlobalAlpha (Layer.opacity l / 100)
          :: Canvas.translate cx cy :: rest
      /\ (cx == 110)%Q
      /\ (Layer.x l + specifiedSize (Layer.width l) 200 (Layer.scale l) / 2 == 10)%Q
      /\ ~ (cx == Layer.x l + specifiedSize (Layer.width l) 200 (Layer.scale l) / 2)%Q.
Proof.
  intros l. repeat split.
  - left. reflexivity.
  - discriminate.
  - eexists _, _, _. split; [reflexivity|]. repeat split; discriminate.
Qed.

(** ** Deep copies and the allocator *)

Lemma cloneElems_spec (els : list Elem) :
  forall n,
    (n <= snd (mapM cloneElem els n))%positive
    /\ map contentOf (fst (mapM cloneElem els n))
       = map (fun e => jsonContent (contentOf e)) els
    /\ Forall (fun a => (n <= a < snd (mapM cloneElem els n))%positive)
              (flat_map elemAddrs (fst (mapM cloneElem els n))).
Proof.
  induction els as [|e els IH]; intros n.
  - simpl. repeat split; [lia | constructor].
  - assert (Hstep : exists e' n1,
               cloneElem e n = (e', n1) /\ (n <= n1)%positive
               /\ contentOf e' = jsonContent (contentOf e)
               /\ Forall (fun a => (n <= a < n1)%positive) (elemAddrs e')).
    { destruct e as [| |o]; simpl.
      - exists Null, n. repeat split; [lia | constructor].
      - exists Null, n. repeat split; [lia | constructor].
      - exists (Ref (mkObj n (val o))), (Pos.succ n). unfold bind, new, ret. simpl.
        repeat split; [lia | constructor; [lia | constructor]]. }
    destruct Hstep as [e' [n1 [E [Hle [Hc Ha]]]]].
    specialize (IH n1). destruct IH as [Hle' [Hc' Ha']].
    destruct (mapM cloneElem els n1) as [els' n2] eqn:E2.
    assert (Hall : mapM cloneElem (e :: els) n = (e' :: els', n2)).
    { cbn [mapM]. unfold bind. rewrite E, E2. reflexivity. }
    rewrite Hall. simpl in *.
    repeat split.
    + lia.
    + rewrite Hc, Hc'. reflexivity.
    + apply Forall_app. split.
      * eapply Forall_impl; [|exact Ha]. simpl. intros a Hr. lia.
      * eapply Forall_impl; [|exact Ha']. simpl. intros a Hr. lia.
Qed.

Lemma json_of_layers (els : list Elem) :
  allLayers els ->
  map (fun e => jsonContent (contentOf e)) els = map contentOf els.
Proof.
  induction 1 as [|e els He _ IH]; simpl; [reflexivity|].
  rewrite IH. destruct e; try contradiction. reflexivity.
Qed.

(** [JSON.parse(JSON.stringify(a))] hands back an array of its own, with
    objects of its own, all taken from the free addresses. *)
Lemma jsonClone_spec (a : LayerArray) (n : Addr) :
  (n < snd (jsonClone a n))%positive
  /\ map contentOf (val (fst (jsonClone a n)))
     = map (fun e => jsonContent (contentOf e)) (val a)
  /\ Forall (fun x => (n <= x < snd (jsonClone a n))%positive)
            (arrayAddrs (fst (jsonClone a n))).
Proof.
  unfold jsonClone, bind.
  destruct (cloneElems_spec (val a) n) as [Hle [Hc Ha]].
  destruct (mapM cloneElem (val a) n) as [els' n1]. simpl in *.
  unfold arrayAddrs. simpl.
  repeat split.
  - lia.
  - exact Hc.
  - constructor; [lia|].
    eapply Forall_impl; [|exact Ha]. simpl. intros x Hx. lia.
Qed.

Lemma fresh_of_range (ed : Editor) (a : LayerArray) (n' : Addr) :
  heapOk ed ->
  Forall (fun x => (nextAddr ed <= x < n')%positive) (arrayAddrs a) ->
  freshFor ed a.
Proof.
  intros Hok Hr. unfold freshFor.
  eapply Forall_impl; [|exact Hr]. simpl. intros x Hx Hin.
  unfold heapOk in Hok. rewrite Forall_forall in Hok.
  specialize (Hok x Hin). lia.
Qed.

(** What the shared step of undo and redo leaves. *)
Lemma restored_spec (i : Z) (item : HistoryItem.t) (ed : Editor) :
  let ed' := restored i item ed in
  currentIndex ed' = i
  /\ history ed' = history ed
  /\ map contentOf (liveLayers ed')
     = map (fun e => jsonContent (contentOf e)) (val (HistoryItem.layers item))
  /\ Forall (fun x => (nextAddr ed <= x < nextAddr ed')%positive)
            (arrayAddrs (AppState.layers (state ed')))
  /\ AppState.resultImage (state ed') = None
  /\ AppState.uploadedImage (state ed') = AppState.uploadedImage (state ed)
  /\ AppState.activeLayerId (state ed') = AppState.activeLayerId (state ed)
  /\ imageDimensions ed' = imageDimensions ed.
Proof.
  unfold restored, allocating.
  destruct (jsonClone_spec (HistoryItem.layers item) (nextAddr ed)) as [Hlt [Hc Ha]].
  destruct (jsonClone (HistoryItem.layers item) (nextAddr ed)) as [copy n'].
  simpl in *. unfold currentIndex, history, liveLayers. simpl.
  repeat split; assumption.
Qed.

Lemma handleUndo_unfold (ed : Editor) :
  handleUndo ed
  = if currentIndex ed >? 0 then
      match Js.get (history ed) (currentIndex ed - 1) with
      | Some item => Done (restored (currentIndex ed - 1) item ed)
      | None => Threw "TypeError: prevItem is undefined"
      end
    else Done ed.
Proof.
  unfold handleUndo, restored, currentIndex, history.
  destruct (AppState.currentHistoryIndex (state ed) >? 0); [|reflexivity].
  destruct (Js.get _ _) as [item|]; [|reflexivity].
  destruct (allocating _ ed). reflexivity.
Qed.

Lemma handleRedo_unfold (ed : Editor) :
  handleRedo ed
  = if currentIndex ed <? Js.length (history ed) - 1 then
      match Js.get (history ed) (currentIndex ed + 1) with
      | Some item => Done (restored (currentIndex ed + 1) item ed)
      | None => Threw "TypeError: nextItem is undefined"
      end
    else Done ed.
Proof.
  unfold handleRedo, restored, currentIndex, history.
  destruct (AppState.currentHistoryIndex (state ed) <? _); [|reflexivity].
  destruct (Js.get _ _) as [item|]; [|reflexivity].
  destruct (allocating _ ed). reflexivity.
Qed.

Lemma get_in_range {A} (l : list A) (i : Z) :
  0 <= i < Js.length l -> exists a, Js.get l i = Some a /\ In a l.
Proof.
  intros Hi. unfold Js.get, Js.length in *.
  destruct (i <? 0) eqn:E; [apply Z.ltb_lt in E; lia|].
  destruct (nth_error l (Z.to_nat i)) as [a|] eqn:En.
  - exists a. split; [reflexivity|]. eapply nth_error_In; eassumption.
  - apply nth_error_None in En. lia.
Qed.

(** ** Undo and redo *)

(** The live stack after the shared step, against the history item it was
    taken from. *)
Lemma restored_deep_copy (i : Z) (item : HistoryItem.t) (ed : Editor) :
  heapOk ed ->
  allLayers (val (HistoryItem.layers item)) ->
  deepEqual (liveLayers (restored i item ed)) (val (HistoryItem.layers item))
  /\ freshFor ed (AppState.layers (state (restored i item ed))).
Proof.
  intros Hok Htyped.
  destruct (restored_spec i item ed) as [_ [_ [Hc [Ha _]]]].
  split.
  - unfold deepEqual. rewrite Hc. apply json_of_layers. exact Htyped.
  - eapply fresh_of_range; eassumption.
Qed.

(** C4: on a seeded timeline, undo does nothing at index 0 and otherwise
    steps the index back by one and makes the live stack a deep copy of the
    snapshot at the new index, built from objects the editor did not hold
    before; redo does nothing at the last index and otherwise steps the
    index forward by one and restores that snapshot in the same way. *)
Theorem undo_redo_restore_fresh_copies (ed : Editor) :
  timelineOk ed -> heapOk ed -> snapshotsTyped ed ->
  (currentIndex ed = 0 -> handleUndo ed = Done ed)
  /\ (currentIndex ed <> 0 ->
      exists item ed',
        Js.get (history ed) (currentIndex ed - 1) = Some item
        /\ handleUndo ed = Done ed'
        /\ currentIndex ed' = currentIndex ed - 1
        /\ history ed' = history ed
        /\ deepEqual (liveLayers ed') (val (HistoryItem.layers item))
        /\ freshFor ed (AppState.layers (state ed')))
  /\ (currentIndex ed = Js.length (history ed) - 1 -> handleRedo ed = Done ed)
  /\ (currentIndex ed <> Js.length (history ed) - 1 ->
      exists item ed',
        Js.get (history ed) (currentIndex ed + 1) = Some item
        /\ handleRedo ed = Done ed'
        /\ currentIndex ed' = currentIndex ed + 1
        /\ history ed' = history ed
        /\ deepEqual (liveLayers ed') (val (HistoryItem.layers item))
        /\ freshFor ed (AppState.layers (state ed'))).
Proof.
  intros Htl Hok Htyped. unfold timelineOk in Htl.
  unfold snapshotsTyped in Htyped. rewrite Forall_forall in Htyped.
  repeat split.
  - intros H0. rewrite handleUndo_unfold, H0. reflexivity.
  - intros Hne.
    destruct (get_in_range (history ed) (currentIndex ed - 1)) as [item [Hget Hin]];
      [lia|].
    exists item, (restored (currentIndex ed - 1) item ed).
    destruct (restored_spec (currentIndex ed - 1) item ed) as [Hi [Hh _]].
    destruct (restored_deep_copy (currentIndex ed - 1) item ed Hok (Htyped item Hin))
      as [Hdeep Hfresh].
    repeat split; try assumption.
    rewrite handleUndo_unfold, Hget.
    destruct (currentIndex ed >? 0) eqn:E; [reflexivity|].
    rewrite Z.gtb_ltb in E. apply Z.ltb_ge in E. lia.
  - intros Hlast. rewrite handleRedo_unfold.
    destruct (currentIndex ed <? Js.length (history ed) - 1) eqn:E; [|reflexivity].
    apply Z.ltb_lt in E. lia.
  - intros Hne.
    destruct (get_in_range (history ed) (currentIndex ed + 1)) as [item [Hget Hin]];
      [lia|].
    exists item, (restored (currentIndex ed + 1) item ed).
    destruct (restored_spec (currentIndex ed + 1) item ed) as [Hi [Hh _]].
    destruct (restored_deep_copy (currentIndex ed + 1) item ed Hok (Htyped item Hin))
      as [Hdeep Hfresh].
    repeat split; try assumption.
    rewrite handleRedo_unfold, Hget.
    destruct (currentIndex ed <? Js.length (history ed) - 1) eqn:E; [reflexivity|].
    apply Z.ltb_ge in E. lia.
Qed.

Lemma undo_redo_restore_fresh_copies_witness :
  timelineOk demoWithText /\ heapOk demoWithText /\ snapshotsTyped demoWithText
  /\ currentIndex demoWithText = 1
  /\ (exists item ed',
         Js.get (history demoWithText) 0 = Some item
         /\ handleUndo demoWithText = Done ed'
         /\ currentIndex ed' = 0
         /\ deepEqual (liveLayers ed') (val (HistoryItem.layers item))
         /\ freshFor demoWithText (AppState.layers (state ed')))
  /\ handleRedo demoWithText = Done demoWithText.
Proof.
  assert (Htl : timelineOk demoWithText)
    by (vm_compute; split; [discriminate | reflexivity]).
  assert (Hok : heapOk demoWithText)
    by (unfold heapOk; vm_compute; repeat constructor).
  assert (Hty : snapshotsTyped demoWithText)
    by (unfold snapshotsTyped, allLayers; vm_compute; repeat constructor).
  destruct (undo_redo_restore_fresh_copies demoWithText Htl Hok Hty)
    as [_ [Hundo [Hredo _]]].
  split; [exact Htl|]. split; [exact Hok|]. split; [exact Hty|].
  split; [reflexivity|]. split.
  - destruct Hundo as [item [ed' [Hget [Hrun [Hidx [_ [Hdeep Hfresh]]]]]]].
    + discriminate.
    + exists item, ed'. repeat split; assumption.
  - apply Hredo. reflexivity.
Defined.

(** ** Snapshots *)

Lemma slice0_prefix {A} (l : list A) (i : Z) :
  -1 <= i < Js.length l ->
  Js.slice0 l (i + 1) = firstn (Z.to_nat (i + 1)) l.
Proof.
  intros Hi. unfold Js.slice0, Js.clampIndex.
  destruct (i + 1 <? 0) eqn:E; [apply Z.ltb_lt in E; lia|].
  rewrite Z.min_l by lia. reflexivity.
Qed.

Lemma length_snoc {A} (l : list A) (a : A) :
  Js.length (l ++ [a]) = Js.length l + 1.
Proof. unfold Js.length. rewrite length_app. simpl. lia. Qed.

(** What the updater of [captureHistorySnapshot] leaves. *)
Lemma pushSnapshot_spec (composite : string) (tId tStamp : Z) (ed : Editor) :
  let ed' := pushSnapshot composite tId tStamp ed in
  exists item,
    history ed' = Js.slice0 (history ed) (currentIndex ed + 1) ++ [item]
    /\ currentIndex ed' = Js.length (history ed') - 1
    /\ HistoryItem.image item = composite
    /\ map contentOf (val (HistoryItem.layers item))
       = map (fun e => jsonContent (contentOf e)) (liveLayers ed)
    /\ Forall (fun x => (nextAddr ed <= x < nextAddr ed')%positive)
              (arrayAddrs (HistoryItem.layers item))
    /\ AppState.layers (state ed') = AppState.layers (state ed).
Proof.
  unfold pushSnapshot, allocating.
  destruct (jsonClone_spec (AppState.layers (state ed)) (nextAddr ed)) as [Hlt [Hc Ha]].
  destruct (jsonClone (AppState.layers (state ed)) (nextAddr ed)) as [copy n'].
  simpl in *. eexists. unfold history, currentIndex, liveLayers. simpl.
  repeat split; try reflexivity; assumption.
Qed.

Lemma capture_resolved (b : Browser) (tId tStamp : Z) (render ed : Editor)
      (composite : string) :
  Js.truthyOptStr (AppState.uploadedImage (state render)) = true ->
  result (composeLayers b (liveLayers render) (canvasWidth render) (canvasHeight render))
  = Promise.Resolved composite ->
  captureHistorySnapshot b tId tStamp render ed
  = pushSnapshot composite tId tStamp
      (consoleError
         (console (composeLayers b (liveLayers render)
                     (canvasWidth render) (canvasHeight render))) ed).
Proof.
  intros Hup Hres. unfold captureHistorySnapshot, liveLayers in *.
  rewrite Hup, Hres. reflexivity.
Qed.




(** ** Undo followed by redo *)

Lemma json_of_deep_equal (els els' : list Elem) :
  allLayers els -> deepEqual els els' ->
  map (fun e => jsonContent (contentOf e)) els' = map contentOf els.
Proof.
  intros Hty Heq. unfold deepEqual in Heq.
  rewrite <- (json_of_layers els Hty).
  rewrite <- (map_map contentOf jsonContent els').
  rewrite <- (map_map contentOf jsonContent els).
  rewrite Heq. reflexivity.
Qed.

(** C5, as amended: when undo is enabled and the live stack is deep-equal
    to the snapshot at the current index, as it is right after a snapshot,
    an undo or a redo, then undo followed by redo gives a live stack
    deep-equal to the one held before the undo, and the index it had. *)
Theorem undo_then_redo_restores (ed : Editor) :
  currentIndex ed > 0 ->
  currentIndex ed < Js.length (history ed) ->
  allLayers (liveLayers ed) ->
  (exists item,
      Js.get (history ed) (currentIndex ed) = Some item
      /\ deepEqual (liveLayers ed) (val (HistoryItem.layers item))) ->
  exists ed1 ed2,
    handleUndo ed = Done ed1
    /\ handleRedo ed1 = Done ed2
    /\ deepEqual (liveLayers ed2) (liveLayers ed)
    /\ currentIndex ed2 = currentIndex ed
    /\ history ed2 = history ed.
Proof.
  intros Hpos Hlt Hty [item [Hget Hdeep]].
  destruct (get_in_range (history ed) (currentIndex ed - 1)) as [prev [Hprev _]];
    [lia|].
  set (ed1 := restored (currentIndex ed - 1) prev ed).
  destruct (restored_spec (currentIndex ed - 1) prev ed) as [Hi1 [Hh1 _]].
  fold ed1 in Hi1, Hh1.
  set (ed2 := restored (currentIndex ed1 + 1) item ed1).
  destruct (restored_spec (currentIndex ed1 + 1) item ed1) as [Hi2 [Hh2 [Hc2 _]]].
  fold ed2 in Hi2, Hh2, Hc2.
  exists ed1, ed2. repeat split.
  - rewrite handleUndo_unfold, Hprev.
    destruct (currentIndex ed >? 0) eqn:E; [reflexivity|].
    rewrite Z.gtb_ltb in E. apply Z.ltb_ge in E. lia.
  - rewrite handleRedo_unfold, Hh1.
    replace (currentIndex ed1 + 1) with (currentIndex ed) by lia.
    rewrite Hget.
    destruct (currentIndex ed1 <? Js.length (history ed) - 1) eqn:E.
    + subst ed2. replace (currentIndex ed1 + 1) with (currentIndex ed) by lia.
      reflexivity.
    + apply Z.ltb_ge in E. lia.
  - unfold deepEqual. rewrite Hc2. apply json_of_deep_equal; assumption.
  - rewrite Hi2, Hi1. lia.
  - rewrite Hh2, Hh1. reflexivity.
Qed.

Lemma undo_then_redo_restores_witness :
  currentIndex demoWithText > 0
  /\ exists ed1 ed2,
      handleUndo demoWithText = Done ed1
      /\ handleRedo ed1 = Done ed2
      /\ deepEqual (liveLayers ed2) (liveLayers demoWithText)
      /\ currentIndex ed2 = 1.
Proof.
  split; [reflexivity|].
  destruct (undo_then_redo_restores demoWithText)
    as [ed1 [ed2 [Hu [Hr [Hdeep [Hi _]]]]]].
  - reflexivity.
  - reflexivity.
  - unfold allLayers. vm_compute. repeat constructor.
  - eexists. split; [reflexivity|]. reflexivity.
  - exists ed1, ed2. repeat split; assumption.
Defined.

(** C5 as stated fails when the live stack is ahead of the timeline.  A
    layer is added while the canvas gives no context: [composeLayers]
    rejects, so no snapshot is taken.  Undo followed by redo then brings
    back the stack of the last snapshot, one layer short. *)
Lemma undo_then_redo_counterexample :
  currentIndex demoUnsnapshotted > 0
  /\ result (composeLayers noContextBrowser (liveLayers demoWithText)
               (canvasWidth demoWithText) (canvasHeight demoWithText))
     = Promise.Rejected "Canvas context not available"
  /\ handleUndo demoUnsnapshotted = Done demoUnsnapshottedUndone
  /\ handleRedo demoUnsnapshottedUndone = Done demoUnsnapshottedRedone
  /\ currentIndex demoUnsnapshottedRedone = currentIndex demoUnsnapshotted
  /\ Js.length (liveLayers demoUnsnapshotted) = 3
  /\ Js.length (liveLayers demoUnsnapshottedRedone) = 2
  /\ ~ deepEqual (liveLayers demoUnsnapshottedRedone) (liveLayers demoUnsnapshotted).
Proof.
  split; [vm_compute; reflexivity|]. split; [vm_compute; reflexivity|].
  split; [vm_compute; reflexivity|]. split; [vm_compute; reflexivity|].
  split; [vm_compute; reflexivity|]. split; [vm_compute; reflexivity|].
  split; [vm_compute; reflexivity|].
  unfold deepEqual. vm_compute. intros H. discriminate H.
Qed.

(** The same happens after a change that takes no snapshot at all: the
    text of the layer is typed in through [updateLayer] alone, as the text
    tools do, and undo followed by redo brings back the text the layer was
    created with. *)
Example typing_is_lost_by_undo_then_redo :
  currentIndex demoTyped > 0
  /\ updateLayer "text-2" demoTyping demoWithText = Done demoTyped
  /\ handleUndo demoTyped = Done demoTypedUndone
  /\ handleRedo demoTypedUndone = Done demoTypedRedone
  /\ currentIndex demoTypedRedone = currentIndex demoTyped
  /\ map (fun c => match c with CLayer l => Layer.text l | _ => None end)
         (map contentOf (liveLayers demoTyped))
     = [None; Some "Hello"%string]
  /\ map (fun c => match c with CLayer l => Layer.text l | _ => None end)
         (map contentOf (liveLayers demoTypedRedone))
     = [None; Some "Double click to edit"%string]
  /\ ~ deepEqual (liveLayers demoTypedRedone) (liveLayers demoTyped).
Proof.
  split; [vm_compute; reflexivity|]. split; [vm_compute; reflexivity|].
  split; [vm_compute; reflexivity|]. split; [vm_compute; reflexivity|].
  split; [vm_compute; reflexivity|]. split; [vm_compute; reflexivity|].
  split; [vm_compute; reflexivity|].
  unfold deepEqual. vm_compute. intros H. discriminate H.
Qed.

(** ** Upload and crop *)

(** [handleImageUpload] starts the composition over: one base layer that
    shows the image, and a timeline of one snapshot that holds it. *)
Lemma handleImageUpload_spec (dataUri : string) (tId tStamp : Z) (ed : Editor) :
  let ed' := handleImageUpload dataUri tId tStamp ed in
  exists base item,
    liveLayers ed' = [Ref base]
    /\ val base
       = Layer.mk "layer-base" image "Background" true true 100 0 0 0 1
                  None None (Some dataUri) None None None None None
    /\ history ed' = [item]
    /\ val (HistoryItem.layers item) = [Ref base]
    /\ HistoryItem.image item = dataUri
    /\ currentIndex ed' = 0
    /\ AppState.uploadedImage (state ed') = Some dataUri
    /\ cropSelection ed' = None
    /\ showCropTools ed' = false.
Proof.
  unfold handleImageUpload, allocating, bind, new, ret. simpl.
  eexists _, _. unfold liveLayers, history, currentIndex. simpl.
  repeat split.
Qed.




(** ** Arrays by position *)

Lemma length_insertAt {A} (i : nat) (a : A) (l : list A) :
  List.length (insertAt i a l) = S (List.length l).
Proof.
  unfold insertAt. rewrite length_app. simpl.
  rewrite length_firstn, length_skipn. lia.
Qed.

Lemma length_removeAt {A} (i : nat) (l : list A) :
  (i < List.length l)%nat -> List.length (removeAt i l) = pred (List.length l).
Proof.
  intros Hi. unfold removeAt. rewrite length_app, length_firstn, length_skipn. lia.
Qed.

Lemma nth_insertAt {A} (i : nat) (a : A) (l : list A) :
  (i <= List.length l)%nat -> nth_error (insertAt i a l) i = Some a.
Proof.
  intros Hi. unfold insertAt.
  rewrite nth_error_app2; rewrite length_firstn; [|lia].
  replace (i - Nat.min i (List.length l))%nat with 0%nat by lia. reflexivity.
Qed.


Lemma skipn_nth {A} (l : list A) (i : nat) (x : A) :
  nth_error l i = Some x -> skipn i l = x :: skipn (S i) l.
Proof.
  revert i. induction l as [|a l IH]; intros [|i] H; simpl in *; try discriminate.
  - injection H as ->. reflexivity.
  - apply IH. exact H.
Qed.

Lemma insert_removed_permutation {A} (i j : nat) (x : A) (l : list A) :
  nth_error l j = Some x ->
  Permutation (insertAt i x (removeAt j l)) l.
Proof.
  intros Hx. unfold insertAt.
  set (r := removeAt j l).
  transitivity (x :: r).
  - symmetry. rewrite <- (firstn_skipn i r) at 1. apply Permutation_middle.
  - subst r. unfold removeAt.
    rewrite <- (firstn_skipn j l) at 3. rewrite (skipn_nth l j x Hx).
    apply Permutation_middle.
Qed.

(** *** What [splice] does in [handleReorderLayer] *)

Lemma splice_take_in_range {A} (l : list A) (from : Z) :
  0 <= from < Js.length l ->
  exists x, nth_error l (Z.to_nat from) = Some x
            /\ Js.splice l from 1 [] = ([x], removeAt (Z.to_nat from) l).
Proof.
  intros Hr. unfold Js.length in Hr.
  destruct (nth_error l (Z.to_nat from)) as [x|] eqn:E;
    [|apply nth_error_None in E; lia].
  exists x. split; [reflexivity|].
  unfold Js.splice, Js.clampIndex, Js.length.
  destruct (from <? 0) eqn:Eneg; [apply Z.ltb_lt in Eneg; lia|].
  rewrite (Z.min_l from) by lia.
  replace (Z.min (Z.max 1 0) (Z.of_nat (List.length l) - from)) with 1 by lia.
  change (Z.to_nat 1) with 1%nat.
  rewrite (skipn_nth l _ x E). unfold removeAt. simpl.
  rewrite Nat.add_1_r. reflexivity.
Qed.

Lemma splice_take_beyond {A} (l : list A) (from : Z) :
  from >= Js.length l -> Js.splice l from 1 [] = ([], l).
Proof.
  intros Hr. unfold Js.splice, Js.clampIndex. unfold Js.length in *.
  destruct (from <? 0) eqn:Eneg; [apply Z.ltb_lt in Eneg; lia|].
  rewrite (Z.min_r from) by lia.
  replace (Z.min (Z.max 1 0) (Z.of_nat (List.length l) - Z.of_nat (List.length l)))
    with 0 by lia.
  rewrite Nat2Z.id. simpl. rewrite Nat.add_0_r, firstn_all, skipn_all, app_nil_r.
  reflexivity.
Qed.

Lemma splice_take_negative {A} (l : list A) (from : Z) :
  from < 0 ->
  Js.splice l from 1 [] = Js.splice l (Z.max (Js.length l + from) 0) 1 [].
Proof.
  intros Hneg. unfold Js.splice.
  assert (Hclamp : Js.clampIndex (Js.length l) from
                   = Js.clampIndex (Js.length l) (Z.max (Js.length l + from) 0)).
  { unfold Js.clampIndex.
    destruct (from <? 0) eqn:E1; [|apply Z.ltb_ge in E1; lia].
    destruct (Z.max (Js.length l + from) 0 <? 0) eqn:E2;
      [apply Z.ltb_lt in E2; lia|].
    unfold Js.length. lia. }
  rewrite Hclamp. reflexivity.
Qed.

Lemma splice_put {A} (l : list A) (to : Z) (m : A) :
  0 <= to <= Js.length l ->
  snd (Js.splice l to 0 [m]) = insertAt (Z.to_nat to) m l.
Proof.
  intros Hr. unfold Js.splice, Js.clampIndex. unfold Js.length in *.
  destruct (to <? 0) eqn:Eneg; [apply Z.ltb_lt in Eneg; lia|].
  rewrite (Z.min_l to) by lia.
  replace (Z.min (Z.max 0 0) (Z.of_nat (List.length l) - to)) with 0 by lia.
  simpl. rewrite Nat.add_0_r. reflexivity.
Qed.

Lemma reorder_in_range (els : list Elem) (from to : Z) :
  0 <= to < Js.length els -> 0 <= from < Js.length els ->
  exists moved,
    Js.get els from = Some moved
    /\ reorder els from to
       = insertAt (Z.to_nat to) moved (removeAt (Z.to_nat from) els).
Proof.
  intros Hto Hfrom.
  destruct (splice_take_in_range els from Hfrom) as [x [Hx Hs]].
  exists x. split.
  - unfold Js.get. destruct (from <? 0) eqn:E; [apply Z.ltb_lt in E; lia|]. exact Hx.
  - unfold reorder. rewrite Hs. apply splice_put.
    unfold Js.length in *. rewrite length_removeAt by lia. lia.
Qed.

Lemma reorder_beyond (els : list Elem) (from to : Z) :
  0 <= to < Js.length els -> from >= Js.length els ->
  reorder els from to = insertAt (Z.to_nat to) Undefined els.
Proof.
  intros Hto Hfrom. unfold reorder. rewrite (splice_take_beyond els from Hfrom).
  apply splice_put. lia.
Qed.

Lemma reorder_negative (els : list Elem) (from to : Z) :
  from < 0 ->
  reorder els from to = reorder els (Z.max (Js.length els + from) 0) to.
Proof.
  intros Hneg. unfold reorder. rewrite (splice_take_negative els from Hneg).
  reflexivity.
Qed.

(** [captureHistorySnapshot] does not touch the live stack. *)
Lemma capture_keeps_layers (b : Browser) (tId tStamp : Z) (render ed : Editor) :
  AppState.layers (state (captureHistorySnapshot b tId tStamp render ed))
  = AppState.layers (state ed).
Proof.
  unfold captureHistorySnapshot.
  destruct (negb (Js.truthyOptStr (AppState.uploadedImage (state render))));
    [reflexivity|].
  destruct (result _) as [composite| |]; try reflexivity.
  destruct (pushSnapshot_spec composite tId tStamp
              (consoleError (console (composeLayers b (val (AppState.layers (state render)))
                                        (canvasWidth render) (canvasHeight render))) ed))
    as [item [_ [_ [_ [_ [_ Hl]]]]]].
  rewrite Hl. reflexivity.
Qed.

Lemma handleReorderLayer_layers (b : Browser) (from to tId tStamp : Z) (ed : Editor) :
  0 <= to < Js.length (liveLayers ed) ->
  AppState.layers (state (handleReorderLayer b from to tId tStamp ed))
  = mkObj (nextAddr ed) (reorder (liveLayers ed) from to).
Proof.
  intros Hto. unfold handleReorderLayer. fold (liveLayers ed).
  destruct (to <? 0) eqn:E1; [apply Z.ltb_lt in E1; lia|].
  destruct (to >=? Js.length (liveLayers ed)) eqn:E2;
    [rewrite Z.geb_leb in E2; apply Z.leb_le in E2; lia|].
  simpl. unfold allocating, new. simpl.
  rewrite capture_keeps_layers. reflexivity.
Qed.





(** C9: only [toIndex] is checked.  With [toIndex] inside the stack and
    [fromIndex] outside it, [handleReorderLayer] goes on and stores a new
    array: for [fromIndex >= length] nothing is removed and [undefined] is
    put in at [toIndex], so the stack is one longer and is no array of
    layers any more; for a negative [fromIndex] the element at
    [length + fromIndex], or the first one when that is negative too, is
    the one that moves. *)
Theorem reorder_trusts_the_source_index
        (b : Browser) (from to tId tStamp : Z) (ed : Editor) :
  let els := liveLayers ed in
  let ed' := handleReorderLayer b from to tId tStamp ed in
  0 <= to < Js.length els ->
  (heapOk ed -> AppState.layers (state ed') <> AppState.layers (state ed))
  /\ (from >= Js.length els ->
      liveLayers ed' = insertAt (Z.to_nat to) Undefined els
      /\ Js.length (liveLayers ed') = Js.length els + 1
      /\ Js.get (liveLayers ed') to = Some Undefined
      /\ layersOf (liveLayers ed') = None
      /\ ed' <> ed)
  /\ (from < 0 ->
      let k := Z.max (Js.length els + from) 0 in
      exists moved,
        Js.get els k = Some moved
        /\ liveLayers ed'
           = insertAt (Z.to_nat to) moved (removeAt (Z.to_nat k) els)).
Proof.
  intros els ed' Hto.
  assert (Harr : AppState.layers (state ed')
                 = mkObj (nextAddr ed) (reorder els from to))
    by (apply handleReorderLayer_layers; exact Hto).
  assert (Hlive : liveLayers ed' = reorder els from to)
    by (unfold liveLayers at 1; rewrite Harr; reflexivity).
  split; [|split].
  - intros Hok Heq. rewrite Harr in Heq.
    unfold heapOk, editorAddrs, arrayAddrs in Hok. simpl in Hok.
    apply Forall_inv in Hok. rewrite <- Heq in Hok. simpl in Hok. lia.
  - intros Hfrom.
    assert (Hins : liveLayers ed' = insertAt (Z.to_nat to) Undefined els)
      by (rewrite Hlive; apply reorder_beyond; assumption).
    assert (Hlen : Js.length (liveLayers ed') = Js.length els + 1)
      by (rewrite Hins; unfold Js.length; rewrite length_insertAt; lia).
    assert (Hget : Js.get (liveLayers ed') to = Some Undefined).
    { rewrite Hins. unfold Js.get.
      destruct (to <? 0) eqn:E; [apply Z.ltb_lt in E; lia|].
      apply nth_insertAt. unfold Js.length in Hto. lia. }
    repeat split; try assumption.
    + rewrite Hins. unfold insertAt.
      generalize (firstn (Z.to_nat to) els) as pre.
      induction pre as [|e pre IH]; simpl; [reflexivity|].
      destruct e; try reflexivity. rewrite IH. reflexivity.
    + intros Heq. rewrite Heq in Hlen. fold els in Hlen. lia.
  - intros Hneg k.
    assert (Hk : 0 <= k < Js.length els) by (subst k; lia).
    destruct (reorder_in_range els k to Hto Hk) as [moved [Hget Hre]].
    exists moved. split; [exact Hget|].
    rewrite Hlive, (reorder_negative els from to Hneg). exact Hre.
Qed.

Lemma reorder_trusts_the_source_index_witness :
  map contentOf (liveLayers (handleReorderLayer demoBrowser 5 0 5 5 demoWithText))
  = CUndefined :: map contentOf (liveLayers demoWithText)
  /\ map contentOf (liveLayers (handleReorderLayer demoBrowser (-1) 0 5 5 demoWithText))
     = rev (map contentOf (liveLayers demoWithText))
  /\ AppState.layers (state (handleReorderLayer demoBrowser (-1) 1 5 5 demoWithText))
     <> AppState.layers (state demoWithText).
Proof.
  assert (Hto0 : 0 <= 0 < Js.length (liveLayers demoWithText))
    by (vm_compute; split; [discriminate | reflexivity]).
  assert (Hto1 : 0 <= 1 < Js.length (liveLayers demoWithText))
    by (vm_compute; split; [discriminate | reflexivity]).
  split; [|split].
  - destruct (reorder_trusts_the_source_index demoBrowser 5 0 5 5 demoWithText Hto0)
      as [_ [Hbeyond _]].
    destruct Hbeyond as [Hins _].
    + vm_compute. discriminate.
    + rewrite Hins. reflexivity.
  - destruct (reorder_trusts_the_source_index demoBrowser (-1) 0 5 5 demoWithText Hto0)
      as [_ [_ Hneg]].
    destruct Hneg as [moved [Hget Hins]].
    + reflexivity.
    + rewrite Hins. vm_compute in Hget. injection Hget as <-. reflexivity.
  - destruct (reorder_trusts_the_source_index demoBrowser (-1) 1 5 5 demoWithText Hto1)
      as [Hnew _].
    apply Hnew. unfold heapOk. vm_compute. repeat constructor.
Defined.

(** ** [updateLayer] *)

(** The spread [{ ...l, ...updates }], key by key: a key of [updates] wins,
    a key it does not have keeps the value of [l]. *)
Lemma spread_fields (l : Layer.t) (u : Partial.t) :
  Layer.id (spread l u) = over (Partial.id u) (Layer.id l)
  /\ Layer.type (spread l u) = over (Partial.type u) (Layer.type l)
  /\ Layer.name (spread l u) = over (Partial.name u) (Layer.name l)
  /\ Layer.visible (spread l u) = over (Partial.visible u) (Layer.visible l)
  /\ Layer.locked (spread l u) = over (Partial.locked u) (Layer.locked l)
  /\ Layer.opacity (spread l u) = over (Partial.opacity u) (Layer.opacity l)
  /\ Layer.x (spread l u) = over (Partial.x u) (Layer.x l)
  /\ Layer.y (spread l u) = over (Partial.y u) (Layer.y l)
  /\ Layer.rotation (spread l u) = over (Partial.rotation u) (Layer.rotation l)
  /\ Layer.scale (spread l u) = over (Partial.scale u) (Layer.scale l)
  /\ Layer.width (spread l u) = over (Partial.width u) (Layer.width l)
  /\ Layer.height (spread l u) = over (Partial.height u) (Layer.height l)
  /\ Layer.src (spread l u) = over (Partial.src u) (Layer.src l)
  /\ Layer.text (spread l u) = over (Partial.text u) (Layer.text l)
  /\ Layer.fontSize (spread l u) = over (Partial.fontSize u) (Layer.fontSize l)
  /\ Layer.color (spread l u) = over (Partial.color u) (Layer.color l)
  /\ Layer.fontFamily (spread l u) = over (Partial.fontFamily u) (Layer.fontFamily l)
  /\ Layer.fontWeight (spread l u) = over (Partial.fontWeight u) (Layer.fontWeight l).
Proof. repeat split. Qed.

Lemma spread_empty (l : Layer.t) : spread l Partial.empty = l.
Proof. destruct l. reflexivity. Qed.

Lemma mapUpdate_stack (id : string) (u : Partial.t) (os : list (Obj Layer.t)) :
  forall n,
  exists os',
    fst (mapUpdate id u (stackOf os) n) = Some (stackOf os')
    /\ Forall2 (fun o o' =>
                  if String.eqb (Layer.id (val o)) id
                  then val o' = spread (val o) u
                  else o' = o) os os'.
Proof.
  induction os as [|o os IH]; intros n.
  - exists []. split; [reflexivity | constructor].
  - cbn [stackOf map mapUpdate]. fold (stackOf os). unfold bind.
    destruct (String.eqb (Layer.id (val o)) id) eqn:E.
    + unfold new, ret. simpl.
      destruct (IH (Pos.succ n)) as [os' [Hrun Hall]].
      destruct (mapUpdate id u (stackOf os) (Pos.succ n)) as [r n'].
      simpl in *. subst r.
      exists (mkObj n (spread (val o) u) :: os'). split; [reflexivity|].
      constructor; [rewrite E; reflexivity | exact Hall].
    + unfold ret. simpl.
      destruct (IH n) as [os' [Hrun Hall]].
      destruct (mapUpdate id u (stackOf os) n) as [r n'].
      simpl in *. subst r.
      exists (o :: os'). split; [reflexivity|].
      constructor; [rewrite E; reflexivity | exact Hall].
Qed.



(** ** The invariants along a session

    The hypotheses of the statements above ([heapOk], the bounds on the
    index, [snapshotsTyped]) hold at the start and are kept by upload,
    snapshot, undo, redo and [updateLayer]. *)

Lemma ahead_mono (l : list Addr) (n n' : Addr) :
  (n <= n')%positive ->
  Forall (fun a => (a < n)%positive) l -> Forall (fun a => (a < n')%positive) l.
Proof.
  intros Hle H. eapply Forall_impl; [|exact H]. simpl. intros a Ha. lia.
Qed.

Lemma ahead_of_range (l : list Addr) (n n' : Addr) :
  Forall (fun a => (n <= a < n')%positive) l -> Forall (fun a => (a < n')%positive) l.
Proof.
  intros H. eapply Forall_impl; [|exact H]. simpl. intros a Ha. lia.
Qed.

Lemma heapOk_parts (ed : Editor) :
  heapOk ed
  <-> Forall (fun a => (a < nextAddr ed)%positive) (arrayAddrs (AppState.layers (state ed)))
      /\ Forall (fun it => Forall (fun a => (a < nextAddr ed)%positive)
                                  (arrayAddrs (HistoryItem.layers it)))
                (history ed).
Proof.
  unfold heapOk, editorAddrs. rewrite Forall_app, Forall_flat_map. reflexivity.
Qed.

Lemma allLayers_stackOf (os : list (Obj Layer.t)) : allLayers (stackOf os).
Proof.
  unfold allLayers, stackOf. apply Forall_map. apply Forall_forall. intros; exact I.
Qed.

Lemma allLayers_deep_equal (a b : list Elem) :
  deepEqual a b -> allLayers a -> allLayers b.
Proof.
  unfold deepEqual, allLayers. revert b.
  induction a as [|x a IH]; intros [|y b] Heq Ha; simpl in Heq; try discriminate.
  - constructor.
  - injection Heq as Hxy Hrest. inversion Ha as [|? ? Hx Ha']; subst.
    constructor; [|apply IH; assumption].
    destruct x; try contradiction. destruct y; try discriminate. exact I.
Qed.

Lemma wellFormed_initial : wellFormed initialEditor.
Proof.
  unfold wellFormed, heapOk, snapshotsTyped, allLayers, timelineOk. simpl.
  split; [repeat constructor|].
  split; [unfold currentIndex, history, Js.length; simpl; lia|].
  split; constructor.
Qed.

Lemma wellFormed_upload (dataUri : string) (tId tStamp : Z) (ed : Editor) :
  heapOk ed ->
  wellFormed (handleImageUpload dataUri tId tStamp ed)
  /\ timelineOk (handleImageUpload dataUri tId tStamp ed).
Proof.
  intros _.
  unfold wellFormed, timelineOk, heapOk, snapshotsTyped, allLayers, editorAddrs,
    arrayAddrs, currentIndex, history, liveLayers, Js.length,
    handleImageUpload, allocating, bind, new, ret.
  simpl. repeat split; try lia; repeat constructor; lia.
Qed.

Lemma in_prefix {A} (n : nat) (l : list A) (a : A) :
  In a (firstn n l) -> In a l.
Proof.
  intros H. rewrite <- (firstn_skipn n l). apply in_or_app. left. exact H.
Qed.

Lemma wellFormed_pushSnapshot (composite : string) (tId tStamp : Z) (ed : Editor) :
  wellFormed ed ->
  wellFormed (pushSnapshot composite tId tStamp ed)
  /\ timelineOk (pushSnapshot composite tId tStamp ed).
Proof.
  intros [Hok [Hidx [Hty Hlive]]].
  destruct (pushSnapshot_spec composite tId tStamp ed)
    as [item [Hhist [Hcur [_ [Hc [Ha Hl]]]]]].
  set (ed' := pushSnapshot composite tId tStamp ed) in *.
  assert (Hn : (nextAddr ed < nextAddr ed')%positive).
  { unfold arrayAddrs in Ha. apply Forall_inv in Ha. lia. }
  rewrite slice0_prefix in Hhist by exact Hidx.
  assert (Hlen : Js.length (history ed') = currentIndex ed + 2).
  { rewrite Hhist, length_snoc. unfold Js.length. rewrite length_firstn.
    unfold Js.length in Hidx. lia. }
  apply heapOk_parts in Hok. destruct Hok as [Hokl Hokh].
  assert (Htyped : allLayers (val (HistoryItem.layers item))).
  { apply (allLayers_deep_equal (liveLayers ed)); [|exact Hlive].
    unfold deepEqual. rewrite Hc. symmetry. apply json_of_layers. exact Hlive. }
  split; [|unfold timelineOk; lia].
  unfold wellFormed. repeat split.
  - apply heapOk_parts. split.
    + rewrite Hl. apply (ahead_mono _ (nextAddr ed)); [lia | exact Hokl].
    + rewrite Hhist. apply Forall_app. split.
      * apply Forall_forall. intros it Hin.
        apply (ahead_mono _ (nextAddr ed)); [lia|].
        rewrite Forall_forall in Hokh. apply Hokh.
        eapply in_prefix; exact Hin.
      * constructor; [|constructor]. eapply ahead_of_range. exact Ha.
  - lia.
  - lia.
  - unfold snapshotsTyped. rewrite Hhist. apply Forall_app. split.
    + apply Forall_forall. intros it Hin.
      unfold snapshotsTyped in Hty. rewrite Forall_forall in Hty. apply Hty.
      eapply in_prefix; exact Hin.
    + constructor; [exact Htyped | constructor].
  - unfold liveLayers. rewrite Hl. exact Hlive.
Qed.

Lemma wellFormed_capture (b : Browser) (tId tStamp : Z) (render ed : Editor) :
  wellFormed ed -> wellFormed (captureHistorySnapshot b tId tStamp render ed).
Proof.
  intros Hwf. unfold captureHistorySnapshot.
  destruct (negb (Js.truthyOptStr (AppState.uploadedImage (state render))));
    [exact Hwf|].
  destruct (result _) as [composite| |]; try exact Hwf.
  apply wellFormed_pushSnapshot. exact Hwf.
Qed.

Lemma wellFormed_restored (i : Z) (item : HistoryItem.t) (ed : Editor) :
  wellFormed ed -> In item (history ed) -> 0 <= i < Js.length (history ed) ->
  wellFormed (restored i item ed).
Proof.
  intros [Hok [Hidx [Hty Hlive]]] Hin Hi.
  destruct (restored_spec i item ed) as [Hi' [Hh [Hc [Ha _]]]].
  set (ed' := restored i item ed) in *.
  assert (Hn : (nextAddr ed < nextAddr ed')%positive).
  { unfold arrayAddrs in Ha. apply Forall_inv in Ha. lia. }
  assert (Hitem : allLayers (val (HistoryItem.layers item))).
  { unfold snapshotsTyped in Hty. rewrite Forall_forall in Hty. apply Hty. exact Hin. }
  apply heapOk_parts in Hok. destruct Hok as [_ Hokh].
  unfold wellFormed. repeat split.
  - apply heapOk_parts. split.
    + eapply ahead_of_range. exact Ha.
    + rewrite Hh. eapply Forall_impl; [|exact Hokh]. simpl. intros it Hit.
      apply (ahead_mono _ (nextAddr ed)); [lia | exact Hit].
  - rewrite Hi'. lia.
  - rewrite Hi', Hh. lia.
  - unfold snapshotsTyped. rewrite Hh. exact Hty.
  - apply (allLayers_deep_equal (val (HistoryItem.layers item))); [|exact Hitem].
    unfold deepEqual. rewrite Hc. symmetry. apply json_of_layers. exact Hitem.
Qed.

(** On a well-formed editor undo and redo never throw, and they keep it
    well-formed. *)
Lemma wellFormed_undo_redo (ed : Editor) :
  wellFormed ed ->
  (exists ed', handleUndo ed = Done ed' /\ wellFormed ed')
  /\ (exists ed', handleRedo ed = Done ed' /\ wellFormed ed').
Proof.
  intros Hwf. pose proof Hwf as [_ [Hidx _]]. split.
  - rewrite handleUndo_unfold.
    destruct (currentIndex ed >? 0) eqn:E; [|exists ed; split; [reflexivity | exact Hwf]].
    rewrite Z.gtb_ltb in E. apply Z.ltb_lt in E.
    destruct (get_in_range (history ed) (currentIndex ed - 1)) as [item [Hget Hin]];
      [lia|].
    rewrite Hget. eexists. split; [reflexivity|].
    apply wellFormed_restored; [exact Hwf | exact Hin | lia].
  - rewrite handleRedo_unfold.
    destruct (currentIndex ed <? Js.length (history ed) - 1) eqn:E;
      [|exists ed; split; [reflexivity | exact Hwf]].
    apply Z.ltb_lt in E.
    destruct (get_in_range (history ed) (currentIndex ed + 1)) as [item [Hget Hin]];
      [lia|].
    rewrite Hget. eexists. split; [reflexivity|].
    apply wellFormed_restored; [exact Hwf | exact Hin | lia].
Qed.

Lemma allLayers_is_stack (els : list Elem) :
  allLayers els -> exists os, els = stackOf os.
Proof.
  induction 1 as [|e els He _ [os ->]].
  - exists []. reflexivity.
  - destruct e as [| |o]; try contradiction. exists (o :: os). reflexivity.
Qed.

Lemma mapUpdate_ahead (id : string) (u : Partial.t) (os : list (Obj Layer.t)) :
  forall n,
    Forall (fun a => (a < n)%positive) (flat_map elemAddrs (stackOf os)) ->
    (n <= snd (mapUpdate id u (stackOf os) n))%positive
    /\ forall els',
        fst (mapUpdate id u (stackOf os) n) = Some els' ->
        Forall (fun a => (a < snd (mapUpdate id u (stackOf os) n))%positive)
               (flat_map elemAddrs els')
        /\ allLayers els'.
Proof.
  induction os as [|o os IH]; intros n Hn.
  - simpl. split; [lia|]. intros els' H. injection H as <-. split; constructor.
  - cbn [stackOf map flat_map elemAddrs app] in Hn. fold (stackOf os) in Hn.
    inversion Hn as [|? ? Ho Hrest]; subst.
    cbn [stackOf map mapUpdate]. fold (stackOf os). unfold bind.
    destruct (String.eqb (Layer.id (val o)) id).
    + unfold new, ret. simpl.
      destruct (IH (Pos.succ n)) as [Hle Hels].
      { eapply ahead_mono; [|exact Hrest]. lia. }
      destruct (mapUpdate id u (stackOf os) (Pos.succ n)) as [r n'].
      simpl in *. split; [lia|].
      intros els' H. destruct r as [els|]; simpl in H; [|discriminate].
      injection H as <-. destruct (Hels els eq_refl) as [Ha Hl].
      split; constructor; try assumption; try exact I. simpl. lia.
    + unfold ret. simpl.
      destruct (IH n Hrest) as [Hle Hels].
      destruct (mapUpdate id u (stackOf os) n) as [r n'].
      simpl in *. split; [lia|].
      intros els' H. destruct r as [els|]; simpl in H; [|discriminate].
      injection H as <-. destruct (Hels els eq_refl) as [Ha Hl].
      split; constructor; try assumption; try exact I. simpl. lia.
Qed.

(** On a well-formed editor [updateLayer] does not throw, and it keeps the
    editor well-formed. *)
Lemma wellFormed_updateLayer (id : string) (u : Partial.t) (ed : Editor) :
  wellFormed ed ->
  exists ed', updateLayer id u ed = Done ed' /\ wellFormed ed'.
Proof.
  intros [Hok [Hidx [Hty Hlive]]].
  destruct (allLayers_is_stack _ Hlive) as [os Hos].
  apply heapOk_parts in Hok. destruct Hok as [Hokl Hokh].
  unfold arrayAddrs in Hokl. inversion Hokl as [|? ? _ Hels]; subst.
  fold (liveLayers ed) in Hels. rewrite Hos in Hels.
  destruct (mapUpdate_stack id u os (nextAddr ed)) as [os' [Hrun _]].
  destruct (mapUpdate_ahead id u os (nextAddr ed) Hels) as [Hle Hnew].
  unfold updateLayer, allocating. fold (liveLayers ed). rewrite Hos.
  destruct (mapUpdate id u (stackOf os) (nextAddr ed)) as [r n'].
  simpl in Hrun, Hle, Hnew. subst r.
  destruct (Hnew _ eq_refl) as [Ha Hl]. simpl.
  eexists. split; [reflexivity|].
  unfold currentIndex, history in Hidx.
  unfold wellFormed, currentIndex, history, liveLayers, snapshotsTyped. simpl.
  split; [|split; [lia|split; assumption]].
  apply heapOk_parts. unfold arrayAddrs, history. simpl. split.
  - constructor; [lia|]. eapply ahead_mono; [|exact Ha]. lia.
  - eapply Forall_impl; [|exact Hokh]. simpl. intros it Hit.
    eapply ahead_mono; [|exact Hit]. lia.
Qed.

(** A handler that leaves the timeline alone keeps the editor well-formed
    when the live stack it installs is a stack of layers behind the
    allocator. *)
Lemma wellFormed_same_timeline (ed ed' : Editor) :
  wellFormed ed ->
  history ed' = history ed ->
  currentIndex ed' = currentIndex ed ->
  (nextAddr ed <= nextAddr ed')%positive ->
  Forall (fun a => (a < nextAddr ed')%positive)
         (arrayAddrs (AppState.layers (state ed'))) ->
  allLayers (liveLayers ed') ->
  wellFormed ed'.
Proof.
  intros [Hok [Hidx [Hty _]]] Hh Hi Hn Ha Hl.
  apply heapOk_parts in Hok. destruct Hok as [_ Hokh].
  unfold wellFormed, snapshotsTyped. rewrite Hh, Hi.
  split; [|split; [exact Hidx | split; [exact Hty | exact Hl]]].
  apply heapOk_parts. rewrite Hh. split; [exact Ha|].
  eapply Forall_impl; [|exact Hokh]. simpl. intros it Hit.
  eapply ahead_mono; [exact Hn | exact Hit].
Qed.

Lemma live_addrs_ahead (ed : Editor) :
  wellFormed ed ->
  (addr (AppState.layers (state ed)) < nextAddr ed)%positive
  /\ Forall (fun a => (a < nextAddr ed)%positive)
            (flat_map elemAddrs (liveLayers ed)).
Proof.
  intros [Hok _]. apply heapOk_parts in Hok. destruct Hok as [Hl _].
  unfold arrayAddrs in Hl. inversion Hl; subst. split; assumption.
Qed.

Lemma wellFormed_modeChange (mode : AppMode) (ed : Editor) :
  wellFormed ed -> wellFormed (handleModeChange mode ed).
Proof.
  intros Hwf. destruct (live_addrs_ahead ed Hwf) as [Harr Hels].
  pose proof Hwf as [_ [_ [_ Hlive]]].
  destruct mode.
  - unfold wellFormed, heapOk, snapshotsTyped, allLayers, editorAddrs, arrayAddrs,
      currentIndex, history, liveLayers, Js.length,
      handleModeChange, allocating, new.
    simpl. split; [|split; [lia | split; constructor]].
    constructor; [lia | constructor].
  - apply (wellFormed_same_timeline ed); try reflexivity; try assumption;
      unfold handleModeChange, arrayAddrs; simpl;
      first [lia | constructor; assumption].
  - apply (wellFormed_same_timeline ed); try reflexivity; try assumption;
      unfold handleModeChange, arrayAddrs; simpl;
      first [lia | constructor; assumption].
Qed.

Lemma allLayers_app (a b : list Elem) :
  allLayers a -> allLayers b -> allLayers (a ++ b).
Proof. unfold allLayers. intros Ha Hb. apply Forall_app. split; assumption. Qed.

(** Putting one new layer on top, as [handleAddText] and
    [handleAddImageLayer] do before they take their snapshot. *)
Lemma wellFormed_push_layer (ed : Editor) (l : Layer.t) (active : option string) :
  wellFormed ed ->
  wellFormed
    (setState
       (withLayersActive
          (mkObj (Pos.succ (nextAddr ed))
                 (liveLayers ed ++ [Ref (mkObj (nextAddr ed) l)])) active)
       (withNextAddr (Pos.succ (Pos.succ (nextAddr ed))) ed)).
Proof.
  intros Hwf. destruct (live_addrs_ahead ed Hwf) as [Harr Hels].
  pose proof Hwf as [_ [_ [_ Hlive]]].
  apply (wellFormed_same_timeline ed).
  - exact Hwf.
  - reflexivity.
  - reflexivity.
  - simpl. lia.
  - unfold arrayAddrs. simpl. constructor; [lia|].
    rewrite flat_map_app. apply Forall_app. split.
    + eapply ahead_mono; [|exact Hels]. lia.
    + simpl. constructor; [lia | constructor].
  - unfold liveLayers at 1. simpl. apply allLayers_app; [exact Hlive|].
    constructor; [exact I | constructor].
Qed.

Lemma wellFormed_addText (b : Browser) (tLayer tId tStamp : Z) (ed : Editor) :
  wellFormed ed -> wellFormed (handleAddText b tLayer tId tStamp ed).
Proof.
  intros Hwf. unfold handleAddText, allocating, bind, new, ret. simpl.
  apply wellFormed_capture.
  pose proof (wellFormed_push_layer ed
                (Layer.mk ("text-" ++ Js.showZ tLayer) text "Text Layer"
                          true false 100 50 50 0 1 None None None
                          (Some "Double click to edit"%string)
                          (Some 32%Q) (Some "#ffffff"%string)
                          (Some "Inter"%string) (Some "bold"%string))
                (Some ("text-" ++ Js.showZ tLayer)%string) Hwf) as Hpush.
  destruct Hpush as [Hok [Hidx [Hty Hlive]]].
  split; [|split; [exact Hidx | split; [exact Hty | exact Hlive]]].
  exact Hok.
Qed.

Lemma wellFormed_addImage (b : Browser) (dataUri : string) (tLayer tId tStamp : Z)
      (ed : Editor) :
  wellFormed ed -> wellFormed (handleAddImageLayer b dataUri tLayer tId tStamp ed).
Proof.
  intros Hwf. unfold handleAddImageLayer, allocating, bind, new, ret. simpl.
  apply wellFormed_capture. fold (liveLayers ed).
  apply (wellFormed_push_layer ed _ _ Hwf).
Qed.

Lemma filterOut_stack (id : string) (els : list Elem) :
  allLayers els ->
  exists els',
    filterOut id els = Some els'
    /\ allLayers els'
    /\ forall P : Addr -> Prop,
        Forall P (flat_map elemAddrs els) -> Forall P (flat_map elemAddrs els').
Proof.
  induction 1 as [|e els He _ [els' [Hrun [Hl Ha]]]].
  - exists []. repeat split; [constructor | intros; constructor].
  - destruct e as [| |o]; try contradiction. simpl. rewrite Hrun.
    destruct (String.eqb (Layer.id (val o)) id).
    + exists els'. repeat split; [exact Hl|].
      intros P HP. inversion HP; subst. apply Ha. assumption.
    + exists (Ref o :: els'). repeat split.
      * constructor; [exact I | exact Hl].
      * intros P HP. simpl in *. inversion HP; subst.
        constructor; [assumption | apply Ha; assumption].
Qed.

Lemma wellFormed_delete (b : Browser) (id : string) (tId tStamp : Z)
      (ed ed' : Editor) :
  wellFormed ed -> handleDeleteLayer b id tId tStamp ed = Done ed' ->
  wellFormed ed'.
Proof.
  intros Hwf Hrun. destruct (live_addrs_ahead ed Hwf) as [Harr Hels].
  pose proof Hwf as [_ [_ [_ Hlive]]].
  destruct (filterOut_stack id _ Hlive) as [els' [Hf [Hl Ha]]].
  unfold handleDeleteLayer in Hrun. fold (liveLayers ed) in Hrun.
  rewrite Hf in Hrun. unfold allocating, new in Hrun. simpl in Hrun.
  injection Hrun as <-. apply wellFormed_capture.
  apply (wellFormed_same_timeline ed).
  - exact Hwf.
  - reflexivity.
  - reflexivity.
  - simpl. lia.
  - unfold arrayAddrs. simpl. constructor; [lia|].
    eapply ahead_mono; [|apply Ha; exact Hels]. lia.
  - exact Hl.
Qed.

Lemma wellFormed_reorder (b : Browser) (from to tId tStamp : Z) (ed : Editor) :
  wellFormed ed -> 0 <= from < Js.length (liveLayers ed) ->
  wellFormed (handleReorderLayer b from to tId tStamp ed).
Proof.
  intros Hwf Hfrom. destruct (live_addrs_ahead ed Hwf) as [Harr Hels].
  pose proof Hwf as [_ [_ [_ Hlive]]].
  destruct (Z_lt_ge_dec to 0) as [Hneg | Hpos];
    [|destruct (Z_lt_ge_dec to (Js.length (liveLayers ed))) as [Hin | Hbig]].
  - unfold handleReorderLayer. fold (liveLayers ed).
    apply Z.ltb_lt in Hneg. rewrite Hneg. exact Hwf.
  - assert (Hto : 0 <= to < Js.length (liveLayers ed)) by lia.
    destruct (reorder_in_range (liveLayers ed) from to Hto Hfrom)
      as [moved [Hget Hre]].
    assert (Hx : nth_error (liveLayers ed) (Z.to_nat from) = Some moved).
    { unfold Js.get in Hget.
      destruct (from <? 0) eqn:E; [discriminate | exact Hget]. }
    pose proof (insert_removed_permutation (Z.to_nat to) (Z.to_nat from) moved
                  (liveLayers ed) Hx) as Hperm.
    rewrite <- Hre in Hperm. symmetry in Hperm.
    unfold handleReorderLayer. fold (liveLayers ed).
    destruct (to <? 0) eqn:E1; [apply Z.ltb_lt in E1; lia|].
    destruct (to >=? Js.length (liveLayers ed)) eqn:E2;
      [rewrite Z.geb_leb in E2; apply Z.leb_le in E2; lia|].
    simpl. unfold allocating, new. simpl.
    apply wellFormed_capture.
    apply (wellFormed_same_timeline ed).
    + exact Hwf.
    + reflexivity.
    + reflexivity.
    + simpl. lia.
    + unfold arrayAddrs. simpl. constructor; [lia|].
      apply Forall_flat_map. apply Forall_flat_map in Hels.
      eapply Permutation_Forall; [exact Hperm|].
      eapply Forall_impl; [|exact Hels]. simpl. intros e He.
      eapply ahead_mono; [|exact He]. lia.
    + unfold liveLayers at 1. simpl. unfold allLayers.
      eapply Permutation_Forall; [exact Hperm | exact Hlive].
  - unfold handleReorderLayer. fold (liveLayers ed).
    assert (E : (to >=? Js.length (liveLayers ed)) = true)
      by (rewrite Z.geb_leb; apply Z.leb_le; lia).
    rewrite E, orb_true_r. exact Hwf.
Qed.

Lemma wellFormed_crop (b : Browser) (tId tStamp : Z) (ed : Editor) :
  wellFormed ed -> wellFormed (applyCurrentCrop b tId tStamp ed).
Proof.
  intros Hwf. unfold applyCurrentCrop.
  destruct (cropSelection ed) as [sel|]; [|exact Hwf].
  destruct (AppState.uploadedImage (state ed)) as [uploaded|]; [|exact Hwf].
  destruct (imageDimensions ed) as [dim|]; [|exact Hwf].
  destruct (negb (Js.truthyStr uploaded)); [exact Hwf|].
  destruct (cropImage b uploaded (finalCrop sel dim)) as [cropped|e|].
  - apply wellFormed_upload. destruct Hwf as [Hok _]. exact Hok.
  - exact Hwf.
  - exact Hwf.
Qed.

(** Every editor a session reaches is well-formed: the hypotheses of the
    statements about snapshots, undo and redo hold there. *)
Theorem reachable_wellFormed (b : Browser) (ed : Editor) :
  reachable b ed -> wellFormed ed.
Proof.
  induction 1 as
    [ | mode ed _ IH | cw ch nw nh ed _ IH | sel ed _ IH
      | dataUri tId tStamp ed _ IH | tId tStamp ed _ IH
      | tLayer tId tStamp ed _ IH | dataUri tLayer tId tStamp ed _ IH
      | id updates ed ed' _ IH Hrun | tId tStamp render ed _ _ _ IH
      | id tId tStamp ed ed' _ IH Hrun | from to tId tStamp ed _ IH Hfrom
      | ed ed' _ IH Hrun | ed ed' _ IH Hrun ].
  - apply wellFormed_initial.
  - apply wellFormed_modeChange. exact IH.
  - exact IH.
  - exact IH.
  - apply wellFormed_upload. destruct IH as [Hok _]. exact Hok.
  - apply wellFormed_crop. exact IH.
  - apply wellFormed_addText. exact IH.
  - apply wellFormed_addImage. exact IH.
  - destruct (wellFormed_updateLayer id updates ed IH) as [ed'' [Hrun' Hwf]].
    rewrite Hrun in Hrun'. injection Hrun' as ->. exact Hwf.
  - apply wellFormed_capture. exact IH.
  - eapply wellFormed_delete; eassumption.
  - apply wellFormed_reorder; assumption.
  - destruct (wellFormed_undo_redo ed IH) as [[ed'' [Hrun' Hwf]] _].
    rewrite Hrun in Hrun'. injection Hrun' as ->. exact Hwf.
  - destruct (wellFormed_undo_redo ed IH) as [_ [ed'' [Hrun' Hwf]]].
    rewrite Hrun in Hrun'. injection Hrun' as ->. exact Hwf.
Qed.

Lemma seeded_capture (b : Browser) (tId tStamp : Z) (render ed : Editor) :
  seeded ed -> seeded (captureHistorySnapshot b tId tStamp render ed).
Proof.
  intros Hs. unfold captureHistorySnapshot.
  destruct (negb (Js.truthyOptStr (AppState.uploadedImage (state render))));
    [exact Hs|].
  destruct (result _) as [composite| |]; try exact Hs.
  left.
  match goal with
  | |- 0 <= currentIndex (pushSnapshot _ _ _ ?e) =>
      destruct (pushSnapshot_spec composite tId tStamp e)
        as [item [Hhist [Hcur _]]]
  end.
  rewrite Hcur, Hhist, length_snoc. unfold Js.length. lia.
Qed.

(** Along a session the index is [-1] only while the timeline is empty. *)
Theorem reachable_seeded (b : Browser) (ed : Editor) :
  reachable b ed -> seeded ed.
Proof.
  induction 1 as
    [ | mode ed Hr IH | cw ch nw nh ed _ IH | sel ed _ IH
      | dataUri tId tStamp ed _ IH | tId tStamp ed Hr IH
      | tLayer tId tStamp ed Hr IH | dataUri tLayer tId tStamp ed Hr IH
      | id updates ed ed' Hr IH Hrun | tId tStamp render ed _ _ Hr IH
      | id tId tStamp ed ed' Hr IH Hrun | from to tId tStamp ed Hr IH Hfrom
      | ed ed' Hr IH Hrun | ed ed' Hr IH Hrun ].
  - right. reflexivity.
  - destruct mode; [right; reflexivity | exact IH | exact IH].
  - exact IH.
  - exact IH.
  - left. unfold currentIndex. simpl. lia.
  - unfold applyCurrentCrop.
    destruct (cropSelection ed) as [sel|]; [|exact IH].
    destruct (AppState.uploadedImage (state ed)) as [uploaded|]; [|exact IH].
    destruct (imageDimensions ed) as [dim|]; [|exact IH].
    destruct (negb (Js.truthyStr uploaded)); [exact IH|].
    destruct (cropImage b uploaded (finalCrop sel dim)) as [cropped|e|];
      [|exact IH|exact IH].
    left. unfold currentIndex. simpl. lia.
  - unfold handleAddText, allocating, bind, new, ret. simpl.
    apply seeded_capture. exact IH.
  - unfold handleAddImageLayer, allocating, bind, new, ret. simpl.
    apply seeded_capture. exact IH.
  - unfold updateLayer, allocating in Hrun.
    destruct (mapUpdate id updates (val (AppState.layers (state ed))) (nextAddr ed))
      as [[els|] n']; simpl in Hrun; [|discriminate].
    injection Hrun as <-. exact IH.
  - apply seeded_capture. exact IH.
  - unfold handleDeleteLayer in Hrun.
    destruct (filterOut id (val (AppState.layers (state ed)))) as [els|];
      [|discriminate].
    unfold allocating, new in Hrun. simpl in Hrun. injection Hrun as <-.
    apply seeded_capture. exact IH.
  - unfold handleReorderLayer.
    destruct ((to <? 0) || (to >=? Js.length (val (AppState.layers (state ed)))));
      [exact IH|].
    unfold allocating, new. simpl. apply seeded_capture. exact IH.
  - rewrite handleUndo_unfold in Hrun.
    destruct (currentIndex ed >? 0) eqn:E; [|injection Hrun as <-; exact IH].
    rewrite Z.gtb_ltb in E. apply Z.ltb_lt in E.
    destruct (Js.get (history ed) (currentIndex ed - 1)) as [item|];
      [|discriminate].
    injection Hrun as <-. left.
    destruct (restored_spec (currentIndex ed - 1) item ed) as [Hi _]. lia.
  - pose proof (reachable_wellFormed b ed Hr) as [_ [Hidx _]].
    rewrite handleRedo_unfold in Hrun.
    destruct (currentIndex ed <? Js.length (history ed) - 1);
      [|injection Hrun as <-; exact IH].
    destruct (Js.get (history ed) (currentIndex ed + 1)) as [item|];
      [|discriminate].
    injection Hrun as <-. left.
    destruct (restored_spec (currentIndex ed + 1) item ed) as [Hi _]. lia.
Qed.

(** So wherever a session has a timeline, the hypotheses under which undo
    and redo were specified hold. *)
Corollary reachable_timeline (b : Browser) (ed : Editor) :
  reachable b ed -> history ed <> [] ->
  timelineOk ed /\ heapOk ed /\ snapshotsTyped ed.
Proof.
  intros Hr Hne.
  destruct (reachable_wellFormed b ed Hr) as [Hok [Hidx [Hty _]]].
  destruct (reachable_seeded b ed Hr) as [Hpos | Hnil]; [|contradiction].
  unfold timelineOk. repeat split; try assumption; lia.
Qed.

(** The session in which the text is typed without a snapshot is one a
    user can have. *)
Example demoTyped_reachable : reachable demoBrowser demoTyped.
Proof.
  apply reach_update
    with (id := "text-2"%string) (updates := demoTyping) (ed := demoWithText).
  - unfold demoWithText, demoLoaded.
    apply reach_add_text, reach_load, reach_upload, reach_mode, reach_start.
  - vm_compute. reflexivity.
Qed.

(** ** Data URIs *)

Lemma dropPrefix_app (p s : string) : dropPrefix p (p ++ s)%string = Some s.
Proof.
  induction p as [|a p IH]; simpl.
  - destruct s; reflexivity.
  - rewrite Ascii.eqb_refl. exact IH.
Qed.

Lemma dropPrefix_inv (p : string) :
  forall s r, dropPrefix p s = Some r -> s = (p ++ r)%string.
Proof.
  induction p as [|a p IH]; intros s r H.
  - destruct s; simpl in H; injection H as <-; reflexivity.
  - destruct s as [|c s]; simpl in H; [discriminate|].
    destruct (Ascii.eqb a c) eqn:E; [|discriminate].
    apply Ascii.eqb_eq in E. subst c. simpl. f_equal. apply IH. exact H.
Qed.

Lemma spanWord_inv (s : string) :
  forall w r, spanWord s = (w, r) -> s = (w ++ r)%string /\ allWord w = true.
Proof.
  induction s as [|c s IH]; intros w r H; simpl in H.
  - injection H as <- <-. split; reflexivity.
  - destruct (isWordChar c) eqn:E.
    + destruct (spanWord s) as [w' r'] eqn:E'. injection H as <- <-.
      destruct (IH w' r' eq_refl) as [-> Hw]. split; [reflexivity|].
      simpl. rewrite E, Hw. reflexivity.
    + injection H as <- <-. split; reflexivity.
Qed.

Lemma spanWord_stop (w : string) (c : ascii) (r : string) :
  allWord w = true -> isWordChar c = false ->
  spanWord (w ++ String c r) = (w, String c r).
Proof.
  intros Hw Hc. induction w as [|a w IH]; simpl.
  - rewrite Hc. reflexivity.
  - simpl in Hw. apply andb_prop in Hw. destruct Hw as [Ha Hw].
    rewrite Ha, (IH Hw). reflexivity.
Qed.

Lemma header_parses (w payload : string) :
  allWord w = true -> w <> EmptyString ->
  stripBase64Prefix (dataUriOf w payload) = payload
  /\ getMimeTypeFromDataUri (dataUriOf w payload) = ("image/" ++ w)%string.
Proof.
  intros Hw Hne. unfold stripBase64Prefix, getMimeTypeFromDataUri, dataUriOf.
  rewrite dropPrefix_app.
  change (";base64," ++ payload)%string with (String ";" ("base64," ++ payload)%string).
  rewrite (spanWord_stop w ";" _ Hw eq_refl).
  change (String ";" ("base64," ++ payload)%string) with (";base64," ++ payload)%string.
  rewrite dropPrefix_app.
  destruct w; [contradiction|]. split; reflexivity.
Qed.

(** X1. For a data URI [data:image/<w>;base64,<payload>] whose subtype [w]
    is a non-empty run of word characters, [stripBase64Prefix] gives back
    the payload and [getMimeTypeFromDataUri] gives [image/<w>]: the two
    take the URI apart without loss. *)
Theorem data_uri_round_trip (w payload : string) :
  allWord w = true -> w <> EmptyString ->
  stripBase64Prefix (dataUriOf w payload) = payload
  /\ getMimeTypeFromDataUri (dataUriOf w payload) = ("image/" ++ w)%string
  /\ dataUriOf w (stripBase64Prefix (dataUriOf w payload)) = dataUriOf w payload.
Proof.
  intros Hw Hne. destruct (header_parses w payload Hw Hne) as [Hs Hm].
  rewrite Hs. auto.
Qed.

Lemma data_uri_round_trip_witness :
  stripBase64Prefix "data:image/webp;base64,UklGRg==" = "UklGRg=="%string
  /\ getMimeTypeFromDataUri "data:image/webp;base64,UklGRg==" = "image/webp"%string.
Proof.
  destruct (data_uri_round_trip "webp" "UklGRg==" eq_refl) as (Hs & Hm & _).
  - discriminate.
  - split; [exact Hs | exact Hm].
Defined.

(** X2. Any other string is left as it is by [stripBase64Prefix] and is
    taken for a PNG by [getMimeTypeFromDataUri]: a string is either a data
    URI with a word subtype, or it comes back unchanged with the default
    mime type.  An SVG ([image/svg+xml]) is of the second kind. *)
Theorem data_uri_dichotomy (u : string) :
  (exists w payload,
      allWord w = true /\ w <> EmptyString /\ u = dataUriOf w payload)
  \/ (stripBase64Prefix u = u
      /\ getMimeTypeFromDataUri u = "image/png"%string).
Proof.
  unfold stripBase64Prefix, getMimeTypeFromDataUri.
  destruct (dropPrefix "data:image/" u) as [rest|] eqn:E1; [|right; auto].
  destruct (spanWord rest) as [w rest'] eqn:E2.
  destruct w as [|c w]; [right; auto|].
  destruct (dropPrefix ";base64," rest') as [payload|] eqn:E3; [|right; auto].
  left. exists (String c w), payload.
  apply dropPrefix_inv in E1. apply dropPrefix_inv in E3.
  apply spanWord_inv in E2. destruct E2 as [E2 Hw].
  split; [exact Hw|]. split; [discriminate|].
  unfold dataUriOf. rewrite E1, E2, E3. reflexivity.
Qed.

(** ** The Gemini service *)

(** X3. An image that [generateImage] or [editImage] resolves with is a
    JPEG or PNG data URI with a non-empty payload, and [editImage] sends
    it back to the API with exactly that payload and that mime type. *)
Theorem service_images_parse_back
        (api : Gemini.Api) (prompt aspectRatio : string) (resolution : Resolution)
        (source u : string) :
  Gemini.outcome (generateImage api prompt aspectRatio resolution) = Promise.Resolved u
  \/ Gemini.outcome (editImage api source prompt) = Promise.Resolved u ->
  exists w bytes,
    (w = "jpeg"%string \/ w = "png"%string)
    /\ bytes <> EmptyString
    /\ u = dataUriOf w bytes
    /\ forall prompt',
        editRequest u prompt'
        = Gemini.mkRequest "gemini-2.5-flash-image"
                           (Some (bytes, ("image/" ++ w)%string)) prompt'.
Proof.
  intros H.
  assert (Hshape : exists w bytes,
             (w = "jpeg"%string \/ w = "png"%string)
             /\ bytes <> EmptyString /\ u = dataUriOf w bytes).
  { destruct H as [H|H].
    - unfold generateImage, logging, generateWithFlash in H. simpl in H.
      destruct resolution;
        repeat match type of H with
               | context [match ?x with _ => _ end] => destruct x; simpl in H
               end;
        try discriminate; injection H as <-;
        first [ exists "jpeg"%string; eexists; split; [left; reflexivity|];
                split; [|reflexivity]; discriminate
              | exists "png"%string; eexists; split; [right; reflexivity|];
                split; [|reflexivity]; discriminate ].
    - unfold editImage, logging in H. simpl in H.
      repeat match type of H with
             | context [match ?x with _ => _ end] => destruct x; simpl in H
             end;
        try discriminate; injection H as <-.
      exists "png"%string; eexists; split; [right; reflexivity|].
      split; [|reflexivity]; discriminate. }
  destruct Hshape as (w & bytes & Hw & Hb & ->).
  exists w, bytes. split; [exact Hw|]. split; [exact Hb|]. split; [reflexivity|].
  intros prompt'. unfold editRequest.
  assert (Hp : allWord w = true /\ w <> EmptyString).
  { destruct Hw as [-> | ->]; split; try reflexivity; discriminate. }
  destruct (header_parses w bytes (proj1 Hp) (proj2 Hp)) as [-> ->]. reflexivity.
Qed.

Lemma service_images_parse_back_witness :
  editRequest "data:image/png;base64,QUJD" "make it blue"
  = Gemini.mkRequest "gemini-2.5-flash-image"
                     (Some ("QUJD", "image/png"))%string "make it blue".
Proof.
  destruct (service_images_parse_back demoApi "a cat" "1:1" high
              "" "data:image/png;base64,QUJD" (or_introl eq_refl))
    as (w & bytes & Hw & Hb & Hu & Hreq).
  rewrite (Hreq "make it blue"%string).
  unfold dataUriOf in Hu.
  destruct Hw as [-> | ->]; simpl in Hu; [discriminate|].
  injection Hu as <-. reflexivity.
Defined.

(** X4. The resolution only decides whether Imagen is tried first: [low]
    and [medium] are the same call, and at [high] either Imagen's bytes
    come back as a JPEG, without Flash being looked at, or the promise
    settles as it does at [low]. *)
Theorem resolution_only_selects_imagen
        (api : Gemini.Api) (prompt aspectRatio : string) :
  generateImage api prompt aspectRatio medium = generateImage api prompt aspectRatio low
  /\ ((exists bytes,
          bytes <> EmptyString
          /\ Gemini.generateImages api "imagen-4.0-generate-001" prompt aspectRatio
             = Gemini.Replies (Some bytes)
          /\ Gemini.outcome (generateImage api prompt aspectRatio high)
             = Promise.Resolved (dataUriOf "jpeg" bytes))
      \/ ((forall bytes,
              Gemini.generateImages api "imagen-4.0-generate-001" prompt aspectRatio
              = Gemini.Replies (Some bytes) -> bytes = EmptyString)
          /\ Gemini.outcome (generateImage api prompt aspectRatio high)
             = Gemini.outcome (generateImage api prompt aspectRatio low))).
Proof.
  split; [reflexivity|].
  unfold generateImage, logging; simpl.
  destruct (Gemini.generateImages api "imagen-4.0-generate-001" prompt aspectRatio)
    as [m | [[|c bytes]|]] eqn:E.
  - right. split; [intros bytes Hb; discriminate | reflexivity].
  - right. split; [intros bytes Hb; injection Hb as <-; reflexivity | reflexivity].
  - left. exists (String c bytes). split; [discriminate|]. split; reflexivity.
  - right. split; [intros bytes Hb; discriminate | reflexivity].
Qed.

Lemma resolution_only_selects_imagen_witness :
  Gemini.outcome (generateImage demoApi "a cat" "1:1" high)
  = Gemini.outcome (generateImage demoApi "a cat" "1:1" low)
  /\ Gemini.logs (generateImage demoApi "a cat" "1:1" high)
     = ["Imagen 4.0 generation failed, falling back to Flash Image."%string].
Proof.
  destruct (resolution_only_selects_imagen demoApi "a cat" "1:1")
    as [_ [(bytes & _ & H & _) | [_ H]]]; [discriminate H|].
  split; [exact H | reflexivity].
Defined.



(** ** AI styles *)


Lemma composeLoop_untyped (b : Browser) (els : list Elem) :
  ~ allLayers els -> threw (composeLoop b els) = true.
Proof.
  induction els as [|e els IH]; intros H.
  - exfalso. apply H. constructor.
  - destruct e as [| |o]; simpl; try reflexivity.
    destruct (layerCalls b (val o)) as [ops log]. simpl. apply IH.
    intros Hall. apply H. constructor; [exact I | exact Hall].
Qed.

Lemma artistic_filter_frame
      (b : Browser) (api : Gemini.Api) (style : ArtisticStyle) (ed : Editor) :
  let ed' := handleArtisticFilter b api style ed in
  AppState.layers (state ed') = AppState.layers (state ed)
  /\ history ed' = history ed
  /\ currentIndex ed' = currentIndex ed
  /\ AppState.uploadedImage (state ed') = AppState.uploadedImage (state ed)
  /\ AppState.activeLayerId (state ed') = AppState.activeLayerId (state ed)
  /\ AppState.mode (state ed') = AppState.mode (state ed)
  /\ nextAddr ed' = nextAddr ed.
Proof.
  unfold handleArtisticFilter.
  destruct (negb (truthyOpt (AppState.uploadedImage (state ed)))); [tauto|].
  destruct (result (composeLayers b _ _ _)) as [composite|m|]; try (simpl; tauto).
  destruct (Gemini.outcome (editImage api composite _)); simpl; tauto.
Qed.

(** X6. An AI style never touches the composition: the layers, the
    timeline, the uploaded image, the selection and the mode are as they
    were, whatever the browser and the API do.  The styled image only
    becomes the proposed [resultImage]. *)
Theorem artistic_filter_keeps_the_composition
        (b : Browser) (api : Gemini.Api) (style : ArtisticStyle) (ed : Editor) :
  let ed' := handleArtisticFilter b api style ed in
  AppState.layers (state ed') = AppState.layers (state ed)
  /\ history ed' = history ed
  /\ currentIndex ed' = currentIndex ed
  /\ AppState.uploadedImage (state ed') = AppState.uploadedImage (state ed)
  /\ AppState.activeLayerId (state ed') = AppState.activeLayerId (state ed)
  /\ AppState.mode (state ed') = AppState.mode (state ed)
  /\ nextAddr ed' = nextAddr ed.
Proof. exact (artistic_filter_frame b api style ed). Qed.



(** ** Flattening *)

Lemma layerCalls_hidden (b : Browser) (l : Layer.t) :
  Layer.visible l = false -> layerCalls b l = ([], []).
Proof. intros H. unfold layerCalls. rewrite H. reflexivity. Qed.

Lemma visibleOnly_calls (b : Browser) (os : list (Obj Layer.t)) :
  flat_map (fun o => fst (layerCalls b (val o))) os
  = flat_map (fun o => fst (layerCalls b (val o))) (visibleOnly os)
  /\ consoleOf b os = consoleOf b (visibleOnly os).
Proof.
  unfold consoleOf. induction os as [|o os [IH1 IH2]]; [split; reflexivity|]. simpl.
  destruct (Layer.visible (val o)) eqn:E; simpl; rewrite IH1, IH2;
    [split; reflexivity|].
  rewrite (layerCalls_hidden b _ E). split; reflexivity.
Qed.

(** X8. A hidden layer counts for nothing in [composeLayers]: the promise,
    the calls made on the context and the console are those of the stack
    without its hidden layers.  A hidden layer is not even decoded, so a
    broken one is not reported. *)
Theorem hidden_layers_do_not_count
        (b : Browser) (os : list (Obj Layer.t)) (width height : Js.number) :
  composeLayers b (stackOf os) width height
  = composeLayers b (stackOf (visibleOnly os)) width height.
Proof.
  unfold composeLayers. destruct (negb (context2d b)); [reflexivity|].
  rewrite !composeLoop_stack. simpl.
  destruct (visibleOnly_calls b os) as [Hc Hl].
  rewrite Hc, Hl. reflexivity.
Qed.

Lemma layerBody_keepsAlpha (b : Browser) (l : Layer.t) :
  forallb keepsAlpha (fst (layerBody b l)) = true.
Proof.
  unfold layerBody.
  destruct (LayerType_eqb (Layer.type l) image || LayerType_eqb (Layer.type l) drawing).
  - destruct (Layer.src l) as [src|]; [|reflexivity].
    destruct (Js.truthyStr src); [|reflexivity].
    destruct (loadImage b src); try reflexivity.
    destruct (negb (Qeq_bool (Layer.rotation l) 0)); reflexivity.
  - destruct (LayerType_eqb (Layer.type l) text && Js.truthyOptStr (Layer.text l));
      [|reflexivity].
    destruct (negb (Qeq_bool (Layer.rotation l) 0)); reflexivity.
Qed.

Lemma run_keeps_alpha (a : Js.number) (ops : list Canvas.Op) :
  forallb keepsAlpha ops = true ->
  forall m,
    Canvas.globalAlpha (Canvas.current m) = a ->
    Forall (fun p => Canvas.globalAlpha (Canvas.under p) = a) (Canvas.painted m) ->
    Canvas.globalAlpha (Canvas.current (Canvas.run m ops)) = a
    /\ Forall (fun p => Canvas.globalAlpha (Canvas.under p) = a)
              (Canvas.painted (Canvas.run m ops)).
Proof.
  induction ops as [|o ops IH]; intros Hk m Hc Hp; [split; assumption|].
  simpl in Hk. apply andb_prop in Hk. destruct Hk as [Ho Hk].
  simpl. apply (IH Hk).
  - destruct o; simpl in *; try discriminate; exact Hc.
  - destruct o; simpl in *; try discriminate; try exact Hp;
      (apply Forall_app; split; [exact Hp|]; constructor; [exact Hc | constructor]).
Qed.

(** X9. Whatever a layer paints into the composite is painted at the
    alpha [opacity / 100] of that very layer, when its opacity is between
    0 and 100: no other layer's alpha leaks into it. *)
Theorem opacity_is_alpha
        (b : Browser) (os : list (Obj Layer.t)) (width height : Js.number)
        (o : Obj Layer.t) (p : Canvas.Painted) :
  context2d b = true ->
  In o os ->
  (0 <= Layer.opacity (val o))%Q ->
  (Layer.opacity (val o) <= 100)%Q ->
  In p (layerPaint b Canvas.initial (val o)) ->
  In p (paintedBy (issued (composeLayers b (stackOf os) width height)))
  /\ Canvas.globalAlpha (Canvas.under p) = (Layer.opacity (val o) / 100)%Q.
Proof.
  intros Hctx Ho Hlo0 Hhi0 Hp.
  assert (Hlo : (0 <= Layer.opacity (val o) / 100)%Q).
  { apply Qle_shift_div_l; [reflexivity|]. rewrite Qmult_0_l. exact Hlo0. }
  assert (Hhi : (Layer.opacity (val o) / 100 <= 1)%Q).
  { apply Qle_shift_div_r; [reflexivity|]. rewrite Qmult_1_l. exact Hhi0. }
  split.
  - unfold composeLayers, paintedBy. rewrite Hctx. simpl.
    rewrite composeLoop_stack. simpl. unfold Canvas.start. rewrite run_stack. simpl.
    apply in_flat_map. exists o. split; assumption.
  - unfold layerPaint, layerCalls in Hp.
    destruct (negb (Layer.visible (val o))); [destruct Hp|].
    destruct (layerBody b (val o)) as [body log] eqn:Eb.
    pose proof (layerBody_keepsAlpha b (val o)) as Hk. rewrite Eb in Hk. simpl in Hk.
    simpl in Hp.
    apply Qle_bool_iff in Hlo. apply Qle_bool_iff in Hhi.
    rewrite Hlo, Hhi in Hp. simpl in Hp.
    unfold Canvas.setCurrent in Hp. simpl in Hp.
    rewrite run_app in Hp.
    match type of Hp with
    | In p (Canvas.painted (Canvas.run (Canvas.run ?m body) _)) =>
        destruct (run_keeps_alpha (Layer.opacity (val o) / 100)%Q body Hk m eq_refl
                                  (Forall_nil _)) as [_ Hall];
        assert (Hsame : Canvas.painted (Canvas.run (Canvas.run m body) [Canvas.restore])
                        = Canvas.painted (Canvas.run m body))
    end.
    { simpl. destruct (Canvas.saved (Canvas.run _ body)); reflexivity. }
    rewrite Hsame in Hp. rewrite Forall_forall in Hall. exact (Hall p Hp).
Qed.

Lemma opacity_is_alpha_witness :
  let half :=
    mkObj 2%positive
      (Layer.mk "text-5" text "Text Layer" true false 50 50 50 0 1 None None
                None (Some "Hi"%string) (Some 32%Q) None None None) in
  let p :=
    Canvas.mkPainted (Canvas.PaintText "Hi" 50 50)
      (Canvas.mkState (50 / 100) [] (Canvas.mkFont "normal" (32 * 1) "sans-serif")
                      "#ffffff" "top") in
  In p (paintedBy (issued (composeLayers demoBrowser
                             (stackOf [mkObj 1%positive (demoImageLayer None None 0); half])
                             200 100)))
  /\ Canvas.globalAlpha (Canvas.under p) = (50 / 100)%Q.
Proof.
  intros half p.
  apply (opacity_is_alpha demoBrowser
           [mkObj 1%positive (demoImageLayer None None 0); half] 200 100 half p).
  - reflexivity.
  - right. left. reflexivity.
  - vm_compute. discriminate.
  - vm_compute. discriminate.
  - left. reflexivity.
Defined.

(** ** Snapshots *)

(** X10. No composite, no snapshot: when the render that asked for the
    snapshot had no uploaded image, or the canvas gives no context, or the
    stack of that render holds a slot that is no layer, the state is left
    as it is; nothing is pushed on the timeline and the index stays. *)
Theorem snapshot_needs_a_composite
        (b : Browser) (tId tStamp : Z) (render ed : Editor) :
  Js.truthyOptStr (AppState.uploadedImage (state render)) = false
  \/ context2d b = false
  \/ ~ allLayers (liveLayers render) ->
  state (captureHistorySnapshot b tId tStamp render ed) = state ed
  /\ nextAddr (captureHistorySnapshot b tId tStamp render ed) = nextAddr ed.
Proof.
  intros H. unfold captureHistorySnapshot.
  destruct (Js.truthyOptStr (AppState.uploadedImage (state render))) eqn:Eu; simpl;
    [|split; reflexivity].
  unfold composeLayers.
  destruct (context2d b) eqn:Ec; simpl; [|split; reflexivity].
  destruct H as [H | [H | H]]; try discriminate.
  unfold liveLayers in H. rewrite (composeLoop_untyped b _ H). simpl.
  split; reflexivity.
Qed.

Lemma snapshot_needs_a_composite_witness :
  state (captureHistorySnapshot noContextBrowser 9 9 demoWithText demoWithText)
  = state demoWithText.
Proof.
  exact (proj1 (snapshot_needs_a_composite noContextBrowser 9 9 demoWithText
                  demoWithText (or_intror (or_introl eq_refl)))).
Defined.

(** X11. The image of a snapshot is older than its layers.  When "Add
    text" pushes its snapshot, the layers of the new history item are a
    deep copy of the stack with the new text layer, but its image is the
    flattening of the stack as the handler's render saw it: without that
    layer. *)
Theorem snapshot_image_predates_the_change
        (b : Browser) (tLayer tId tStamp : Z) (ed : Editor) (composite : string) :
  Js.truthyOptStr (AppState.uploadedImage (state ed)) = true ->
  allLayers (liveLayers ed) ->
  result (composeLayers b (liveLayers ed) (canvasWidth ed) (canvasHeight ed))
  = Promise.Resolved composite ->
  let ed' := handleAddText b tLayer tId tStamp ed in
  exists item newLayer,
    history ed' = Js.slice0 (history ed) (currentIndex ed + 1) ++ [item]
    /\ liveLayers ed' = liveLayers ed ++ [Ref newLayer]
    /\ Layer.type (val newLayer) = text
    /\ deepEqual (val (HistoryItem.layers item)) (liveLayers ed')
    /\ HistoryItem.image item = composite.
Proof.
  intros Hup Hall Hres ed'. subst ed'. unfold handleAddText.
  unfold allocating at 1. simpl.
  match goal with
  | |- context [captureHistorySnapshot b tId tStamp ed ?e3] => set (ed3 := e3)
  end.
  rewrite (capture_resolved b tId tStamp ed ed3 composite Hup Hres).
  match goal with
  | |- context [pushSnapshot composite tId tStamp ?e4] => set (ed4 := e4)
  end.
  destruct (pushSnapshot_spec composite tId tStamp ed4)
    as (item & Hh & _ & Himg & Hcopy & _ & Hlayers).
  eexists item, _. split; [exact Hh|].
  assert (Hlive : liveLayers (pushSnapshot composite tId tStamp ed4)
                  = liveLayers ed ++ [Ref (mkObj (nextAddr ed)
                      (Layer.mk ("text-" ++ Js.showZ tLayer) text "Text Layer"
                         true false 100 50 50 0 1 None None None
                         (Some "Double click to edit"%string)
                         (Some 32%Q) (Some "#ffffff"%string)
                         (Some "Inter"%string) (Some "bold"%string)))]).
  { unfold liveLayers at 1. rewrite Hlayers. reflexivity. }
  split; [exact Hlive|]. split; [reflexivity|]. split; [|exact Himg].
  unfold deepEqual. rewrite Hcopy, Hlive.
  apply json_of_layers. apply allLayers_app; [exact Hall|].
  constructor; [exact I | constructor].
Qed.

Lemma snapshot_image_predates_the_change_witness :
  exists item,
    Js.get (history demoWithText) 1 = Some item
    /\ Js.length (val (HistoryItem.layers item)) = 2
    /\ Promise.Resolved (HistoryItem.image item)
       = result (composeLayers demoBrowser (liveLayers demoLoaded) 200 100)
    /\ Promise.Resolved (HistoryItem.image item)
       <> result (composeLayers demoBrowser (liveLayers demoWithText) 200 100).
Proof.
  destruct (snapshot_image_predates_the_change demoBrowser 2 3 3 demoLoaded
              "data:image/png;base64,1" eq_refl)
    as (item & newLayer & Hh & _ & _ & _ & Himg).
  - repeat constructor.
  - reflexivity.
  - fold demoWithText in Hh. vm_compute in Hh. injection Hh as Hh.
    exists item. rewrite <- Hh. vm_compute. repeat split. discriminate.
Defined.

(** ** Crop *)

(** X12. A crop that fails only reports: when the uploaded image cannot be
    decoded, or the canvas gives no context, [applyCurrentCrop] sets the
    error message, writes one line to the console and leaves the layers,
    the timeline, the uploaded image, the selection and the crop tool as
    they are. *)
Theorem failed_crop_only_reports
        (b : Browser) (tId tStamp : Z) (ed : Editor) (sel : Rect.t)
        (uploaded : string) (dim : Dimensions) :
  cropSelection ed = Some sel ->
  AppState.uploadedImage (state ed) = Some uploaded ->
  uploaded <> EmptyString ->
  imageDimensions ed = Some dim ->
  decode b false uploaded = None \/ context2d b = false ->
  let ed' := applyCurrentCrop b tId tStamp ed in
  state ed' = withErrorMessage (Some "Failed to crop image"%string) (state ed)
  /\ (exists line, output ed' = output ed ++ [line])
  /\ cropSelection ed' = Some sel
  /\ showCropTools ed' = showCropTools ed
  /\ imageDimensions ed' = Some dim
  /\ nextAddr ed' = nextAddr ed.
Proof.
  intros Hsel Hup Hne Hdim Hfail ed'. subst ed'. unfold applyCurrentCrop.
  rewrite Hsel, Hup, Hdim.
  destruct uploaded as [|c uploaded]; [contradiction|]. simpl Js.truthyStr. simpl negb.
  cbv iota. unfold cropImage.
  destruct (decode b false (String c uploaded)) as [[w h]|] eqn:Ed.
  - destruct Hfail as [Hfail | Hfail]; [discriminate|]. rewrite Hfail. simpl.
    split; [reflexivity|]. split; [eexists; reflexivity|].
    split; [exact Hsel|]. split; [reflexivity|]. split; [exact Hdim | reflexivity].
  - simpl. split; [reflexivity|]. split; [eexists; reflexivity|].
    split; [exact Hsel|]. split; [reflexivity|]. split; [exact Hdim | reflexivity].
Qed.

Lemma failed_crop_only_reports_witness :
  let ed := setCropSelection (Some (Rect.mk 10 10 50 50)) demoWithText in
  let ed' := applyCurrentCrop forgetfulBrowser 7 7 ed in
  AppState.errorMessage (state ed') = Some "Failed to crop image"%string
  /\ liveLayers ed' = liveLayers demoWithText
  /\ history ed' = history demoWithText.
Proof.
  intros ed ed'.
  destruct (failed_crop_only_reports forgetfulBrowser 7 7 ed (Rect.mk 10 10 50 50)
              demoUpload (mkDimensions 100 50 200 100)
              eq_refl eq_refl) as (Hs & _).
  - discriminate.
  - reflexivity.
  - left. reflexivity.
  - unfold liveLayers, history. subst ed'. rewrite Hs. repeat split.
Defined.





(** ** Sessions *)

Lemma wellFormed_fields (ed ed' : Editor) :
  AppState.layers (state ed') = AppState.layers (state ed) ->
  history ed' = history ed ->
  currentIndex ed' = currentIndex ed ->
  nextAddr ed' = nextAddr ed ->
  wellFormed ed -> wellFormed ed'.
Proof.
  intros Hl Hh Hi Hn H.
  unfold wellFormed, heapOk, editorAddrs, snapshotsTyped, liveLayers in *.
  rewrite Hl, Hh, Hi, Hn. exact H.
Qed.








Lemma wellFormed_selecting (a : option string) (ed : Editor) :
  wellFormed ed -> wellFormed (setState (withActiveLayerId a) ed).
Proof. apply wellFormed_fields; reflexivity. Qed.














(** ** Zoom and pan *)

(** X15. The zoom never leaves the range from 50% to 500%: the buttons,
    the keys and the wheel clamp it, and the reset puts it at 100%.  The
    keyboard pan step [40 / zoom] is thus between 8 and 80 pixels, and
    never a division by zero. *)
Theorem zoom_stays_in_range (deltaY : Js.number) (ed : Editor) :
  zoomOk initialEditor
  /\ zoomOk (resetZoom ed)
  /\ (zoomOk ed ->
      zoomOk (handleZoomIn ed) /\ zoomOk (handleZoomOut ed)
      /\ zoomOk (handleWheel deltaY ed)
      /\ (8 <= 40 / zoom ed)%Q /\ (40 / zoom ed <= 80)%Q).
Proof.
  split; [split; discriminate|]. split; [split; discriminate|].
  intros [Hlo Hhi].
  assert (Hpos : (0 < zoom ed)%Q).
  { apply (Qlt_le_trans _ (1 # 2)); [reflexivity | exact Hlo]. }
  split; [|split; [|split; [|split]]].
  - unfold zoomOk, handleZoomIn. simpl. split.
    + apply Q.min_glb; [|discriminate].
      apply (Qle_trans _ (zoom ed)); [exact Hlo|].
      rewrite <- (Qplus_0_r (zoom ed)) at 1. apply Qplus_le_r. discriminate.
    + apply Q.le_min_r.
  - unfold zoomOk, handleZoomOut. simpl. split.
    + apply Q.le_max_r.
    + apply Q.max_lub; [|discriminate].
      apply (Qle_trans _ (zoom ed)); [|exact Hhi].
      rewrite <- (Qplus_0_r (zoom ed)) at 2. apply Qplus_le_r. discriminate.
  - unfold handleWheel.
    destruct (showCropTools ed); [split; assumption|].
    destruct (isEdit _ || _); [|split; assumption].
    unfold zoomOk. simpl. split.
    + apply Q.min_glb; [apply Q.le_max_r | discriminate].
    + apply Q.le_min_r.
  - apply Qle_shift_div_l; [exact Hpos|].
    apply (Qle_trans _ (8 * 5)); [|discriminate].
    apply Qmult_le_l; [reflexivity | exact Hhi].
  - apply Qle_shift_div_r; [exact Hpos|].
    apply (Qle_trans _ (80 * (1 # 2))); [discriminate|].
    apply Qmult_le_l; [reflexivity | exact Hlo].
Qed.

Lemma zoom_stays_in_range_witness :
  zoomOk (handleZoomIn (handleZoomIn demoWithText))
  /\ (zoom (handleZoomIn (handleZoomIn demoWithText)) == 2)%Q.
Proof.
  destruct (zoom_stays_in_range 0 (handleZoomIn demoWithText)) as (_ & _ & H).
  split; [|reflexivity].
  apply H. split; discriminate.
Defined.





(** ** Moving and deleting layers *)

Lemma capture_frame (b : Browser) (tId tStamp : Z) (render ed : Editor) :
  exists h i,
    state (captureHistorySnapshot b tId tStamp render ed) = withHistory h i (state ed).
Proof.
  assert (Hsame : state ed = withHistory (history ed) (currentIndex ed) (state ed)).
  { unfold history, currentIndex. destruct (state ed). reflexivity. }
  unfold captureHistorySnapshot.
  destruct (negb (Js.truthyOptStr (AppState.uploadedImage (state render))));
    [eexists _, _; exact Hsame|].
  destruct (result _) as [composite| |]; try (eexists _, _; exact Hsame).
  unfold pushSnapshot, allocating.
  destruct (jsonClone _ _) as [copy n']. simpl. eexists _, _. reflexivity.
Qed.


Lemma findLayer_unique (id : string) (below above : list (Obj Layer.t))
      (o : Obj Layer.t) :
  (forall x, In x below -> Layer.id (val x) <> id) ->
  Layer.id (val o) = id ->
  findLayer id (stackOf (below ++ o :: above)) = Some (Some o).
Proof.
  intros Hb Ho. induction below as [|x below IH]; simpl.
  - rewrite Ho, String.eqb_refl. reflexivity.
  - destruct (String.eqb (Layer.id (val x)) id) eqn:E.
    + apply String.eqb_eq in E. exfalso. exact (Hb x (or_introl eq_refl) E).
    + apply IH. intros y Hy. apply Hb. right. exact Hy.
Qed.






Lemma filterOut_without (id : string) (os : list (Obj Layer.t)) :
  filterOut id (stackOf os) = Some (stackOf (without id os)).
Proof.
  induction os as [|o os IH]; [reflexivity|].
  unfold stackOf, without. cbn [map filter filterOut]. fold (stackOf os).
  rewrite IH. fold (without id os).
  destruct (String.eqb (Layer.id (val o)) id); reflexivity.
Qed.

Lemma handleDeleteLayer_stack (b : Browser) (id : string) (tId tStamp : Z)
      (ed : Editor) (os : list (Obj Layer.t)) :
  liveLayers ed = stackOf os ->
  exists ed',
    handleDeleteLayer b id tId tStamp ed = Done ed'
    /\ liveLayers ed' = stackOf (without id os)
    /\ AppState.activeLayerId (state ed')
       = match AppState.activeLayerId (state ed) with
         | Some a => if String.eqb a id then None else Some a
         | None => None
         end
    /\ AppState.uploadedImage (state ed') = AppState.uploadedImage (state ed).
Proof.
  intros Hlive. unfold handleDeleteLayer. fold (liveLayers ed).
  rewrite Hlive, filterOut_without. unfold allocating, new.
  eexists. split; [reflexivity|].
  match goal with
  | |- context [captureHistorySnapshot b tId tStamp ed ?e2] =>
      destruct (capture_frame b tId tStamp ed e2) as (h & i & Hs)
  end.
  unfold liveLayers. rewrite Hs. simpl.
  split; [reflexivity|]. split; [|reflexivity].
  destruct (AppState.activeLayerId (state ed)) as [a|]; [|reflexivity].
  destruct (String.eqb a id); reflexivity.
Qed.

(** X19. Deleting by id removes every layer that has the id, locked or
    not, and nothing else: the layers left are the same objects in the
    same order; the selection is cleared exactly when it named the deleted
    id; the uploaded image stays. *)
Theorem delete_removes_every_match
        (b : Browser) (id : string) (tId tStamp : Z) (ed : Editor)
        (os : list (Obj Layer.t)) :
  liveLayers ed = stackOf os ->
  exists ed',
    handleDeleteLayer b id tId tStamp ed = Done ed'
    /\ liveLayers ed' = stackOf (without id os)
    /\ (forall o, In o (without id os) <-> In o os /\ Layer.id (val o) <> id)
    /\ (AppState.activeLayerId (state ed) = Some id ->
        AppState.activeLayerId (state ed') = None)
    /\ (AppState.activeLayerId (state ed) <> Some id ->
        AppState.activeLayerId (state ed') = AppState.activeLayerId (state ed))
    /\ AppState.uploadedImage (state ed') = AppState.uploadedImage (state ed).
Proof.
  intros Hlive.
  destruct (handleDeleteLayer_stack b id tId tStamp ed os Hlive)
    as (ed' & Hd & Hl & Ha & Hu).
  exists ed'. split; [exact Hd|]. split; [exact Hl|]. split; [|split; [|split]].
  - intros o. unfold without. rewrite filter_In. split; intros [Hin Hne]; split; auto.
    + intros E. rewrite E, String.eqb_refl in Hne. discriminate.
    + destruct (String.eqb (Layer.id (val o)) id) eqn:E; [|reflexivity].
      apply String.eqb_eq in E. contradiction.
  - intros E. rewrite Ha, E, String.eqb_refl. reflexivity.
  - intros Hne. rewrite Ha. destruct (AppState.activeLayerId (state ed)) as [a|];
      [|reflexivity].
    destruct (String.eqb a id) eqn:E; [|reflexivity].
    apply String.eqb_eq in E. subst a. contradiction.
  - exact Hu.
Qed.

Lemma delete_removes_every_match_witness :
  exists ed',
    handleDeleteLayer demoBrowser "layer-base" 9 9 demoWithText = Done ed'
    /\ map (fun c => match c with CLayer l => Layer.id l | _ => EmptyString end)
           (map contentOf (liveLayers ed'))
       = ["text-2"%string]
    /\ AppState.activeLayerId (state ed') = Some "text-2"%string.
Proof.
  destruct (delete_removes_every_match demoBrowser "layer-base" 9 9 demoWithText
              [mkObj 2%positive
                 (Layer.mk "layer-base" image "Background" true true 100 0 0 0 1
                           None None (Some demoUpload) None None None None None);
               mkObj 5%positive
                 (Layer.mk "text-2" text "Text Layer" true false 100 50 50 0 1
                           None None None (Some "Double click to edit"%string)
                           (Some 32%Q) (Some "#ffffff"%string)
                           (Some "Inter"%string) (Some "bold"%string))])
    as (ed' & Hd & Hl & _ & _ & Ha & _).
  - vm_compute. reflexivity.
  - exists ed'. split; [exact Hd|]. split; [rewrite Hl; reflexivity|].
    rewrite Ha; [reflexivity | discriminate].
Defined.

(** X20. The Delete key does not respect the lock.  Right after an upload
    the locked background is the selected layer, and one press of Delete
    (or Backspace) on the canvas removes it: the stack is empty and
    nothing is selected, while the uploaded image is still set. *)
Theorem delete_key_removes_the_locked_background
        (b : Browser) (dataUri key : string) (t1 t2 tId tStamp : Z)
        (ed : Editor) (p : Pointer) :
  key = "Delete"%string \/ key = "Backspace"%string ->
  editingTextId p = None ->
  dataUri <> EmptyString ->
  let uploaded := handleImageUpload dataUri t1 t2 ed in
  exists base u',
    liveLayers uploaded = [Ref base]
    /\ Layer.locked (val base) = true
    /\ AppState.activeLayerId (state uploaded) = Some (Layer.id (val base))
    /\ handleCanvasKeyDown b key tId tStamp (mkUi uploaded p) = UiDone u'
    /\ liveLayers (editor u') = []
    /\ AppState.activeLayerId (state (editor u')) = None
    /\ AppState.uploadedImage (state (editor u')) = Some dataUri.
Proof.
  intros Hkey Hedit Hne uploaded.
  destruct (handleImageUpload_spec dataUri t1 t2 ed)
    as (base & item & Hlive & Hval & _ & _ & _ & _ & Hup & _ & Hcrop).
  fold uploaded in Hlive, Hup, Hcrop.
  assert (Hactive : AppState.activeLayerId (state uploaded) = Some "layer-base"%string)
    by reflexivity.
  destruct (handleDeleteLayer_stack b "layer-base" tId tStamp uploaded [base] Hlive)
    as (ed' & Hd & Hl & Ha & Hu).
  exists base, (mkUi ed' p).
  split; [exact Hlive|]. split; [rewrite Hval; reflexivity|].
  split; [rewrite Hval; exact Hactive|]. split.
  - unfold handleCanvasKeyDown. cbn [editor pointer].
    rewrite Hcrop, Hedit, Hup, Hactive. cbn [orb truthyOpt Js.truthyOptStr].
    destruct dataUri as [|c s]; [contradiction|]. cbn [Js.truthyStr].
    rewrite Bool.orb_true_r. destruct (pan uploaded) as [px py].
    rewrite Hd. destruct Hkey as [-> | ->]; reflexivity.
  - cbn [editor]. split; [|split].
    + rewrite Hl. unfold without. cbn [filter]. rewrite Hval.
      cbn [Layer.id String.eqb]. reflexivity.
    + rewrite Ha, Hactive. reflexivity.
    + rewrite Hu. exact Hup.
Qed.

Lemma delete_key_removes_the_locked_background_witness :
  exists u',
    handleCanvasKeyDown demoBrowser "Delete" 9 9
      (mkUi (handleImageUpload demoUpload 1 1 initialEditor) initialPointer)
    = UiDone u'
    /\ liveLayers (editor u') = []
    /\ AppState.uploadedImage (state (editor u')) = Some demoUpload.
Proof.
  destruct (delete_key_removes_the_locked_background demoBrowser demoUpload "Delete"
              1 1 9 9 initialEditor initialPointer (or_introl eq_refl) eq_refl)
    as (base & u' & _ & _ & _ & Hk & Hl & _ & Hu).
  - discriminate.
  - exists u'. split; [exact Hk|]. split; [exact Hl | exact Hu].
Defined.

(** ** The layers panel *)

Lemma findIndexFrom_unique (id : string) (below above : list (Obj Layer.t))
      (o : Obj Layer.t) :
  (forall x, In x below -> Layer.id (val x) <> id) ->
  Layer.id (val o) = id ->
  forall i,
    findIndexFrom id (stackOf (below ++ o :: above)) i
    = Some (i + Z.of_nat (List.length below)).
Proof.
  intros Hb Ho. induction below as [|x below IH]; intros i.
  - cbn [app stackOf map findIndexFrom List.length]. rewrite Ho, String.eqb_refl.
    f_equal. simpl. lia.
  - cbn [app stackOf map findIndexFrom List.length].
    destruct (String.eqb (Layer.id (val x)) id) eqn:E.
    + apply String.eqb_eq in E. exfalso. exact (Hb x (or_introl eq_refl) E).
    + fold (stackOf (below ++ o :: above)). rewrite IH.
      * f_equal. lia.
      * intros y Hy. apply Hb. right. exact Hy.
Qed.

Lemma removeAt_middle {A} (X Y : list A) (a : A) :
  removeAt (List.length X) (X ++ a :: Y) = X ++ Y.
Proof.
  unfold removeAt. induction X as [|x X IH]; [reflexivity|].
  cbn [List.length app firstn skipn]. cbn [skipn] in IH. rewrite IH. reflexivity.
Qed.

Lemma insertAt_middle {A} (X Y : list A) (a : A) :
  insertAt (List.length X) a (X ++ Y) = X ++ a :: Y.
Proof.
  unfold insertAt. induction X as [|x X IH].
  - destruct Y; reflexivity.
  - cbn [List.length app firstn skipn]. rewrite IH. reflexivity.
Qed.

Lemma get_middle {A} (X Y : list A) (a : A) :
  Js.get (X ++ a :: Y) (Z.of_nat (List.length X)) = Some a.
Proof.
  unfold Js.get. destruct (Z.of_nat (List.length X) <? 0) eqn:E;
    [apply Z.ltb_lt in E; lia|].
  rewrite Nat2Z.id. clear E. induction X as [|x X IH]; [reflexivity | exact IH].
Qed.

Lemma reorder_up (X Y : list Elem) (a c : Elem) :
  reorder (X ++ a :: c :: Y) (Z.of_nat (List.length X))
          (Z.of_nat (List.length X) + 1)
  = X ++ c :: a :: Y.
Proof.
  assert (Hlen : Js.length (X ++ a :: c :: Y)
                 = Z.of_nat (List.length X) + 2 + Z.of_nat (List.length Y)).
  { unfold Js.length. rewrite length_app. cbn [List.length]. lia. }
  destruct (reorder_in_range (X ++ a :: c :: Y) (Z.of_nat (List.length X))
              (Z.of_nat (List.length X) + 1)) as (moved & Hget & Hre); [lia | lia |].
  rewrite get_middle in Hget. injection Hget as <-. rewrite Hre.
  rewrite Nat2Z.id, removeAt_middle.
  replace (Z.to_nat (Z.of_nat (List.length X) + 1)) with (List.length (X ++ [c]))
    by (rewrite length_app; cbn [List.length]; lia).
  change (X ++ c :: Y) with (X ++ [c] ++ Y). rewrite app_assoc.
  rewrite insertAt_middle. rewrite <- app_assoc. reflexivity.
Qed.

Lemma reorder_down (X Y : list Elem) (a c : Elem) :
  reorder (X ++ c :: a :: Y) (Z.of_nat (List.length X) + 1)
          (Z.of_nat (List.length X))
  = X ++ a :: c :: Y.
Proof.
  assert (E1 : Z.of_nat (List.length X) + 1 = Z.of_nat (List.length (X ++ [c]))).
  { rewrite length_app. cbn [List.length]. lia. }
  assert (E2 : X ++ c :: a :: Y = (X ++ [c]) ++ a :: Y).
  { rewrite <- app_assoc. reflexivity. }
  rewrite E1, E2.
  assert (Hlen : Js.length ((X ++ [c]) ++ a :: Y)
                 = Z.of_nat (List.length X) + 2 + Z.of_nat (List.length Y)).
  { unfold Js.length. rewrite !length_app. cbn [List.length]. lia. }
  destruct (reorder_in_range ((X ++ [c]) ++ a :: Y) (Z.of_nat (List.length (X ++ [c])))
              (Z.of_nat (List.length X))) as (moved & Hget & Hre); [lia | lia |].
  rewrite get_middle in Hget. injection Hget as <-. rewrite Hre.
  rewrite !Nat2Z.id, removeAt_middle. rewrite <- app_assoc.
  rewrite insertAt_middle. reflexivity.
Qed.

Lemma handleReorderLayer_live (b : Browser) (from to tId tStamp : Z) (ed : Editor) :
  0 <= to < Js.length (liveLayers ed) ->
  liveLayers (handleReorderLayer b from to tId tStamp ed)
  = reorder (liveLayers ed) from to.
Proof.
  intros H. unfold liveLayers at 1.
  rewrite (handleReorderLayer_layers b from to tId tStamp ed H). reflexivity.
Qed.

(** X21. In the layers panel, "Move Up" swaps the layer with the one
    above it, and "Move Down" right after puts both back: the stack is the
    one before, made of the same objects.  On the top layer "Move Up" is
    disabled and leaves the editor as it is. *)
Theorem panel_move_up_then_down
        (b : Browser) (id : string) (t1 t1' t2 t2' : Z) (ed : Editor)
        (below above : list (Obj Layer.t)) (a c : Obj Layer.t) :
  Layer.id (val a) = id ->
  (forall x, In x below -> Layer.id (val x) <> id) ->
  (liveLayers ed = stackOf (below ++ a :: c :: above) ->
   Layer.id (val c) <> id ->
   exists ed1 ed2,
     panelMoveUp b id t1 t1' ed = Done ed1
     /\ liveLayers ed1 = stackOf (below ++ c :: a :: above)
     /\ panelMoveDown b id t2 t2' ed1 = Done ed2
     /\ liveLayers ed2 = stackOf (below ++ a :: c :: above))
  /\ (liveLayers ed = stackOf (below ++ [a]) ->
      panelMoveUp b id t1 t1' ed = Done ed).
Proof.
  intros Ha Hb. split.
  - intros Hlive Hc.
    assert (Hlen : Js.length (liveLayers ed)
                   = Z.of_nat (List.length below) + 2 + Z.of_nat (List.length above)).
    { rewrite Hlive. unfold Js.length, stackOf.
      rewrite length_map, length_app. cbn [List.length]. lia. }
    set (ed1 := handleReorderLayer b (Z.of_nat (List.length below))
                  (Z.of_nat (List.length below) + 1) t1 t1' ed).
    assert (Hlive1 : liveLayers ed1 = stackOf (below ++ c :: a :: above)).
    { unfold ed1. rewrite handleReorderLayer_live by lia. rewrite Hlive.
      unfold stackOf. rewrite !map_app. cbn [map].
      rewrite <- (length_map Ref below). apply reorder_up. }
    assert (Hlen1 : Js.length (liveLayers ed1) = Js.length (liveLayers ed)).
    { rewrite Hlive1, Hlive. unfold Js.length, stackOf.
      rewrite !length_map, !length_app. reflexivity. }
    exists ed1, (handleReorderLayer b (Z.of_nat (List.length below) + 1)
                   (Z.of_nat (List.length below) + 1 - 1) t2 t2' ed1).
    split; [|split; [exact Hlive1|split]].
    + unfold panelMoveUp, findIndex. fold (liveLayers ed). rewrite Hlive at 1.
      rewrite (findIndexFrom_unique id below (c :: above) a Hb Ha). cbn [Z.add].
      destruct (Z.of_nat (List.length below) >=? Js.length (liveLayers ed) - 1) eqn:E;
        [rewrite Z.geb_leb in E; apply Z.leb_le in E; lia | reflexivity].
    + unfold panelMoveDown, findIndex. fold (liveLayers ed1). rewrite Hlive1 at 1.
      change (below ++ c :: a :: above) with (below ++ [c] ++ a :: above).
      rewrite app_assoc.
      rewrite (findIndexFrom_unique id (below ++ [c]) above a); [|
        intros x Hx; apply in_app_or in Hx; destruct Hx as [Hx | [<- | []]];
        [apply Hb; exact Hx | exact Hc] | exact Ha].
      rewrite length_app. cbn [List.length Z.add].
      replace (Z.of_nat (List.length below + 1)) with (Z.of_nat (List.length below) + 1)
        by lia.
      destruct (Z.of_nat (List.length below) + 1 <=? 0) eqn:E;
        [apply Z.leb_le in E; lia | reflexivity].
    + rewrite handleReorderLayer_live by lia. rewrite Hlive1.
      replace (Z.of_nat (List.length below) + 1 - 1) with (Z.of_nat (List.length below))
        by lia.
      unfold stackOf. rewrite !map_app. cbn [map].
      rewrite <- (length_map Ref below). apply reorder_down.
  - intros Hlive. unfold panelMoveUp, findIndex. fold (liveLayers ed).
    rewrite Hlive at 1. rewrite (findIndexFrom_unique id below [] a Hb Ha).
    cbn [Z.add]. rewrite Hlive. unfold Js.length, stackOf.
    rewrite length_map, length_app. cbn [List.length].
    destruct (Z.of_nat (List.length below) >=? Z.of_nat (List.length below + 1) - 1) eqn:E;
      [reflexivity | rewrite Z.geb_leb in E; apply Z.leb_gt in E; lia].
Qed.

Lemma panel_move_up_then_down_witness :
  exists ed1 ed2,
    panelMoveUp demoBrowser "layer-base" 6 6 demoWithText = Done ed1
    /\ map (fun c => match c with CLayer l => Layer.id l | _ => EmptyString end)
           (map contentOf (liveLayers ed1))
       = ["text-2"; "layer-base"]%string
    /\ panelMoveDown demoBrowser "layer-base" 7 7 ed1 = Done ed2
    /\ liveLayers ed2 = liveLayers demoWithText.
Proof.
  destruct (panel_move_up_then_down demoBrowser "layer-base" 6 6 7 7 demoWithText
              [] []
              (mkObj 2%positive
                 (Layer.mk "layer-base" image "Background" true true 100 0 0 0 1
                           None None (Some demoUpload) None None None None None))
              (mkObj 5%positive
                 (Layer.mk "text-2" text "Text Layer" true false 100 50 50 0 1
                           None None None (Some "Double click to edit"%string)
                           (Some 32%Q) (Some "#ffffff"%string)
                           (Some "Inter"%string) (Some "bold"%string)))
              eq_refl) as [H _].
  - intros x [].
  - destruct H as (ed1 & ed2 & H1 & Hl1 & H2 & Hl2).
    + vm_compute. reflexivity.
    + discriminate.
    + exists ed1, ed2. split; [exact H1|]. split; [rewrite Hl1; reflexivity|].
      split; [exact H2|]. rewrite Hl2. vm_compute. reflexivity.
Defined.

(** ** Undo, redo and the rest of the editor *)

Lemma restored_frame (i : Z) (item : HistoryItem.t) (ed : Editor) :
  let ed' := restored i item ed in
  AppState.activeLayerId (state ed') = AppState.activeLayerId (state ed)
  /\ AppState.uploadedImage (state ed') = AppState.uploadedImage (state ed)
  /\ AppState.mode (state ed') = AppState.mode (state ed)
  /\ history ed' = history ed
  /\ showTextTools ed' = showTextTools ed
  /\ zoom ed' = zoom ed
  /\ pan ed' = pan ed.
Proof.
  unfold restored, allocating.
  destruct (jsonClone (HistoryItem.layers item) (nextAddr ed)) as [copy n'].
  simpl. repeat split.
Qed.

(** X22. Undo and redo put back the layers and nothing else: the
    selection, the uploaded image, the mode, the timeline, the text tools
    and the view are as before.  The selection is not even cleared when
    the layer it names is no longer in the restored stack. *)
Theorem undo_redo_keep_the_rest (ed ed' : Editor) :
  handleUndo ed = Done ed' \/ handleRedo ed = Done ed' ->
  AppState.activeLayerId (state ed') = AppState.activeLayerId (state ed)
  /\ AppState.uploadedImage (state ed') = AppState.uploadedImage (state ed)
  /\ AppState.mode (state ed') = AppState.mode (state ed)
  /\ history ed' = history ed
  /\ showTextTools ed' = showTextTools ed
  /\ zoom ed' = zoom ed
  /\ pan ed' = pan ed.
Proof.
  intros [H | H].
  - rewrite handleUndo_unfold in H.
    destruct (currentIndex ed >? 0).
    + destruct (Js.get (history ed) (currentIndex ed - 1)) as [item|]; [|discriminate].
      injection H as <-. apply restored_frame.
    + injection H as <-. repeat split.
  - rewrite handleRedo_unfold in H.
    destruct (currentIndex ed <? Js.length (history ed) - 1).
    + destruct (Js.get (history ed) (currentIndex ed + 1)) as [item|]; [|discriminate].
      injection H as <-. apply restored_frame.
    + injection H as <-. repeat split.
Qed.

Lemma undo_redo_keep_the_rest_witness :
  AppState.activeLayerId (state demoUndone) = Some "text-2"%string
  /\ findLayer "text-2" (liveLayers demoUndone) = Some None.
Proof.
  assert (H : handleUndo demoWithText = Done demoUndone) by (vm_compute; reflexivity).
  destruct (undo_redo_keep_the_rest demoWithText demoUndone (or_introl H)) as (Ha & _).
  split; [rewrite Ha; reflexivity | vm_compute; reflexivity].
Defined.

(** X23. A kept result is not recorded while no image is uploaded.  "Keep
    as Layer" on a generated image puts it on top of the stack as an image
    layer and clears the result, but the timeline stays as it was; and a
    change to the edit mode keeps that layer, still without an uploaded
    image and without history. *)
Theorem kept_result_is_not_recorded
        (b : Browser) (tLayer tId tStamp : Z) (ed : Editor) (generated : string) :
  AppState.resultImage (state ed) = Some generated ->
  generated <> EmptyString ->
  Js.truthyOptStr (AppState.uploadedImage (state ed)) = false ->
  let ed' := keepResultAsLayer b tLayer tId tStamp ed in
  exists l,
    liveLayers ed' = liveLayers ed ++ [Ref l]
    /\ Layer.type (val l) = image
    /\ Layer.src (val l) = Some generated
    /\ AppState.resultImage (state ed') = None
    /\ history ed' = history ed
    /\ currentIndex ed' = currentIndex ed
    /\ liveLayers (handleModeChange EDIT ed') = liveLayers ed'
    /\ AppState.uploadedImage (state (handleModeChange EDIT ed'))
       = AppState.uploadedImage (state ed)
    /\ history (handleModeChange EDIT ed') = history ed.
Proof.
  intros Hres Hne Hup ed'. subst ed'. unfold keepResultAsLayer. rewrite Hres.
  destruct generated as [|c g]; [contradiction|]. cbn [Js.truthyStr].
  unfold handleAddImageLayer, captureHistorySnapshot. rewrite Hup. cbn [negb].
  unfold allocating, bind, new, ret. simpl.
  eexists. unfold liveLayers, history, currentIndex. simpl. repeat split.
Qed.

Lemma kept_result_is_not_recorded_witness :
  let generated :=
    setState (fun s => withStatus success (Some "data:image/png;base64,QUJD"%string)
                                  None "a cat" s) initialEditor in
  let ed' := keepResultAsLayer demoBrowser 4 5 5 generated in
  Js.length (liveLayers ed') = 1 /\ history ed' = [] /\ currentIndex ed' = -1.
Proof.
  intros generated ed'.
  destruct (kept_result_is_not_recorded demoBrowser 4 5 5 generated
              "data:image/png;base64,QUJD" eq_refl)
    as (l & Hl & _ & _ & _ & Hh & Hi & _).
  - discriminate.
  - reflexivity.
  - fold ed' in Hl, Hh, Hi. rewrite Hl, Hh, Hi. repeat split.
Defined.

(** X24. Leaving the edit mode for the analysis and coming back keeps the
    composition: the same layers array, the same timeline and index, the
    same uploaded image.  Leaving it for the generator wipes all of that
    for good, though the selection is left standing. *)
Theorem mode_round_trips (ed : Editor) :
  let viaAnalyze := handleModeChange EDIT (handleModeChange ANALYZE ed) in
  let viaGenerate := handleModeChange EDIT (handleModeChange GENERATE ed) in
  (AppState.layers (state viaAnalyze) = AppState.layers (state ed)
   /\ history viaAnalyze = history ed
   /\ currentIndex viaAnalyze = currentIndex ed
   /\ AppState.uploadedImage (state viaAnalyze) = AppState.uploadedImage (state ed))
  /\ (liveLayers viaGenerate = []
      /\ history viaGenerate = []
      /\ currentIndex viaGenerate = -1
      /\ AppState.uploadedImage (state viaGenerate) = None
      /\ AppState.activeLayerId (state viaGenerate)
         = AppState.activeLayerId (state ed)).
Proof.
  unfold handleModeChange, allocating, new, liveLayers, history, currentIndex.
  simpl. repeat split.
Qed.

(** X25. A click on the crop overlay, without a drag, selects a rectangle
    of no width and no height, and "Apply Crop" takes it: the stack is
    replaced by one background layer whose image is what the browser
    encodes for a canvas zero pixels wide and high. *)
Theorem click_crops_to_nothing
        (b : Browser) (e : MouseEvent) (tId tStamp : Z) (u : Ui)
        (uploaded : string) (dim : Dimensions) (iw ih : Js.number) :
  showCropTools (editor u) = true ->
  AppState.uploadedImage (state (editor u)) = Some uploaded ->
  uploaded <> EmptyString ->
  imageDimensions (editor u) = Some dim ->
  decode b false uploaded = Some (iw, ih) ->
  context2d b = true ->
  let clicked := handleCropEnd (handleCropStart e u) in
  let ed' := applyCurrentCrop b tId tStamp (editor clicked) in
  cropSelection (editor clicked) = Some (Rect.mk (offsetX e) (offsetY e) 0 0)
  /\ exists raster base item,
      (Canvas.rasterWidth raster == 0)%Q
      /\ (Canvas.rasterHeight raster == 0)%Q
      /\ liveLayers ed' = [Ref base]
      /\ Layer.src (val base)
         = Some (encode b raster (getMimeTypeFromDataUri uploaded))
      /\ AppState.uploadedImage (state ed')
         = Some (encode b raster (getMimeTypeFromDataUri uploaded))
      /\ history ed' = [item].
Proof.
  intros Hcrop Hup Hne Hdim Hdec Hctx clicked ed'.
  assert (Hsel : cropSelection (editor clicked)
                 = Some (Rect.mk (offsetX e) (offsetY e) 0 0)).
  { unfold clicked, handleCropEnd, handleCropStart. rewrite Hcrop. reflexivity. }
  split; [exact Hsel|].
  assert (Hup' : AppState.uploadedImage (state (editor clicked)) = Some uploaded).
  { unfold clicked, handleCropEnd, handleCropStart. rewrite Hcrop. exact Hup. }
  assert (Hdim' : imageDimensions (editor clicked) = Some dim).
  { unfold clicked, handleCropEnd, handleCropStart. rewrite Hcrop. exact Hdim. }
  unfold ed', applyCurrentCrop. rewrite Hsel, Hup', Hdim'.
  destruct uploaded as [|c s]; [contradiction|]. cbn [Js.truthyStr negb].
  unfold cropImage. rewrite Hdec, Hctx. cbn [negb].
  match goal with
  | |- context [handleImageUpload (encode b ?r ?m) tId tStamp ?ed] =>
      destruct (handleImageUpload_spec (encode b r m) tId tStamp ed)
        as (base & item & Hl & Hv & Hh & _ & _ & _ & Hu & _);
      exists r, base, item
  end.
  split; [cbn [Canvas.rasterWidth finalCrop Rect.width]; ring|].
  split; [cbn [Canvas.rasterHeight finalCrop Rect.height]; ring|].
  split; [exact Hl|]. split; [rewrite Hv; reflexivity|].
  split; [exact Hu | exact Hh].
Qed.

Lemma click_crops_to_nothing_witness :
  let clicked := handleCropEnd (handleCropStart demoPress demoCropping) in
  cropSelection (editor clicked) = Some (Rect.mk (140 - 100) (90 - 50) 0 0)
  /\ Js.length (liveLayers (applyCurrentCrop demoBrowser 7 7 (editor clicked))) = 1.
Proof.
  intros clicked.
  destruct (click_crops_to_nothing demoBrowser demoPress 7 7 demoCropping
              demoUpload (mkDimensions 100 50 200 100) 200 100
              eq_refl eq_refl) as (Hsel & raster & base & item & _ & _ & Hl & _).
  - discriminate.
  - reflexivity.
  - reflexivity.
  - reflexivity.
  - split; [exact Hsel|]. fold clicked in Hl. rewrite Hl. reflexivity.
Defined.

(** X26. A locked layer cannot be grabbed: a press on it changes nothing,
    and with no drag under way the pointer move that follows moves
    nothing either. *)
Theorem locked_layer_cannot_be_dragged
        (e : MouseEvent) (u : Ui) (below above : list (Obj Layer.t))
        (o : Obj Layer.t) :
  liveLayers (editor u) = stackOf (below ++ o :: above) ->
  (forall x, In x below -> Layer.id (val x) <> Layer.id (val o)) ->
  Layer.locked (val o) = true ->
  isDraggingLayer (pointer u) = false ->
  isDragging (pointer u) = false ->
  handleLayerMouseDown (Layer.id (val o)) u = UiDone u
  /\ handleLayerClick (Layer.id (val o)) u = UiDone u
  /\ handleMouseMove e u = UiDone u.
Proof.
  intros Hlive Huniq Hlock Hlayer Hdrag.
  assert (Hfind : findLayer (Layer.id (val o)) (liveLayers (editor u)) = Some (Some o)).
  { rewrite Hlive. apply findLayer_unique; [exact Huniq | reflexivity]. }
  unfold handleLayerMouseDown, handleLayerClick, handleMouseMove.
  fold (liveLayers (editor u)). rewrite Hfind, Hlock, Hlayer, Hdrag.
  split; [reflexivity|]. split; [reflexivity|].
  destruct (showBrushTools (pointer u) || showCropTools (editor u)); [reflexivity|].
  destruct (AppState.activeLayerId (state (editor u))); reflexivity.
Qed.

Lemma locked_layer_cannot_be_dragged_witness :
  handleLayerMouseDown "layer-base" demoUi = UiDone demoUi
  /\ handleMouseMove demoDrag demoUi = UiDone demoUi.
Proof.
  destruct (locked_layer_cannot_be_dragged demoDrag demoUi []
              [mkObj 5%positive
                 (Layer.mk "text-2" text "Text Layer" true false 100 50 50 0 1
                           None None None (Some "Double click to edit"%string)
                           (Some 32%Q) (Some "#ffffff"%string)
                           (Some "Inter"%string) (Some "bold"%string))]
              (mkObj 2%positive
                 (Layer.mk "layer-base" image "Background" true true 100 0 0 0 1
                           None None (Some demoUpload) None None None None None)))
    as (H1 & _ & H2).
  - vm_compute. reflexivity.
  - intros x [].
  - reflexivity.
  - reflexivity.
  - reflexivity.
  - split; [exact H1 | exact H2].
Defined.

(** X27. The layers are painted independently of each other.  The
    composite of a stack is what each layer paints on a context in its
    initial state, one after the other from the bottom: no alpha,
    transformation, font or fill style of one layer reaches the next.
    What the lower part of a stack paints does not depend on what is
    above it, and after the last layer the context is back in its initial
    state with nothing left on its [save] stack. *)
Theorem layers_are_painted_independently
        (b : Browser) (lower upper : list (Obj Layer.t)) (width height : Js.number) :
  context2d b = true ->
  let c := composeLayers b (stackOf (lower ++ upper)) width height in
  result c
  = Promise.Resolved
      (encode b (Canvas.mkRaster width height (picture b lower ++ picture b upper))
              "image/png")
  /\ paintedBy (issued (composeLayers b (stackOf lower) width height))
     = picture b lower
  /\ paintedBy (issued c) = picture b lower ++ picture b upper
  /\ Canvas.current (Canvas.run Canvas.start (issued c)) = Canvas.initial
  /\ Canvas.saved (Canvas.run Canvas.start (issued c)) = []
  /\ console c = consoleOf b lower ++ consoleOf b upper.
Proof.
  intros Hctx c. subst c. rewrite !(composeLayers_stack b _ _ _ Hctx).
  cbn [result issued console]. unfold paintedBy, Canvas.start.
  rewrite !run_stack. cbn [Canvas.current Canvas.saved Canvas.painted app].
  fold (picture b lower) (picture b (lower ++ upper)).
  rewrite picture_app, consoleOf_app. repeat split.
Qed.

Lemma layers_are_painted_independently_witness :
  let rotated := mkObj 1%positive (demoImageLayer None None 90) in
  let label := mkObj 2%positive (demoTextLayer 0) in
  map (fun p => Canvas.transform (Canvas.under p))
      (paintedBy (issued (composeLayers demoBrowser (stackOf ([rotated] ++ [label]))
                            200 100)))
  = [[Canvas.Translate (10 + 200 * 1 / 2) (20 + 100 * 1 / 2);
      Canvas.Rotate (Canvas.ofDegrees 90);
      Canvas.Translate (- (10 + 200 * 1 / 2)) (- (20 + 100 * 1 / 2))]; []]%Q.
Proof.
  intros rotated label.
  destruct (layers_are_painted_independently demoBrowser [rotated] [label] 200 100
              eq_refl) as (_ & _ & H & _).
  rewrite H. reflexivity.
Defined.
